(** * The GitHub Models proxies: request and response translation

    A shallow embedding of the translation core of the two proxy scripts,

    - [scripts/github_proxy.py]        (module [GithubProxy]) and
    - [scripts/openrouter_to_github.py] (module [OpenRouter]),

    followed by the properties of model resolution, request normalisation
    and response translation that hold of them.

    Python values are JSON documents; a [dict] is an association list in
    insertion order (the order matters: the resolver's tie-break and the
    layout of every emitted document depend on it).  A Python [str] is a
    [string] whose characters stand for its code points; [bytes] are a
    [string] of octets.  Exceptions are explicit: a computation returns
    [Ok v] or [Raise e]. *)

From Stdlib Require Import String Ascii List ZArith Lia Bool DecimalString.
Import ListNotations.
Open Scope string_scope.
Open Scope list_scope.
Open Scope Z_scope.
Set Warnings "-register-all".

(* ================================================================== *)
(** * Python values and the library functions the scripts call *)
(* ================================================================== *)

Module Py.

(** A decoded JSON document.  A float is kept as the text [repr] prints
    for it, which identifies the value. *)
Inductive json : Type :=
| JNull
| JBool (b : bool)
| JInt (n : Z)
| JFloat (repr : string)
| JStr (s : string)
| JArr (items : list json)
| JObj (fields : list (string * json)).

Definition dict := list (string * json).

(** Exceptions: the class name and [str(e)]. *)
Inductive exn : Type := Exn (kind msg : string).

Definition str_of_exn (e : exn) : string := let 'Exn _ m := e in m.

Inductive result (A : Type) : Type :=
| Ok (a : A)
| Raise (e : exn).
Arguments Ok {A} a.
Arguments Raise {A} e.

Definition bind {A B} (c : result A) (k : A -> result B) : result B :=
  match c with
  | Ok a => k a
  | Raise e => Raise e
  end.

Declare Scope py_scope.
Delimit Scope py_scope with py.
Notation "x <- c ;; k" := (bind c (fun x => k))
  (at level 61, c at next level, right associativity) : py_scope.
Notation "' p <- c ;; k" := (bind c (fun x => let 'p := x in k))
  (at level 61, p pattern, c at next level, right associativity) : py_scope.

(** ** Strings *)

Definition nl : string := String "010"%char "".
Definition dquote : string := String "034"%char "".

(** [s[:n]] and [s[n:]] for [0 <= n]. *)
Fixpoint str_take (n : nat) (s : string) : string :=
  match n, s with
  | S n', String c s' => String c (str_take n' s')
  | _, _ => ""
  end.

Fixpoint str_drop (n : nat) (s : string) : string :=
  match n, s with
  | S n', String _ s' => str_drop n' s'
  | _, _ => s
  end.

Definition len (s : string) : Z := Z.of_nat (String.length s).

(** [s.startswith(p)]. *)
Definition startswith (s p : string) : bool := String.prefix p s.

(** [sub in s] on strings. *)
Fixpoint str_in (sub s : string) : bool :=
  String.prefix sub s ||
  match s with
  | EmptyString => false
  | String _ s' => str_in sub s'
  end.

(** [str.lower] on code points below 256: A-Z and the Latin-1 capitals. *)
Definition lower_char (c : ascii) : ascii :=
  let n := nat_of_ascii c in
  if ((65 <=? n) && (n <=? 90))%nat
     || ((192 <=? n) && (n <=? 222) && negb (n =? 215))%nat
  then ascii_of_nat (n + 32) else c.

Fixpoint lower (s : string) : string :=
  match s with
  | EmptyString => EmptyString
  | String c s' => String (lower_char c) (lower s')
  end.

(** [str(n)] for an integer. *)
Definition str_of_int (n : Z) : string := NilZero.string_of_int (Z.to_int n).

(** ** Dictionaries *)

Fixpoint dict_get {V} (d : list (string * V)) (k : string) : option V :=
  match d with
  | [] => None
  | (k', v) :: rest => if String.eqb k' k then Some v else dict_get rest k
  end.

(** [d.get(k, default)]. *)
Definition dict_get_default (d : dict) (k : string) (default : json) : json :=
  match dict_get d k with
  | Some v => v
  | None => default
  end.

(** [k in d]. *)
Definition dict_has {V} (d : list (string * V)) (k : string) : bool :=
  match dict_get d k with
  | Some _ => true
  | None => false
  end.

(** [d[k] = v]: an existing key keeps its place, a new one goes last. *)
Fixpoint dict_set (d : dict) (k : string) (v : json) : dict :=
  match d with
  | [] => [(k, v)]
  | (k', v') :: rest =>
      if String.eqb k' k then (k', v) :: rest else (k', v') :: dict_set rest k v
  end.

(** [d.pop(k, None)], the popped value dropped. *)
Definition dict_pop (d : dict) (k : string) : dict :=
  filter (fun kv => negb (String.eqb (fst kv) k)) d.

Definition keys {V} (d : list (string * V)) : list string := map fst d.

(** ** Truth, length, iteration, type names *)

(** [bool(v)]. *)
Definition truthy (v : json) : bool :=
  match v with
  | JNull => false
  | JBool b => b
  | JInt n => negb (n =? 0)
  | JFloat r => negb (String.eqb r "0.0" || String.eqb r "-0.0")
  | JStr s => negb (String.eqb s "")
  | JArr l => match l with [] => false | _ => true end
  | JObj d => match d with [] => false | _ => true end
  end.

Definition type_name (v : json) : string :=
  match v with
  | JNull => "NoneType"
  | JBool _ => "bool"
  | JInt _ => "int"
  | JFloat _ => "float"
  | JStr _ => "str"
  | JArr _ => "list"
  | JObj _ => "dict"
  end.

Definition no_attribute (v : json) (attr : string) : exn :=
  Exn "AttributeError"
      ("'" ++ type_name v ++ "' object has no attribute '" ++ attr ++ "'").

Definition not_iterable (v : json) : exn :=
  Exn "TypeError" ("'" ++ type_name v ++ "' object is not iterable").

Fixpoint chars (s : string) : list json :=
  match s with
  | EmptyString => []
  | String c s' => JStr (String c "") :: chars s'
  end.

(** [for x in v]: the elements of a list, the keys of a dict, the
    characters of a str; nothing else can be iterated. *)
Definition iter (v : json) : result (list json) :=
  match v with
  | JArr l => Ok l
  | JObj d => Ok (map (fun kv => JStr (fst kv)) d)
  | JStr s => Ok (chars s)
  | _ => Raise (not_iterable v)
  end.

(** The receiver of [m.get(...)]: only a dict has the method. *)
Definition as_dict (v : json) : result dict :=
  match v with
  | JObj d => Ok d
  | _ => Raise (no_attribute v "get")
  end.

(** ** The library functions

    [bytes.decode("utf-8")], [json.loads], [json.dumps] and [str] on a
    value that is not a [str] belong to the Python runtime, not to the
    scripts; the embedding takes them as given. *)
Class PyLib : Type := {
  utf8_decode : string -> result string;
  json_loads : string -> option json;   (* [None]: JSONDecodeError *)
  json_dumps : json -> string;
  py_repr : json -> string
}.

(** [str(v)]. *)
Definition py_str `{PyLib} (v : json) : string :=
  match v with
  | JStr s => s
  | _ => py_repr v
  end.

(** ** What the transport gives back

    [requests.post] either raises or returns a response: its status, its
    body text, and (for [stream=True]) the lines [iter_lines] yields,
    after which the iterator either stops or raises. *)
Record response : Type := {
  status_code : Z;
  text : string;
  lines : list string;
  broken : option exn
}.

Inductive post_outcome : Type :=
| PostRaises (e : exn)
| PostReturns (r : response).

(** [resp.json()]. *)
Definition response_json `{PyLib} (r : response) : result json :=
  match json_loads (text r) with
  | Some j => Ok j
  | None => Raise (Exn "JSONDecodeError" "Expecting value")
  end.

(** ** What a Flask view returns *)
Inductive flask_response : Type :=
| Response (body : string) (status : Z)          (* a text body *)
| Jsonify (body : json) (status : Z)             (* [jsonify(body), status] *)
| EventStream (frames : list string) (aborted : option exn).

End Py.

Import Py.
Local Open Scope py_scope.

(* ================================================================== *)
(** * scripts/openrouter_to_github.py *)
(* ================================================================== *)

Module OpenRouter.

Record Config : Type := {
  github_token : string;
  github_api_url : string;
  github_models_url : string;
  default_model : string;
  port : Z
}.

(** [load_config] with no environment variable set. *)
Definition default_config : Config := {|
  github_token := "";
  github_api_url := "https://api.github.com";
  github_models_url := "https://models.inference.ai.azure.com";
  default_model := "claude-4.5-opus";
  port := 8000
|}.

Definition MODEL_MAPPING : list (string * string) := [
  ("gpt-4", "gpt-4o");
  ("gpt-4-turbo", "gpt-4o");
  ("gpt-4o", "gpt-4o");
  ("gpt-4o-mini", "gpt-4o-mini");
  ("gpt-3.5-turbo", "gpt-4o-mini");
  ("o1", "o1");
  ("o1-mini", "o1-mini");
  ("o1-preview", "o1-preview");
  ("claude-3-opus", "claude-3-opus");
  ("claude-3-sonnet", "claude-3-sonnet");
  ("claude-3-haiku", "claude-3-haiku");
  ("claude-3.5-sonnet", "claude-3.5-sonnet");
  ("opus-4.5", "claude-4.5-opus");
  ("claude-4.5-opus", "claude-4.5-opus");
  ("llama-3", "meta-llama-3-70b-instruct");
  ("llama-3-70b", "meta-llama-3-70b-instruct");
  ("llama-3.1-405b", "meta-llama-3.1-405b-instruct");
  ("mistral-large", "mistral-large");
  ("mistral-small", "mistral-small");
  ("command-r", "cohere-command-r");
  ("command-r-plus", "cohere-command-r-plus")
].

(** The loop of [get_github_model] over [MODEL_MAPPING.items()]. *)
Fixpoint first_loose_match (requested_lower : string)
    (items : list (string * string)) : option string :=
  match items with
  | [] => None
  | (key, value) :: rest =>
      if str_in (lower key) requested_lower || str_in requested_lower (lower key)
      then Some value
      else first_loose_match requested_lower rest
  end.

Definition get_github_model (requested_model : string) (config : Config) : string :=
  match dict_get MODEL_MAPPING requested_model with
  | Some v => v
  | None =>
      let requested_lower := lower requested_model in
      match first_loose_match requested_lower MODEL_MAPPING with
      | Some v => v
      | None =>
          (* requested_model or config.default_model *)
          if String.eqb requested_model "" then default_model config
          else requested_model
      end
  end.

Section WithLib.
Context `{PyLib}.

(** The type error of [requested_model in MODEL_MAPPING] on an unhashable
    value, or of [requested_model.lower()] on a value that is not a str. *)
Definition model_type_error (v : json) : exn :=
  match v with
  | JArr _ | JObj _ => Exn "TypeError" ("unhashable type: '" ++ type_name v ++ "'")
  | _ => no_attribute v "lower"
  end.

Definition passthrough_keys : list string :=
  ["temperature"; "max_tokens"; "top_p"; "stream"; "stop";
   "presence_penalty"; "frequency_penalty"].

(** The [for key in passthrough_keys] loop. *)
Fixpoint copy_keys (ks : list string) (openai_request github_request : dict) : dict :=
  match ks with
  | [] => github_request
  | key :: rest =>
      match dict_get openai_request key with
      | Some v => copy_keys rest openai_request (dict_set github_request key v)
      | None => copy_keys rest openai_request github_request
      end
  end.

Definition transform_request (openai_request : dict) (config : Config) : result dict :=
  let messages := dict_get_default openai_request "messages" (JArr []) in
  let requested := dict_get_default openai_request "model" (JStr (default_model config)) in
  model <- match requested with
           | JStr s => Ok (get_github_model s config)
           | _ => Raise (model_type_error requested)
           end ;;
  Ok (copy_keys passthrough_keys openai_request
        [("messages", messages); ("model", JStr model)]).

(** The body of the generator [stream_response]: the frames yielded, and
    the exception that ends it early, if any. *)
Fixpoint relay (ls : list string) : list string * option exn :=
  match ls with
  | [] => ([], None)
  | line :: rest =>
      if String.eqb line "" then relay rest
      else match utf8_decode line with
           | Raise e => ([], Some e)
           | Ok decoded =>
               if startswith decoded "data: "
               then let '(frames, stop) := relay rest in
                    ((decoded ++ nl ++ nl)%string :: frames, stop)
               else relay rest
           end
  end.

Definition stream_response (github_response : response) : list string * option exn :=
  let '(frames, stop) := relay (lines github_response) in
  (frames, match stop with Some e => Some e | None => broken github_response end).

Definition api_error (r : response) : json :=
  JObj [("error", JObj [
    ("message", JStr ("GitHub Models API error: " ++ text r));
    ("type", JStr "api_error");
    ("code", JInt (status_code r))])].

(** Lines 151-173 of [chat_completions]: what is made of the upstream
    response. *)
Definition reply (github_response : response) (is_stream : bool) : result flask_response :=
  if negb (status_code github_response =? 200)
  then Ok (Jsonify (api_error github_response) (status_code github_response))
  else if is_stream
  then let '(frames, stop) := stream_response github_response in
       Ok (EventStream frames stop)
  else body <- response_json github_response ;;
       Ok (Jsonify body 200).

Definition configuration_error : json :=
  JObj [("error", JObj [("message", JStr "GITHUB_TOKEN not set");
                        ("type", JStr "configuration_error")])].

Definition invalid_request_error : json :=
  JObj [("error", JObj [("message", JStr "Invalid JSON body");
                        ("type", JStr "invalid_request_error")])].

(** [chat_completions]: [openai_request] is what [get_json(silent=True)]
    returned ([JNull] for a body that is not JSON); [net] is the upstream,
    answering the payload it is sent. *)
Definition chat_completions (config : Config) (openai_request : json)
    (net : dict -> post_outcome) : result flask_response :=
  if String.eqb (github_token config) "" then Ok (Jsonify configuration_error 500)
  else if negb (truthy openai_request) then Ok (Jsonify invalid_request_error 400)
  else
    d <- as_dict openai_request ;;
    github_request <- transform_request d config ;;
    let is_stream := truthy (dict_get_default github_request "stream" JNull) in
    match net github_request with
    | PostRaises e => Raise e
    | PostReturns github_response => reply github_response is_stream
    end.

End WithLib.

End OpenRouter.

(* ================================================================== *)
(** * scripts/github_proxy.py *)
(* ================================================================== *)

Module GithubProxy.

Definition MODEL_MAP : list (string * string) := [
  ("gpt-4o", "gpt-4o");
  ("gpt-4o-mini", "gpt-4o-mini");
  ("gpt-4", "gpt-4o");
  ("gpt-3.5-turbo", "gpt-4o-mini");
  ("o1", "o1");
  ("o1-mini", "o1-mini");
  ("o1-preview", "o1-preview");
  ("claude-3.5-sonnet", "claude-3-5-sonnet");
  ("claude-3-5-sonnet", "claude-3-5-sonnet")
].

Section WithLib.
Context `{PyLib}.

(** ** Token estimate and truncation *)

Definition estimate_tokens (text : json) : Z := len (py_str text) / 4.

(** [sum(estimate_tokens(m.get("content", "")) + 10 for m in messages)]. *)
Fixpoint sum_message_tokens (ms : list json) : result Z :=
  match ms with
  | [] => Ok 0
  | m :: rest =>
      d <- as_dict m ;;
      n <- sum_message_tokens rest ;;
      Ok (estimate_tokens (dict_get_default d "content" (JStr "")) + 10 + n)
  end.

(** [sum(estimate_tokens(json.dumps(t)) for t in tools)]. *)
Fixpoint sum_tool_tokens (ts : list json) : Z :=
  match ts with
  | [] => 0
  | t :: rest => estimate_tokens (JStr (json_dumps t)) + sum_tool_tokens rest
  end.

Definition truncation_marker : string :=
  (nl ++ nl ++ "[System prompt truncated for token limits]")%string.

(** [m.get("role") == "system"]. *)
Definition role_is_system (d : dict) : bool :=
  match dict_get d "role" with
  | Some (JStr r) => String.eqb r "system"
  | _ => false
  end.

Definition is_system (m : json) : result bool :=
  d <- as_dict m ;; Ok (role_is_system d).

Definition not_sliceable (v : json) : exn :=
  match v with
  | JArr _ =>
      Exn "TypeError"
          ("can only concatenate list (not " ++ dquote ++ "str" ++ dquote ++ ") to list")
  | JObj _ => Exn "KeyError" "slice(None, 12000, None)"
  | _ => Exn "TypeError" ("'" ++ type_name v ++ "' object is not subscriptable")
  end.

(** Strategy 1 on the first message [m0], known to have role "system":
    its content is cut to 12000 characters and marked when its own
    estimate is above 3000.  Only a str can be sliced and extended. *)
Definition truncate_system_prompt (m0 : dict) : result dict :=
  let system_content := dict_get_default m0 "content" (JStr "") in
  let system_tokens := estimate_tokens system_content in
  if 3000 <? system_tokens then
    match system_content with
    | JStr s =>
        let truncated := (str_take (Z.to_nat 12000) s ++ truncation_marker)%string in
        Ok (dict_set m0 "content" (JStr truncated))
    | _ => Raise (not_sliceable system_content)
    end
  else Ok m0.

(** Strategy 1 on the message list.  The first message is updated in
    place, so the change is seen through [data["messages"]] as well. *)
Definition strategy1 (messages : json) : result json :=
  match messages with
  | JArr (m0 :: rest) =>
      d0 <- as_dict m0 ;;
      if role_is_system d0 then
        d0' <- truncate_system_prompt d0 ;;
        Ok (JArr (JObj d0' :: rest))
      else Ok messages
  | _ => Ok messages                       (* [messages] is falsy *)
  end.

(** [[m for m in messages if m.get("role") == "system"]]. *)
Fixpoint system_messages (ms : list json) : result (list json) :=
  match ms with
  | [] => Ok []
  | m :: rest =>
      sys <- is_system m ;;
      tl <- system_messages rest ;;
      Ok (if sys then m :: tl else tl)
  end.

(** [l[-n:]] for [0 < n]. *)
Definition last_n {A} (n : nat) (l : list A) : list A :=
  skipn (length l - n) l.

(** Strategy 2: the system messages and the last five messages. *)
Definition strategy2 (data : dict) (messages : json) : result dict :=
  match messages with
  | JArr ms =>
      if 6 <? Z.of_nat (length ms) then
        system_msg <- system_messages ms ;;
        let recent_msgs := last_n 5 ms in
        Ok (dict_set data "messages" (JArr (system_msg ++ recent_msgs)))
      else Ok data
  | _ => Ok data                           (* an empty str or dict *)
  end.

(** Strategy 3: the first ten tools.  A str can be sliced too; a dict
    cannot. *)
Definition strategy3 (data : dict) (tools : json) : result dict :=
  match tools with
  | JArr ts =>
      if 10 <? Z.of_nat (length ts)
      then Ok (dict_set data "tools" (JArr (firstn 10 ts)))
      else Ok data
  | JStr s =>
      if 10 <? len s
      then Ok (dict_set data "tools" (JStr (str_take 10 s)))
      else Ok data
  | JObj d =>
      if 10 <? Z.of_nat (length d)
      then Raise (Exn "KeyError" "slice(None, 10, None)")
      else Ok data
  | _ => Ok data
  end.

Definition truncate_request (data : dict) (max_tokens : Z) : result dict :=
  let messages := dict_get_default data "messages" (JArr []) in
  let tools := dict_get_default data "tools" (JArr []) in
  ms <- iter messages ;;
  msg_tokens <- sum_message_tokens ms ;;
  ts <- iter tools ;;
  let tool_tokens := sum_tool_tokens ts in
  let total := msg_tokens + tool_tokens in
  if total <=? max_tokens then Ok data
  else
    messages' <- strategy1 messages ;;
    let data1 := if dict_has data "messages"
                 then dict_set data "messages" messages' else data in
    data2 <- strategy2 data1 messages' ;;
    strategy3 data2 tools.

(** ** The request side of [chat_completions] (lines 109-127) *)

(** [MODEL_MAP.get(requested_model, requested_model)]: the key must be
    hashable. *)
Definition map_model (requested_model : json) : result json :=
  match requested_model with
  | JStr s =>
      Ok match dict_get MODEL_MAP s with
         | Some v => JStr v
         | None => requested_model
         end
  | JArr _ | JObj _ =>
      Raise (Exn "TypeError" ("unhashable type: '" ++ type_name requested_model ++ "'"))
  | _ => Ok requested_model
  end.

(** The requested model, the stream flag and the payload sent upstream. *)
Definition prepare (data : dict) : result (json * json * dict) :=
  let requested_model := dict_get_default data "model" (JStr "gpt-4o") in
  github_model <- map_model requested_model ;;
  let data := dict_set data "model" github_model in
  let is_streaming := dict_get_default data "stream" (JBool false) in
  let data := dict_pop data "store" in
  data <- truncate_request data 6000 ;;
  Ok (requested_model, is_streaming, data).

(** ** The response side *)

(** ["model" in result]. *)
Definition contains_model (result : json) : Py.result bool :=
  match result with
  | JObj d => Ok (dict_has d "model")
  | JArr l => Ok (existsb (fun x => match x with
                                    | JStr s => String.eqb s "model"
                                    | _ => false
                                    end) l)
  | JStr s => Ok (str_in "model" s)
  | _ => Raise (Exn "TypeError"
                  ("argument of type '" ++ type_name result ++ "' is not iterable"))
  end.

(** [result["model"] = model]. *)
Definition set_model (result model : json) : Py.result json :=
  match result with
  | JObj d => Ok (JObj (dict_set d "model" model))
  | JArr _ => Raise (Exn "TypeError" "list indices must be integers or slices, not str")
  | _ => Raise (Exn "TypeError"
                  ("'" ++ type_name result ++ "' object does not support item assignment"))
  end.

Definition non_streaming_response (data : dict) (net : dict -> post_outcome)
    (model : json) : result flask_response :=
  match net data with
  | PostRaises e => Raise e
  | PostReturns resp =>
      if negb (status_code resp =? 200)
      then Ok (Response (text resp) (status_code resp))
      else
        result <- response_json resp ;;
        present <- contains_model result ;;
        if present
        then result' <- set_model result model ;; Ok (Jsonify result' 200)
        else Ok (Jsonify result 200)
  end.

(** One server-sent event: [f"data: {payload}\n\n"]. *)
Definition sse (payload : string) : string :=
  ("data: " ++ payload ++ nl ++ nl)%string.

Definition done_frame : string := sse "[DONE]".

Section Stream.
(** [chunk_id] and [created] are drawn once, when the generator starts. *)
Variables (chunk_id : string) (created : Z) (model : json).

Definition error_chunk (content : string) : json :=
  JObj [("id", JStr chunk_id);
        ("object", JStr "chat.completion.chunk");
        ("created", JInt created);
        ("model", model);
        ("choices", JArr [JObj [("index", JInt 0);
                                ("delta", JObj [("content", JStr content)]);
                                ("finish_reason", JStr "stop")]])].

Definition chunk_data (choices : json) (parsed : dict) : json :=
  let chunk := [("id", JStr chunk_id);
                ("object", JStr "chat.completion.chunk");
                ("created", JInt created);
                ("model", model);
                ("choices", choices)] in
  JObj match dict_get parsed "usage" with
       | Some usage => dict_set chunk "usage" usage
       | None => chunk
       end.

(** How the [for line in resp.iter_lines()] loop is left. *)
Inductive loop_end : Type :=
| Exhausted                 (* no line is left *)
| Broke                     (* [break], after the sentinel *)
| Raised (e : exn).

Fixpoint forward (ls : list string) : list string * loop_end :=
  match ls with
  | [] => ([], Exhausted)
  | line :: rest =>
      if String.eqb line "" then forward rest
      else match utf8_decode line with
           | Raise e => ([], Raised e)
           | Ok line =>
               if startswith line "data: " then
                 let data_content := str_drop 6 line in
                 if String.eqb data_content "[DONE]" then ([done_frame], Broke)
                 else match json_loads data_content with
                      | None => forward rest        (* JSONDecodeError: pass *)
                      | Some parsed =>
                          match as_dict parsed with
                          | Raise e => ([], Raised e)
                          | Ok p =>
                              let choices := dict_get_default p "choices" (JArr []) in
                              if negb (truthy choices) then forward rest
                              else let '(frames, stop) := forward rest in
                                   (sse (json_dumps (chunk_data choices p)) :: frames, stop)
                          end
                      end
               else forward rest
           end
  end.

(** The [except Exception as e] handler. *)
Definition on_exception (e : exn) : list string :=
  [sse (json_dumps (error_chunk ("Proxy error: " ++ str_of_exn e))); done_frame].

(** The generator [generate], run to its end, on what [requests.post]
    did. *)
Definition generate (outcome : post_outcome) : list string :=
  match outcome with
  | PostRaises e => on_exception e
  | PostReturns resp =>
      if negb (status_code resp =? 200)
      then [sse (json_dumps (error_chunk ("Error: " ++ str_of_int (status_code resp))));
            done_frame]
      else
        let '(frames, stop) := forward (lines resp) in
        match stop with
        | Raised e => frames ++ on_exception e
        | Broke => frames
        | Exhausted =>
            match broken resp with
            | Some e => frames ++ on_exception e
            | None => frames
            end
        end
  end.

End Stream.

Definition stream_response (chunk_id : string) (created : Z) (data : dict)
    (net : dict -> post_outcome) (model : json) : flask_response :=
  EventStream (generate chunk_id created model (net data)) None.

(** [chat_completions] for a POST whose body is the JSON object [data]. *)
Definition chat_completions (chunk_id : string) (created : Z) (data : dict)
    (net : dict -> post_outcome) : result flask_response :=
  '(requested_model, is_streaming, data) <- prepare data ;;
  if truthy is_streaming
  then Ok (stream_response chunk_id created data net requested_model)
  else non_streaming_response data net requested_model.

End WithLib.

End GithubProxy.

(* ================================================================== *)
(** * scripts/configure_github_proxy.py *)
(* ================================================================== *)

Module Configure.

Definition PROVIDER_NAME : string := "github-proxy".
Definition DEFAULT_MODEL : string := "claude-4.5-opus".
Definition MODEL_FALLBACK : string := "anthropic/claude-opus-4-5".

(** [f"{PROVIDER_NAME}/{DEFAULT_MODEL}"]. *)
Definition primary_model : string := (PROVIDER_NAME ++ "/" ++ DEFAULT_MODEL)%string.

(** [x = d.setdefault(k, default)] followed by statements that work on
    [x] in place, [body] giving the value [x] has after them: [d] then
    has [k] bound to that value.  Only a dict has the method. *)
Definition with_setdefault (d : json) (k : string) (default : json)
    (body : json -> result json) : result json :=
  match d with
  | JObj fields =>
      x <- body (dict_get_default fields k default) ;;
      Ok (JObj (dict_set fields k x))
  | _ => Raise (no_attribute d "setdefault")
  end.

(** [d[k] = v]. *)
Definition set_item (d : json) (k : string) (v : json) : result json :=
  match d with
  | JObj fields => Ok (JObj (dict_set fields k v))
  | JArr _ => Raise (Exn "TypeError" "list indices must be integers or slices, not str")
  | _ => Raise (Exn "TypeError"
                  ("'" ++ type_name d ++ "' object does not support item assignment"))
  end.

(** [x in c] for a str [x]. *)
Definition contains (c : json) (x : string) : result bool :=
  match c with
  | JArr l => Ok (existsb (fun y => match y with
                                    | JStr s => String.eqb s x
                                    | _ => false
                                    end) l)
  | JObj d => Ok (dict_has d x)
  | JStr s => Ok (str_in x s)
  | _ => Raise (Exn "TypeError"
                  ("argument of type '" ++ type_name c ++ "' is not iterable"))
  end.

(** [c.append(x)]. *)
Definition append (c : json) (x : json) : result json :=
  match c with
  | JArr l => Ok (JArr (l ++ [x]))
  | _ => Raise (no_attribute c "append")
  end.

(** [if MODEL_FALLBACK not in fallbacks: fallbacks.append(MODEL_FALLBACK)]. *)
Definition add_fallback (fallbacks : json) : result json :=
  present <- contains fallbacks MODEL_FALLBACK ;;
  if present then Ok fallbacks else append fallbacks (JStr MODEL_FALLBACK).

(** The statements on [model_cfg]. *)
Definition set_model_cfg (model_cfg : json) : result json :=
  model_cfg <- set_item model_cfg "primary" (JStr primary_model) ;;
  with_setdefault model_cfg "fallbacks" (JArr []) add_fallback.

(** The statements on [allowed]. *)
Definition set_allowed (allowed : json) : result json :=
  allowed <- with_setdefault allowed MODEL_FALLBACK (JObj [("alias", JStr "opus")]) Ok ;;
  set_item allowed primary_model (JObj [("alias", JStr "gh-opus")]).

(** The statements on [agents], the value of [agents.defaults]. *)
Definition set_agents (agents : json) : result json :=
  agents <- with_setdefault agents "model" (JObj []) set_model_cfg ;;
  with_setdefault agents "models" (JObj []) set_allowed.

Definition ensure_agent_defaults (cfg : json) : result json :=
  with_setdefault cfg "agents" (JObj [])
    (fun a => with_setdefault a "defaults" (JObj []) set_agents).

Definition zero_cost : json :=
  JObj [("input", JInt 0); ("output", JInt 0); ("cacheRead", JInt 0); ("cacheWrite", JInt 0)].

Definition provider_model (id name : string) (context_window : Z) : json :=
  JObj [("id", JStr id);
        ("name", JStr name);
        ("reasoning", JBool true);
        ("input", JArr [JStr "text"]);
        ("cost", zero_cost);
        ("contextWindow", JInt context_window);
        ("maxTokens", JInt 8192)].

Definition provider : json :=
  JObj [("api", JStr "openai-completions");
        ("baseUrl", JStr "http://127.0.0.1:8000/v1");
        ("apiKey", JStr "github-proxy-local");
        ("defaultHeaders",
         JObj [("HTTP-Referer", JStr "https://openclaw.local");
               ("X-Title", JStr "GitHub Proxy via OpenClaw")]);
        ("models",
         JArr [provider_model DEFAULT_MODEL "Claude 4.5 Opus (GitHub)" 200000;
               provider_model "gpt-4o" "GPT-4o (GitHub)" 128000])].

(** The statements on [models_block]. *)
Definition set_models_block (models_block : json) : result json :=
  models_block <- with_setdefault models_block "mode" (JStr "merge") Ok ;;
  with_setdefault models_block "providers" (JObj [])
    (fun providers => set_item providers PROVIDER_NAME provider).

Definition ensure_provider (cfg : json) : result json :=
  with_setdefault cfg "models" (JObj []) set_models_block.

(** [main] between reading and writing the file: [cfg] is the document
    read, the result the document written. *)
Definition configure (cfg : json) : result json :=
  cfg <- ensure_agent_defaults cfg ;;
  ensure_provider cfg.

End Configure.

(* ================================================================== *)
(** * A runtime to run the scripts on *)
(* ================================================================== *)

(** An instance of [PyLib] for evaluating the embedding on concrete
    exchanges.  [json_dumps] is [json.dumps] with its default separators
    and [ensure_ascii]; [utf8_decode] accepts the octets below 128, which
    decode to themselves; [py_repr] is [repr] on text without quotes or
    escapes.  [json_loads] is not a parser: it knows the documents of a
    corpus, returns a document of the corpus on its JSON text, as
    [json.loads] does, and fails on any other text, as [json.loads] does
    on the sentinel [[DONE]].  It is run below on those texts only. *)
Module Sample.

Definition hex_digit (n : nat) : string :=
  String.substring n 1 "0123456789abcdef".

(** [\u00XX]. *)
Definition u_escape (c : ascii) : string :=
  let n := nat_of_ascii c in
  (String "092"%char "u00" ++ hex_digit (n / 16) ++ hex_digit (n mod 16))%string.

Definition escape_char (c : ascii) : string :=
  let n := nat_of_ascii c in
  let backslash := String "092"%char "" in
  if (n =? 34)%nat then (backslash ++ dquote)%string
  else if (n =? 92)%nat then (backslash ++ backslash)%string
  else if (n =? 10)%nat then (backslash ++ "n")%string
  else if (n =? 13)%nat then (backslash ++ "r")%string
  else if (n =? 9)%nat then (backslash ++ "t")%string
  else if (n =? 8)%nat then (backslash ++ "b")%string
  else if (n =? 12)%nat then (backslash ++ "f")%string
  else if ((n <? 32) || (127 <? n))%nat then u_escape c
  else String c "".

Fixpoint escape (s : string) : string :=
  match s with
  | EmptyString => EmptyString
  | String c s' => (escape_char c ++ escape s')%string
  end.

Definition quoted (s : string) : string := (dquote ++ escape s ++ dquote)%string.

Fixpoint join (sep : string) (parts : list string) : string :=
  match parts with
  | [] => ""
  | [p] => p
  | p :: rest => (p ++ sep ++ join sep rest)%string
  end.

Fixpoint dumps (j : json) : string :=
  match j with
  | JNull => "null"
  | JBool true => "true"
  | JBool false => "false"
  | JInt n => str_of_int n
  | JFloat r => r
  | JStr s => quoted s
  | JArr l => ("[" ++ join ", " (map dumps l) ++ "]")%string
  | JObj d =>
      ("{" ++ join ", " (map (fun kv => let '(k, v) := kv in
                                        (quoted k ++ ": " ++ dumps v)%string) d)
           ++ "}")%string
  end.

(** [repr] of a str without quotes, backslashes or control characters. *)
Definition repr_str (s : string) : string := ("'" ++ s ++ "'")%string.

Fixpoint repr (j : json) : string :=
  match j with
  | JNull => "None"
  | JBool true => "True"
  | JBool false => "False"
  | JInt n => str_of_int n
  | JFloat r => r
  | JStr s => repr_str s
  | JArr l => ("[" ++ join ", " (map repr l) ++ "]")%string
  | JObj d =>
      ("{" ++ join ", " (map (fun kv => let '(k, v) := kv in
                                        (repr_str k ++ ": " ++ repr v)%string) d)
           ++ "}")%string
  end.

Fixpoint is_ascii (s : string) : bool :=
  match s with
  | EmptyString => true
  | String c s' => (nat_of_ascii c <? 128)%nat && is_ascii s'
  end.

Definition decode (b : string) : result string :=
  if is_ascii b then Ok b
  else Raise (Exn "UnicodeDecodeError" "'utf-8' codec can't decode byte").

Definition loads (corpus : list json) (s : string) : option json :=
  find (fun doc => String.eqb (dumps doc) s) corpus.

Definition lib (corpus : list json) : PyLib := {|
  utf8_decode := decode;
  json_loads := loads corpus;
  json_dumps := dumps;
  py_repr := repr
|}.

(** [c * n] for a one-character str [c]. *)
Fixpoint times (c : ascii) (n : nat) : string :=
  match n with
  | O => EmptyString
  | S n' => String c (times c n')
  end.

(** ** Documents and requests used below *)

Definition message (role content : string) : json :=
  JObj [("role", JStr role); ("content", JStr content)].

(** An upstream chunk with one choice, and one with none. *)
Definition delta_choice : json :=
  JObj [("index", JInt 0); ("delta", JObj [("content", JStr "Hi")])].

Definition delta_fields : dict :=
  [("id", JStr "up-1"); ("model", JStr "gpt-4o-2024-08-06");
   ("choices", JArr [delta_choice])].

Definition delta_chunk : json := JObj delta_fields.

Definition usage_fields : dict :=
  [("id", JStr "up-1"); ("model", JStr "gpt-4o-2024-08-06");
   ("choices", JArr []);
   ("usage", JObj [("total_tokens", JInt 12)])].

Definition usage_chunk : json := JObj usage_fields.

(** An upstream completion. *)
Definition completion : json :=
  JObj [("id", JStr "up-2"); ("model", JStr "gpt-4o-2024-08-06");
        ("choices", JArr [JObj [("index", JInt 0);
                                ("message", message "assistant" "Hi")]])].

Definition corpus : list json := [delta_chunk; usage_chunk; completion].

Definition data_line (doc : json) : string := ("data: " ++ dumps doc)%string.

Definition ok_response (body : string) (ls : list string) : response :=
  {| status_code := 200; text := body; lines := ls; broken := None |}.

Definition error_response (status : Z) (body : string) : response :=
  {| status_code := status; text := body; lines := []; broken := None |}.

(** A configuration with a token. *)
Definition config : OpenRouter.Config := {|
  OpenRouter.github_token := "ghp_example";
  OpenRouter.github_api_url := "https://api.github.com";
  OpenRouter.github_models_url := "https://models.inference.ai.azure.com";
  OpenRouter.default_model := "claude-4.5-opus";
  OpenRouter.port := 8000
|}.

(** An upstream stream: a chunk, a chunk without choices, the sentinel,
    with the blank lines that separate the events. *)
Definition sse_lines : list string :=
  [data_line delta_chunk; ""; data_line usage_chunk; ""; "data: [DONE]"; ""].

(** The same events without the blank lines. *)
Definition three_lines : list string :=
  [data_line delta_chunk; data_line usage_chunk; "data: [DONE]"].

(** The frame [github_proxy] makes of [delta_chunk] for a caller that
    asked for "gpt-4". *)
Definition delta_frame : string :=
  GithubProxy.sse (dumps (GithubProxy.chunk_data "chatcmpl-1" 1700000000 (JStr "gpt-4")
                            (JArr [delta_choice]) delta_fields)).

(** An upstream stream that stops after its first chunk. *)
Definition cut_lines : list string := [data_line delta_chunk; ""].

Definition answers (r : response) : dict -> post_outcome := fun _ => PostReturns r.

(** A short conversation, far below the budget. *)
Definition small_request : dict :=
  [("model", JStr "gpt-4");
   ("messages", JArr [message "system" "You are helpful."; message "user" "Hello"]);
   ("stream", JBool true);
   ("store", JBool true)].

Definition long_prompt : json := message "system" (times "x" (Z.to_nat 24000)).

Definition seven_turns : list json :=
  [message "user" "q1"; message "assistant" "a1";
   message "user" "q2"; message "assistant" "a2";
   message "user" "q3"; message "assistant" "a3";
   message "user" "q4"].

(** A system prompt of 24000 characters and seven turns. *)
Definition long_prompt_request : dict :=
  [("model", JStr "gpt-4"); ("messages", JArr (long_prompt :: seven_turns))].

Definition late_system : json := message "system" "Be brief.".

(** A long first turn, and a system message among the last five. *)
Definition late_system_request : dict :=
  [("model", JStr "gpt-4");
   ("messages", JArr [message "user" (times "x" (Z.to_nat 24000));
                      message "assistant" "a1";
                      message "user" "q2"; message "assistant" "a2";
                      message "user" "q3"; late_system;
                      message "user" "q4"])].

(** A request with a key outside the allow-list and a [store] flag. *)
Definition tagged_request : dict :=
  [("model", JStr "gpt-4");
   ("messages", JArr [message "user" "Hello"]);
   ("user", JStr "bob");
   ("store", JBool true);
   ("temperature", JFloat "0.7")].


(** A comment line of the event stream, and a line that is not UTF-8. *)
Definition keep_alive : string := ": keep-alive".
Definition bad_octets : string := String "255"%char (String "254"%char "").

(** A configuration file with a provider and a fallback of its own. *)
Definition stored_config : json :=
  JObj [("theme", JStr "dark");
        ("agents",
         JObj [("defaults",
                JObj [("model",
                       JObj [("primary", JStr "openai/gpt-4o");
                             ("fallbacks", JArr [JStr "openai/gpt-4o-mini"])])])]);
        ("models",
         JObj [("mode", JStr "replace");
               ("providers",
                JObj [("local", JObj [("baseUrl", JStr "http://127.0.0.1:1234")])])])].

Definition tool (name : string) : json :=
  JObj [("type", JStr "function"); ("function", JObj [("name", JStr name)])].

Definition twelve_tools : list json :=
  map tool ["t01"; "t02"; "t03"; "t04"; "t05"; "t06";
            "t07"; "t08"; "t09"; "t10"; "t11"; "t12"].

(** One long message and twelve tools. *)
Definition many_tools_request : dict :=
  [("model", JStr "gpt-4");
   ("messages", JArr [message "user" (times "x" (Z.to_nat 24000))]);
   ("tools", JArr twelve_tools)].

(** Seven messages, the last of them long. *)
Definition long_tail_request : dict :=
  [("model", JStr "gpt-4");
   ("messages", JArr [message "system" "Be brief.";
                      message "user" "q1"; message "assistant" "a1";
                      message "user" "q2"; message "assistant" "a2";
                      message "user" "q3";
                      message "user" (times "x" (Z.to_nat 28000))])].

(** Six hundred and one one-letter messages. *)
Definition long_history_request : dict :=
  [("model", JStr "gpt-4");
   ("messages", JArr (repeat (message "user" "k") (Z.to_nat 601)))].


End Sample.

(* ================================================================== *)
(** * Vocabulary of the specification *)
(* ================================================================== *)

Module Spec.

(** [a] occurs in [b]. *)
Definition substring_of (a b : string) : Prop :=
  exists p q, b = (p ++ a ++ q)%string.

(** Step 2 of the resolver: the case-insensitive test on one key. *)
Definition loose_match (key requested : string) : Prop :=
  substring_of (lower key) (lower requested) \/
  substring_of (lower requested) (lower key).

(** [v] is the value of the first entry of [table], in declaration
    order, whose key matches [requested] loosely. *)
Definition first_loose_entry (table : list (string * string))
    (requested v : string) : Prop :=
  exists pre k post,
    table = pre ++ (k, v) :: post /\
    loose_match k requested /\
    forall k' v', In (k', v') pre -> ~ loose_match k' requested.

(** A ChatMessage: an object whose content, when given, is text. *)
Definition is_chat_message (m : json) : bool :=
  match m with
  | JObj d => match dict_get d "content" with
              | None | Some (JStr _) => true
              | _ => false
              end
  | _ => false
  end.

(** A ChatRequest: a model id that is a string, a sequence of
    ChatMessages and a sequence of tools, each of them optional. *)
Definition is_chat_request (data : dict) : bool :=
  match dict_get data "model" with
  | None | Some (JStr _) => true
  | _ => false
  end &&
  match dict_get data "messages" with
  | None => true
  | Some (JArr ms) => forallb is_chat_message ms
  | _ => false
  end &&
  match dict_get data "tools" with
  | None | Some (JArr _) => true
  | _ => false
  end.

Definition messages_of (data : dict) : list json :=
  match dict_get data "messages" with
  | Some (JArr ms) => ms
  | _ => []
  end.

Definition tools_of (data : dict) : list json :=
  match dict_get data "tools" with
  | Some (JArr ts) => ts
  | _ => []
  end.

Definition content_of (m : json) : string :=
  match m with
  | JObj d => match dict_get d "content" with
              | Some (JStr s) => s
              | _ => ""
              end
  | _ => ""
  end.

Definition has_role (role : string) (m : json) : bool :=
  match m with
  | JObj d => match dict_get d "role" with
              | Some (JStr r) => String.eqb r role
              | _ => false
              end
  | _ => false
  end.

Definition sum_Z (l : list Z) : Z := fold_right Z.add 0 l.

(** The estimate of the specification: a quarter of the content's
    length plus 10 for each message, a quarter of the length of its
    JSON text for each tool. *)
Definition estimated_tokens `{PyLib} (messages tools : list json) : Z :=
  sum_Z (map (fun m => len (content_of m) / 4 + 10) messages) +
  sum_Z (map (fun t => len (json_dumps t) / 4) tools).

(** Step (a) of the truncation on a system message, in the words of the
    specification. *)
Definition cut_system_prompt (m : json) : json :=
  match m with
  | JObj d =>
      if 3000 <? len (content_of m) / 4
      then JObj (dict_set d "content"
                   (JStr (str_take (Z.to_nat 12000) (content_of m)
                          ++ GithubProxy.truncation_marker)))
      else m
  | _ => m
  end.

(** Step (a) on a message list: only a leading system message is cut. *)
Definition first_cut (msgs : list json) : list json :=
  match msgs with
  | m0 :: rest => (if has_role "system" m0 then cut_system_prompt m0 else m0) :: rest
  | [] => []
  end.

(** Steps (a) and (b): the messages that survive an over-budget request. *)
Definition kept_messages (msgs : list json) : list json :=
  let msgs' := first_cut msgs in
  if (6 <? length msgs)%nat
  then filter (has_role "system") msgs' ++ GithubProxy.last_n 5 msgs'
  else msgs'.

(** Step (c). *)
Definition kept_tools (tools : list json) : list json :=
  if (10 <? length tools)%nat then firstn 10 tools else tools.

(** An outbound frame that carries [model]: an event whose payload is the
    JSON text of an object with that [model] field. *)
Definition carries_model `{PyLib} (model : json) (frame : string) : Prop :=
  exists chunk, frame = GithubProxy.sse (json_dumps (JObj chunk)) /\
                dict_get chunk "model" = Some model.

(** Some line of the upstream is the sentinel event. *)
Definition has_sentinel `{PyLib} (ls : list string) : Prop :=
  exists l, In l ls /\ l <> "" /\ utf8_decode l = Ok "data: [DONE]".

Definition is_object (v : json) : bool :=
  match v with
  | JObj _ => true
  | _ => false
  end.

(** The model of the request is absent or a string. *)
Definition model_is_text (data : dict) : bool :=
  match dict_get data "model" with
  | None | Some (JStr _) => true
  | _ => false
  end.

(** The value found in a document by following keys through nested
    objects. *)
Fixpoint path_get (j : json) (path : list string) : option json :=
  match path with
  | [] => Some j
  | k :: rest =>
      match j with
      | JObj fields =>
          match dict_get fields k with
          | Some v => path_get v rest
          | None => None
          end
      | _ => None
      end
  end.

(** The shape the helper expects of a configuration: an entry it
    descends into is absent or has the shape given. *)
Definition entry (shape : json -> bool) (fields : dict) (k : string) : bool :=
  match dict_get fields k with
  | None => true
  | Some v => shape v
  end.

Definition is_list (v : json) : bool :=
  match v with
  | JArr _ => true
  | _ => false
  end.

Definition with_fields (shape : dict -> bool) (v : json) : bool :=
  match v with
  | JObj fields => shape fields
  | _ => false
  end.

Definition shaped_model_cfg : json -> bool :=
  with_fields (fun f => entry is_list f "fallbacks").

Definition shaped_defaults : json -> bool :=
  with_fields (fun f => entry shaped_model_cfg f "model" && entry is_object f "models").

Definition shaped_agents : json -> bool :=
  with_fields (fun f => entry shaped_defaults f "defaults").

Definition shaped_models_block : json -> bool :=
  with_fields (fun f => entry is_object f "providers").

(** A configuration whose [agents], [agents.defaults],
    [agents.defaults.model], [agents.defaults.models], [models] and
    [models.providers] are objects and whose
    [agents.defaults.model.fallbacks] is a list, wherever they are
    present. *)
Definition well_shaped : json -> bool :=
  with_fields (fun f => entry shaped_agents f "agents"
                        && entry shaped_models_block f "models").

(** An update that has nothing left to do on its own results. *)
Definition settled (u : json -> result json) : Prop :=
  forall x x', u x = Ok x' -> u x' = Ok x'.

(** An update of the entry [k] of an object: it rebinds [k] and nothing
    else, and leaves alone an object whose [k] already has the value it
    produced. *)
Definition keyed (k : string) (u : json -> result json) : Prop :=
  forall d out, u d = Ok out ->
    exists fields x,
      d = JObj fields /\ out = JObj (dict_set fields k x) /\
      forall fields', dict_get fields' k = Some x ->
                      u (JObj fields') = Ok (JObj fields').

(** What [openrouter_to_github.stream_response] makes of one line that
    can be decoded: a data event is relayed, anything else is dropped. *)
Definition relayed_frames `{PyLib} (line : string) : list string :=
  if String.eqb line "" then []
  else match utf8_decode line with
       | Ok t => if startswith t "data: " then [(t ++ nl ++ nl)%string] else []
       | Raise _ => []
       end.

(** Every line that is not blank can be decoded. *)
Definition all_decodable `{PyLib} (ls : list string) : Prop :=
  forall l, In l ls -> l <> "" -> exists t, utf8_decode l = Ok t.

(** An upstream answer with status 200. *)
Definition ok_stream (body : string) (ls : list string) (tail : option exn) : response :=
  {| status_code := 200; text := body; lines := ls; broken := tail |}.

(** A line the loop of [generate] drops without a trace: a blank line,
    a line that is not a data event, a data event whose payload is not
    JSON, or one whose payload is an object with no choice. *)
Definition is_noise `{PyLib} (line : string) : Prop :=
  line = "" \/
  exists t, utf8_decode line = Ok t /\
    (startswith t "data: " = false \/
     (startswith t "data: " = true /\ str_drop 6 t <> "[DONE]" /\
      (json_loads (str_drop 6 t) = None \/
       exists p, json_loads (str_drop 6 t) = Some (JObj p) /\
                 truthy (dict_get_default p "choices" (JArr [])) = false))).

(** A data event whose payload is an object with choices. *)
Definition is_chunk_line `{PyLib} (line : string) : Prop :=
  line <> "" /\
  exists t p, utf8_decode line = Ok t /\
    startswith t "data: " = true /\ str_drop 6 t <> "[DONE]" /\
    json_loads (str_drop 6 t) = Some (JObj p) /\
    truthy (dict_get_default p "choices" (JArr [])) = true.

(** A line that makes the loop raise, with the exception: the octets are
    not UTF-8, or the payload is JSON but not an object. *)
Definition is_faulty `{PyLib} (line : string) (e : exn) : Prop :=
  line <> "" /\
  (utf8_decode line = Raise e \/
   exists t j, utf8_decode line = Ok t /\
     startswith t "data: " = true /\ str_drop 6 t <> "[DONE]" /\
     json_loads (str_drop 6 t) = Some j /\ is_object j = false /\
     e = no_attribute j "get").

(** A frame made by the proxy: an object with the identifier and the
    timestamp of the stream, the fixed object name, and no key beyond
    [id], [object], [created], [model], [choices] and [usage]. *)
Definition proxy_chunk `{PyLib} (chunk_id : string) (created : Z) (frame : string) : Prop :=
  exists chunk,
    frame = GithubProxy.sse (json_dumps (JObj chunk)) /\
    dict_get chunk "id" = Some (JStr chunk_id) /\
    dict_get chunk "object" = Some (JStr "chat.completion.chunk") /\
    dict_get chunk "created" = Some (JInt created) /\
    (keys chunk = ["id"; "object"; "created"; "model"; "choices"] \/
     keys chunk = ["id"; "object"; "created"; "model"; "choices"; "usage"]).

(** The upstream ends the stream itself: the call or the reading fails,
    the status is not 200, or the sentinel event arrives. *)
Definition closes_stream `{PyLib} (outcome : post_outcome) : Prop :=
  match outcome with
  | PostRaises _ => True
  | PostReturns resp =>
      status_code resp <> 200 \/ broken resp <> None \/ has_sentinel (lines resp)
  end.

(** A frame relayed from the upstream: a decoded line and a blank line. *)
Definition relayed `{PyLib} (ls : list string) (frame : string) : Prop :=
  exists l t, In l ls /\ utf8_decode l = Ok t /\ frame = (t ++ nl ++ nl)%string.

End Spec.

Import Spec.

(* ================================================================== *)
(** * Strings and dictionaries *)
(* ================================================================== *)

Lemma prefix_app (p s : string) :
  String.prefix p s = true <-> exists q, s = (p ++ q)%string.
Proof.
  revert s. induction p as [|c p IH]; intros s; simpl.
  - split; [intros _; now exists s | intros _; now destruct s].
  - destruct s as [|c' s]; simpl.
    + split; [discriminate | intros [q Hq]; discriminate].
    + destruct (Ascii.ascii_dec c c') as [->|Hne].
      * rewrite IH. split; intros [q Hq]; exists q; [now rewrite Hq | now inversion Hq].
      * split; [discriminate | intros [q Hq]; inversion Hq; congruence].
Qed.

(** [str_in] decides occurrence. *)
Lemma str_in_spec (sub s : string) :
  str_in sub s = true <-> substring_of sub s.
Proof.
  unfold substring_of. induction s as [|c s IH]; cbn [str_in].
  - rewrite orb_false_r, prefix_app. split.
    + intros [q Hq]. now exists "", q.
    + intros [p [q Hq]]. destruct p; simpl in Hq; [now exists q | discriminate].
  - rewrite orb_true_iff, prefix_app, IH. split.
    + intros [[q Hq] | [p [q Hq]]].
      * now exists "", q.
      * exists (String c p), q. simpl. now rewrite Hq.
    + intros [p [q Hq]]. destruct p as [|c' p]; simpl in Hq.
      * left. now exists q.
      * right. exists p, q. now inversion Hq.
Qed.

Lemma str_in_empty (s : string) : str_in "" s = true.
Proof. destruct s; reflexivity. Qed.

Lemma dict_get_set_same (d : dict) k v : dict_get (dict_set d k v) k = Some v.
Proof.
  induction d as [|[k' v'] d IH]; simpl.
  - now rewrite String.eqb_refl.
  - destruct (String.eqb k' k) eqn:E; simpl; rewrite E; auto.
Qed.

Lemma dict_get_set_other (d : dict) k k' v :
  k <> k' -> dict_get (dict_set d k v) k' = dict_get d k'.
Proof.
  intros Hne. induction d as [|[k0 v0] d IH]; simpl.
  - destruct (String.eqb k k') eqn:E; [apply String.eqb_eq in E; contradiction | reflexivity].
  - destruct (String.eqb k0 k) eqn:E; simpl.
    + apply String.eqb_eq in E. subst k0.
      destruct (String.eqb k k') eqn:E'; [apply String.eqb_eq in E'; contradiction | reflexivity].
    + now rewrite IH.
Qed.

Lemma dict_get_pop_same (d : dict) k : dict_get (dict_pop d k) k = None.
Proof.
  induction d as [|[k' v'] d IH]; simpl; [reflexivity|].
  destruct (String.eqb k' k) eqn:E; simpl; [assumption | now rewrite E].
Qed.

Lemma dict_get_pop_other (d : dict) k k' :
  k <> k' -> dict_get (dict_pop d k) k' = dict_get d k'.
Proof.
  intros Hne. induction d as [|[k0 v0] d IH]; simpl; [reflexivity|].
  destruct (String.eqb k0 k) eqn:E; simpl.
  - apply String.eqb_eq in E. subst k0.
    destruct (String.eqb k k') eqn:E'; [apply String.eqb_eq in E'; contradiction | assumption].
  - now rewrite IH.
Qed.

(** Assigning to a key that is there keeps the keys and their order. *)
Lemma keys_set_present (d : dict) k v :
  dict_has d k = true -> keys (dict_set d k v) = keys d.
Proof.
  unfold dict_has, keys. induction d as [|[k' v'] d IH]; simpl; [discriminate|].
  destruct (String.eqb k' k) eqn:E; simpl; [reflexivity|].
  intros Hk. now rewrite IH.
Qed.

Lemma dict_has_set (d : dict) k v k' :
  dict_has (dict_set d k v) k' = String.eqb k k' || dict_has d k'.
Proof.
  unfold dict_has. destruct (String.eqb k k') eqn:E.
  - apply String.eqb_eq in E. subst. now rewrite dict_get_set_same.
  - rewrite dict_get_set_other; [reflexivity|].
    intros ->. now rewrite String.eqb_refl in E.
Qed.

Lemma dict_get_In {V} (d : list (string * V)) k v :
  NoDup (keys d) -> In (k, v) d -> dict_get d k = Some v.
Proof.
  unfold keys. induction d as [|[k' v'] d IH]; simpl; intros Hnd Hin; [contradiction|].
  inversion Hnd as [|? ? Hnotin Hnd']; subst.
  destruct Hin as [Heq | Hin].
  - inversion Heq; subst. now rewrite String.eqb_refl.
  - destruct (String.eqb k' k) eqn:E.
    + apply String.eqb_eq in E. subst k'. exfalso. apply Hnotin.
      change k with (fst (k, v)). now apply in_map.
    + now apply IH.
Qed.

Lemma dict_has_false {V} (d : list (string * V)) k :
  ~ In k (keys d) -> dict_get d k = None.
Proof.
  unfold keys. induction d as [|[k' v'] d IH]; simpl; intros Hnin; [reflexivity|].
  destruct (String.eqb k' k) eqn:E.
  - apply String.eqb_eq in E. tauto.
  - apply IH. tauto.
Qed.

(* ================================================================== *)
(** * Model resolution *)
(* ================================================================== *)

Lemma loose_match_bool (key requested : string) :
  loose_match key requested <->
  str_in (lower key) (lower requested) || str_in (lower requested) (lower key) = true.
Proof.
  unfold loose_match. now rewrite orb_true_iff, !str_in_spec.
Qed.

(** The loop stops at the first entry that matches loosely. *)
Lemma first_loose_match_finds table requested v :
  first_loose_entry table requested v ->
  OpenRouter.first_loose_match (lower requested) table = Some v.
Proof.
  intros (pre & k & post & -> & Hk & Hpre).
  induction pre as [|[k0 v0] pre IH]; simpl.
  - apply loose_match_bool in Hk. now rewrite Hk.
  - destruct (str_in (lower k0) (lower requested)
              || str_in (lower requested) (lower k0)) eqn:E.
    + exfalso. apply (Hpre k0 v0); [now left | now apply loose_match_bool].
    + apply IH. intros k' v' Hin. apply (Hpre k' v'). now right.
Qed.

Lemma nodup_by_computation (l : list string) :
  nodup string_dec l = l -> NoDup l.
Proof. intros <-. apply NoDup_nodup. Qed.

Lemma MODEL_MAPPING_keys_distinct : NoDup (keys OpenRouter.MODEL_MAPPING).
Proof. apply nodup_by_computation. vm_compute. reflexivity. Qed.

Lemma MODEL_MAP_keys_distinct : NoDup (keys GithubProxy.MODEL_MAP).
Proof. apply nodup_by_computation. vm_compute. reflexivity. Qed.

(** C3 (as amended).  [get_github_model] resolves in two steps, first
    match winning: an id that is a key of the mapping resolves to the
    mapped value; any other id resolves to the value of the first entry,
    in declaration order, whose lowercased key occurs in the lowercased
    id or contains it.  The lookup in [github_proxy.chat_completions] has
    the first step only: an id that is not a key is forwarded as it is. *)
Theorem resolve_steps (requested : string) (cfg : OpenRouter.Config) :
  (forall v, In (requested, v) OpenRouter.MODEL_MAPPING ->
             OpenRouter.get_github_model requested cfg = v) /\
  (~ In requested (keys OpenRouter.MODEL_MAPPING) ->
   forall v, first_loose_entry OpenRouter.MODEL_MAPPING requested v ->
             OpenRouter.get_github_model requested cfg = v) /\
  (forall v, In (requested, v) GithubProxy.MODEL_MAP ->
             GithubProxy.map_model (JStr requested) = Ok (JStr v)) /\
  (~ In requested (keys GithubProxy.MODEL_MAP) ->
   GithubProxy.map_model (JStr requested) = Ok (JStr requested)).
Proof.
  unfold OpenRouter.get_github_model, GithubProxy.map_model.
  repeat split.
  - intros v Hin.
    now rewrite (dict_get_In _ _ _ MODEL_MAPPING_keys_distinct Hin).
  - intros Hkey v Hfirst.
    rewrite (dict_has_false _ _ Hkey).
    now rewrite (first_loose_match_finds _ _ _ Hfirst).
  - intros v Hin.
    now rewrite (dict_get_In _ _ _ MODEL_MAP_keys_distinct Hin).
  - intros Hkey. now rewrite (dict_has_false _ _ Hkey).
Qed.

Ltac not_a_key := unfold keys; simpl; intuition discriminate.
Ltac decide_loose := rewrite loose_match_bool; vm_compute; congruence.

(** "openai/GPT-4o-mini" is no key; the earliest entry it matches is
    "gpt-4", so it resolves to "gpt-4o", not to "gpt-4o-mini".  The
    other proxy forwards it untouched. *)
Lemma resolve_steps_witness :
  OpenRouter.get_github_model "openai/GPT-4o-mini" OpenRouter.default_config = "gpt-4o" /\
  GithubProxy.map_model (JStr "gpt-4") = Ok (JStr "gpt-4o") /\
  GithubProxy.map_model (JStr "openai/GPT-4o-mini") = Ok (JStr "openai/GPT-4o-mini").
Proof.
  destruct (resolve_steps "openai/GPT-4o-mini" OpenRouter.default_config)
    as (_ & Hloose & _ & Hother).
  destruct (resolve_steps "gpt-4" OpenRouter.default_config) as (_ & _ & Hexact & _).
  split; [|split].
  - apply Hloose; [not_a_key|].
    exists [], "gpt-4", (tl OpenRouter.MODEL_MAPPING).
    split; [reflexivity|]. split; [decide_loose|]. intros ? ? [].
  - apply Hexact. simpl. tauto.
  - apply Hother. not_a_key.
Defined.

(** C3 (counterexample).  In [github_proxy], "gpt-4-turbo" is no key of
    the mapping and "gpt-4" is the first key that matches it loosely, yet
    the id is not resolved to that entry's value "gpt-4o". *)
Lemma github_proxy_has_no_loose_step :
  ~ (forall requested v,
       ~ In requested (keys GithubProxy.MODEL_MAP) ->
       first_loose_entry GithubProxy.MODEL_MAP requested v ->
       GithubProxy.map_model (JStr requested) = Ok (JStr v)).
Proof.
  intros Hclaim.
  specialize (Hclaim "gpt-4-turbo" "gpt-4o").
  assert (Hres : GithubProxy.map_model (JStr "gpt-4-turbo") = Ok (JStr "gpt-4o")).
  { apply Hclaim; [not_a_key|].
    exists [("gpt-4o", "gpt-4o"); ("gpt-4o-mini", "gpt-4o-mini")], "gpt-4",
           (skipn 3 GithubProxy.MODEL_MAP).
    split; [reflexivity|]. split; [decide_loose|].
    intros k' v' [Heq | [Heq | []]]; inversion Heq; subst; decide_loose. }
  vm_compute in Hres. discriminate.
Qed.

(** The empty id is contained in every key, so the loop of
    [get_github_model] returns at its first entry. *)
Lemma empty_model_takes_first_entry (cfg : OpenRouter.Config) :
  OpenRouter.get_github_model "" cfg = "gpt-4o".
Proof. reflexivity. Qed.

(** C4 (the code at the failing input).  For the empty id the resolver
    returns "gpt-4o", the value of the first entry, and not the
    configured default model; the fallback [requested_model or
    config.default_model] is never reached with an empty id.  A request
    whose model is the empty string is sent upstream as "gpt-4o". *)
Theorem empty_model_misses_default :
  OpenRouter.get_github_model "" OpenRouter.default_config = "gpt-4o" /\
  OpenRouter.default_model OpenRouter.default_config = "claude-4.5-opus" /\
  OpenRouter.get_github_model "" OpenRouter.default_config
    <> OpenRouter.default_model OpenRouter.default_config /\
  OpenRouter.transform_request [("model", JStr ""); ("messages", JArr [])]
    OpenRouter.default_config
  = Ok [("messages", JArr []); ("model", JStr "gpt-4o")].
Proof.
  rewrite empty_model_takes_first_entry.
  split; [reflexivity|]. split; [reflexivity|].
  split; [simpl; discriminate | reflexivity].
Qed.

(* ================================================================== *)
(** * Request normalisation *)
(* ================================================================== *)


Section Normalisation.
Context `{PyLib}.

Lemma Z_ltb_length {A} (n : nat) (l : list A) :
  (Z.of_nat n <? Z.of_nat (length l)) = (n <? length l)%nat.
Proof.
  destruct (Z.ltb_spec (Z.of_nat n) (Z.of_nat (length l)));
    destruct (Nat.ltb_spec n (length l)); (reflexivity || lia).
Qed.

Lemma chat_message_tokens (m : json) :
  is_chat_message m = true ->
  exists d, m = JObj d /\
            dict_get_default d "content" (JStr "") = JStr (content_of m).
Proof.
  destruct m as [| | | | |l|d]; simpl; try discriminate.
  intros Hm. exists d. split; [reflexivity|].
  unfold dict_get_default.
  destruct (dict_get d "content") as [[]|]; (discriminate || reflexivity).
Qed.

Lemma sum_message_tokens_chat (msgs : list json) :
  forallb is_chat_message msgs = true ->
  GithubProxy.sum_message_tokens msgs =
    Ok (sum_Z (map (fun m => len (content_of m) / 4 + 10) msgs)).
Proof.
  induction msgs as [|m msgs IH]; simpl; [reflexivity|].
  intros Hall. apply andb_true_iff in Hall as [Hm Hall].
  destruct (chat_message_tokens m Hm) as (d & -> & Hc).
  simpl. rewrite (IH Hall). simpl. rewrite Hc. reflexivity.
Qed.

Lemma sum_tool_tokens_spec (ts : list json) :
  GithubProxy.sum_tool_tokens ts = sum_Z (map (fun t => len (json_dumps t) / 4) ts).
Proof.
  induction ts as [|t ts IH]; simpl; [reflexivity|]. now rewrite IH.
Qed.

(** The parts of a ChatRequest as the code reads them. *)
Lemma chat_request_parts (data : dict) :
  is_chat_request data = true ->
  (exists s, dict_get_default data "model" (JStr "gpt-4o") = JStr s) /\
  dict_get_default data "messages" (JArr []) = JArr (messages_of data) /\
  forallb is_chat_message (messages_of data) = true /\
  dict_get_default data "tools" (JArr []) = JArr (tools_of data).
Proof.
  unfold is_chat_request, dict_get_default, messages_of, tools_of.
  intros Hreq. apply andb_true_iff in Hreq as [Hreq Htools].
  apply andb_true_iff in Hreq as [Hmodel Hmsgs].
  repeat split.
  - destruct (dict_get data "model") as [[]|]; try discriminate; eauto.
  - destruct (dict_get data "messages") as [[]|]; try discriminate; reflexivity.
  - destruct (dict_get data "messages") as [[]|]; try discriminate; auto.
  - destruct (dict_get data "tools") as [[]|]; try discriminate; reflexivity.
Qed.

(** Under budget, or over it: the first half of [truncate_request]. *)
Lemma truncate_request_budget (data : dict) (max_tokens : Z) :
  is_chat_request data = true ->
  GithubProxy.truncate_request data max_tokens =
    if estimated_tokens (messages_of data) (tools_of data) <=? max_tokens
    then Ok data
    else
      (messages' <- GithubProxy.strategy1 (JArr (messages_of data)) ;;
       let data1 := if dict_has data "messages"
                    then dict_set data "messages" messages' else data in
       data2 <- GithubProxy.strategy2 data1 messages' ;;
       GithubProxy.strategy3 data2 (JArr (tools_of data)))%py.
Proof.
  intros Hreq. destruct (chat_request_parts data Hreq) as (_ & Hm & Hall & Ht).
  unfold GithubProxy.truncate_request. rewrite Hm, Ht. simpl.
  rewrite (sum_message_tokens_chat _ Hall). simpl.
  rewrite sum_tool_tokens_spec. reflexivity.
Qed.

Lemma cut_system_prompt_role (m : json) (role : string) :
  has_role role (cut_system_prompt m) = has_role role m.
Proof.
  destruct m as [| | | | |l|d]; try reflexivity.
  unfold cut_system_prompt.
  destruct (3000 <? len (content_of (JObj d)) / 4); [|reflexivity].
  unfold has_role. rewrite dict_get_set_other by discriminate. reflexivity.
Qed.

Lemma cut_system_prompt_chat (m : json) :
  is_chat_message m = true -> is_chat_message (cut_system_prompt m) = true.
Proof.
  destruct m as [| | | | |l|d]; try discriminate.
  intros Hm. unfold cut_system_prompt.
  destruct (3000 <? len (content_of (JObj d)) / 4); [|assumption].
  unfold is_chat_message. now rewrite dict_get_set_same.
Qed.

Lemma first_cut_chat (msgs : list json) :
  forallb is_chat_message msgs = true ->
  forallb is_chat_message (first_cut msgs) = true.
Proof.
  destruct msgs as [|m0 rest]; simpl; [reflexivity|].
  intros Hall. apply andb_true_iff in Hall as [Hm Hall].
  rewrite Hall, andb_true_r.
  destruct (has_role "system" m0); [now apply cut_system_prompt_chat | assumption].
Qed.

Lemma first_cut_length (msgs : list json) : length (first_cut msgs) = length msgs.
Proof. destruct msgs; reflexivity. Qed.

(** Strategy 1 never fails on ChatMessages, and does what step (a) says. *)
Lemma strategy1_chat (msgs : list json) :
  forallb is_chat_message msgs = true ->
  GithubProxy.strategy1 (JArr msgs) = Ok (JArr (first_cut msgs)).
Proof.
  destruct msgs as [|m0 rest]; [reflexivity|].
  intros Hall. cbn [forallb] in Hall. apply andb_true_iff in Hall as [Hm _].
  destruct (chat_message_tokens m0 Hm) as (d & -> & Hc).
  unfold GithubProxy.strategy1, first_cut. cbn [as_dict bind].
  change (GithubProxy.role_is_system d) with (has_role "system" (JObj d)).
  destruct (has_role "system" (JObj d)); [|reflexivity].
  unfold GithubProxy.truncate_system_prompt, cut_system_prompt,
    GithubProxy.estimate_tokens.
  rewrite Hc. cbn [py_str].
  destruct (3000 <? len (content_of (JObj d)) / 4); reflexivity.
Qed.

Lemma system_messages_chat (msgs : list json) :
  forallb is_chat_message msgs = true ->
  GithubProxy.system_messages msgs = Ok (filter (has_role "system") msgs).
Proof.
  induction msgs as [|m msgs IH]; simpl; [reflexivity|].
  intros Hall. apply andb_true_iff in Hall as [Hm Hall].
  destruct (chat_message_tokens m Hm) as (d & -> & _).
  unfold GithubProxy.is_system. simpl. rewrite (IH Hall). simpl.
  unfold GithubProxy.role_is_system.
  destruct (dict_get d "role") as [[| | | |r| |]|]; reflexivity.
Qed.

Lemma messages_of_get (d d' : dict) :
  dict_get d' "messages" = dict_get d "messages" -> messages_of d' = messages_of d.
Proof. unfold messages_of. now intros ->. Qed.

Lemma tools_of_get (d d' : dict) :
  dict_get d' "tools" = dict_get d "tools" -> tools_of d' = tools_of d.
Proof. unfold tools_of. now intros ->. Qed.

Lemma has_messages (d : dict) : messages_of d <> [] -> dict_has d "messages" = true.
Proof.
  unfold messages_of, dict_has. destruct (dict_get d "messages"); [reflexivity|congruence].
Qed.

Lemma has_tools (d : dict) : tools_of d <> [] -> dict_has d "tools" = true.
Proof.
  unfold tools_of, dict_has. destruct (dict_get d "tools"); [reflexivity|congruence].
Qed.

Lemma long_list_nonempty {A} (n : nat) (l : list A) : (n <? length l)%nat = true -> l <> [].
Proof. destruct l; [discriminate | congruence]. Qed.

(** Strategy 2 on ChatMessages. *)
Lemma strategy2_chat (data : dict) :
  forallb is_chat_message (messages_of data) = true ->
  exists data2,
    GithubProxy.strategy2 data (JArr (messages_of data)) = Ok data2 /\
    messages_of data2 =
      (if (6 <? length (messages_of data))%nat
       then filter (has_role "system") (messages_of data)
            ++ GithubProxy.last_n 5 (messages_of data)
       else messages_of data) /\
    keys data2 = keys data /\
    forall k, k <> "messages" -> dict_get data2 k = dict_get data k.
Proof.
  intros Hall. unfold GithubProxy.strategy2.
  pose proof (Z_ltb_length 6 (messages_of data)) as E.
  change (Z.of_nat 6) with 6 in E. rewrite E.
  destruct (6 <? length (messages_of data))%nat eqn:E6.
  - rewrite (system_messages_chat _ Hall). cbn [bind].
    eexists. split; [reflexivity|]. repeat split.
    + unfold messages_of at 1. now rewrite dict_get_set_same.
    + apply keys_set_present, has_messages. eapply long_list_nonempty, E6.
    + intros k Hk. now apply dict_get_set_other.
  - exists data. auto.
Qed.

(** Strategy 3 on a sequence of tools. *)
Lemma strategy3_chat (data : dict) :
  exists out,
    GithubProxy.strategy3 data (JArr (tools_of data)) = Ok out /\
    tools_of out = kept_tools (tools_of data) /\
    keys out = keys data /\
    forall k, k <> "tools" -> dict_get out k = dict_get data k.
Proof.
  unfold GithubProxy.strategy3, kept_tools.
  pose proof (Z_ltb_length 10 (tools_of data)) as E.
  change (Z.of_nat 10) with 10 in E. rewrite E.
  destruct (10 <? length (tools_of data))%nat eqn:E10.
  - eexists. split; [reflexivity|]. repeat split.
    + unfold tools_of at 1. now rewrite dict_get_set_same.
    + apply keys_set_present, has_tools. eapply long_list_nonempty, E10.
    + intros k Hk. now apply dict_get_set_other.
  - exists data. auto.
Qed.

(** What [truncate_request] makes of an over-budget ChatRequest: it
    returns, with the messages and tools of steps (a) to (c) and every
    other entry as it was. *)
Lemma truncate_request_over (data : dict) (max_tokens : Z) :
  is_chat_request data = true ->
  max_tokens < estimated_tokens (messages_of data) (tools_of data) ->
  exists out,
    GithubProxy.truncate_request data max_tokens = Ok out /\
    messages_of out = kept_messages (messages_of data) /\
    tools_of out = kept_tools (tools_of data) /\
    keys out = keys data /\
    forall k, k <> "messages" -> k <> "tools" -> dict_get out k = dict_get data k.
Proof.
  intros Hreq Hover.
  destruct (chat_request_parts data Hreq) as (_ & _ & Hall & _).
  rewrite (truncate_request_budget _ _ Hreq).
  destruct (Z.leb_spec (estimated_tokens (messages_of data) (tools_of data)) max_tokens)
    as [Hle|_]; [lia|].
  rewrite (strategy1_chat _ Hall). cbn [bind].
  set (data1 := if dict_has data "messages"
                then dict_set data "messages" (JArr (first_cut (messages_of data)))
                else data).
  assert (H1m : messages_of data1 = first_cut (messages_of data)).
  { subst data1. unfold dict_has. destruct (dict_get data "messages") eqn:Em.
    - unfold messages_of at 1. now rewrite dict_get_set_same.
    - unfold messages_of. now rewrite Em. }
  assert (H1k : keys data1 = keys data).
  { subst data1. destruct (dict_has data "messages") eqn:Em; [|reflexivity].
    now apply keys_set_present. }
  assert (H1o : forall k, k <> "messages" -> dict_get data1 k = dict_get data k).
  { intros k Hk. subst data1. destruct (dict_has data "messages"); [|reflexivity].
    now apply dict_get_set_other. }
  pose proof (first_cut_chat _ Hall) as Hall1. rewrite <- H1m in Hall1.
  destruct (strategy2_chat data1 Hall1) as (data2 & E2 & H2m & H2k & H2o).
  rewrite <- H1m, E2. cbn [bind].
  assert (H2t : tools_of data2 = tools_of data).
  { apply tools_of_get. rewrite H2o, H1o by discriminate. reflexivity. }
  destruct (strategy3_chat data2) as (out & E3 & H3t & H3k & H3o).
  rewrite <- H2t, E3. exists out. split; [reflexivity|]. repeat split.
  - rewrite (messages_of_get data2 out) by (apply H3o; discriminate).
    rewrite H2m, H1m. unfold kept_messages. now rewrite first_cut_length.
  - now rewrite H3t, H2t.
  - now rewrite H3k, H2k, H1k.
  - intros k Hm Ht. now rewrite H3o, H2o, H1o.
Qed.

(** The request side on a ChatRequest, up to the truncation. *)
Lemma prepare_chat (data : dict) :
  is_chat_request data = true ->
  exists github_model data',
    GithubProxy.map_model (dict_get_default data "model" (JStr "gpt-4o"))
      = Ok (JStr github_model) /\
    data' = dict_pop (dict_set data "model" (JStr github_model)) "store" /\
    is_chat_request data' = true /\
    messages_of data' = messages_of data /\
    tools_of data' = tools_of data /\
    GithubProxy.prepare data =
      (out <- GithubProxy.truncate_request data' 6000 ;;
       Ok (dict_get_default data "model" (JStr "gpt-4o"),
           dict_get_default (dict_set data "model" (JStr github_model))
             "stream" (JBool false),
           out))%py.
Proof.
  intros Hreq. destruct (chat_request_parts data Hreq) as ((s & Hs) & _).
  unfold GithubProxy.prepare. rewrite Hs. cbn [GithubProxy.map_model bind].
  set (gm := match dict_get GithubProxy.MODEL_MAP s with
             | Some v => JStr v
             | None => JStr s
             end).
  assert (Hgm : exists g, gm = JStr g) by (subst gm; destruct (dict_get _ s); eauto).
  destruct Hgm as (g & Hg). rewrite Hg.
  exists g, (dict_pop (dict_set data "model" (JStr g)) "store").
  assert (Hget : forall k, k <> "model" -> k <> "store" ->
            dict_get (dict_pop (dict_set data "model" (JStr g)) "store") k
            = dict_get data k).
  { intros k Hk1 Hk2. rewrite dict_get_pop_other, dict_get_set_other; congruence. }
  repeat split.
  - unfold is_chat_request in *.
    rewrite dict_get_pop_other, dict_get_set_same by discriminate.
    rewrite !Hget by discriminate.
    apply andb_true_iff in Hreq as [Hreq Ht].
    apply andb_true_iff in Hreq as [_ Hm]. now rewrite Hm, Ht.
  - apply messages_of_get, Hget; discriminate.
  - apply tools_of_get, Hget; discriminate.
Qed.

End Normalisation.

Lemma dict_has_In {V} (d : list (string * V)) k :
  dict_has d k = true <-> In k (keys d).
Proof.
  unfold dict_has, keys. induction d as [|[k' v'] d IH]; simpl.
  - split; [discriminate | contradiction].
  - destruct (String.eqb k' k) eqn:E.
    + apply String.eqb_eq in E. tauto.
    + rewrite IH. split; [tauto|]. intros [Heq | Hin]; [|assumption].
      subst. now rewrite String.eqb_refl in E.
Qed.

Lemma dict_has_keys {V W} (d : list (string * V)) (d' : list (string * W)) k :
  keys d = keys d' -> dict_has d k = dict_has d' k.
Proof.
  intros Hk. destruct (dict_has d' k) eqn:E.
  - apply dict_has_In. rewrite Hk. now apply dict_has_In.
  - destruct (dict_has d k) eqn:E'; [|reflexivity].
    apply dict_has_In in E'. rewrite Hk in E'. apply dict_has_In in E'. congruence.
Qed.

Section Prepared.
Context `{PyLib}.

(** [prepare] returns on every ChatRequest: the requested model and the
    stream flag are read off the request, the payload has the keys of
    the request with [model] set and [store] removed, and its messages
    and tools are those of the request when the estimate is within the
    budget, and those of steps (a) to (c) otherwise. *)
Lemma prepare_result (data : dict) :
  is_chat_request data = true ->
  exists github_model is_streaming payload,
    GithubProxy.prepare data =
      Ok (dict_get_default data "model" (JStr "gpt-4o"), is_streaming, payload) /\
    keys payload = keys (dict_pop (dict_set data "model" (JStr github_model)) "store") /\
    (forall k, k <> "messages" -> k <> "tools" ->
       dict_get payload k
       = dict_get (dict_pop (dict_set data "model" (JStr github_model)) "store") k) /\
    (estimated_tokens (messages_of data) (tools_of data) <= 6000 ->
       dict_get payload "messages" = dict_get data "messages" /\
       messages_of payload = messages_of data /\ tools_of payload = tools_of data) /\
    (6000 < estimated_tokens (messages_of data) (tools_of data) ->
       messages_of payload = kept_messages (messages_of data) /\
       tools_of payload = kept_tools (tools_of data)).
Proof.
  intros Hreq.
  destruct (prepare_chat data Hreq) as (g & data' & _ & -> & Hreq' & Hm & Ht & ->).
  set (data' := dict_pop (dict_set data "model" (JStr g)) "store") in *.
  exists g.
  destruct (Z.leb_spec (estimated_tokens (messages_of data) (tools_of data)) 6000)
    as [Hle | Hgt].
  - rewrite (truncate_request_budget _ _ Hreq'), Hm, Ht.
    apply Z.leb_le in Hle as Hle'. rewrite Hle'. cbn [bind].
    eexists _, data'. split; [reflexivity|]. repeat split; auto; try lia.
    subst data'. now rewrite dict_get_pop_other, dict_get_set_other by discriminate.
  - destruct (truncate_request_over data' 6000 Hreq') as (out & -> & Hom & Hot & Hok & Hoo).
    { now rewrite Hm, Ht. }
    cbn [bind]. eexists _, out. split; [reflexivity|]. repeat split; auto; try lia.
    + now rewrite Hom, Hm.
    + now rewrite Hot, Ht.
Qed.

End Prepared.

Lemma last_n_cons {A} (n : nat) (x : A) (l : list A) :
  (n <= length l)%nat -> GithubProxy.last_n n (x :: l) = GithubProxy.last_n n l.
Proof.
  intros Hn. unfold GithubProxy.last_n. simpl length.
  replace (S (length l) - n)%nat with (S (length l - n)) by lia. reflexivity.
Qed.

Lemma last_n_In {A} (n : nat) (x : A) (l : list A) :
  In x (GithubProxy.last_n n l) -> In x l.
Proof.
  unfold GithubProxy.last_n. intros Hin.
  rewrite <- (firstn_skipn (length l - n) l). apply in_or_app. now right.
Qed.

Section Truncation.
Context `{PyLib}.

(** C5.  A ChatRequest whose estimate (a quarter of the length of each
    content plus 10 per message, a quarter of the length of the JSON text
    of each tool) is at most 6000 is returned by [truncate_request] as it
    is, and the payload sent upstream has the messages of the request,
    contents untouched. *)
Theorem under_budget_unchanged (data : dict) :
  is_chat_request data = true ->
  estimated_tokens (messages_of data) (tools_of data) <= 6000 ->
  GithubProxy.truncate_request data 6000 = Ok data /\
  exists requested is_streaming payload,
    GithubProxy.prepare data = Ok (requested, is_streaming, payload) /\
    dict_get payload "messages" = dict_get data "messages" /\
    map content_of (messages_of payload) = map content_of (messages_of data).
Proof.
  intros Hreq Hle. split.
  - rewrite (truncate_request_budget _ _ Hreq).
    apply Z.leb_le in Hle. now rewrite Hle.
  - destruct (prepare_result data Hreq) as (g & st & p & Hp & _ & _ & Hunder & _).
    destruct (Hunder Hle) as (Hget & Hm & _).
    exists (dict_get_default data "model" (JStr "gpt-4o")), st, p.
    split; [assumption|]. split; [assumption|]. now rewrite Hm.
Qed.

(** C6 (as amended).  On an over-budget request of eight messages, a
    system message followed by seven messages of other roles, the payload
    holds the system message, its content cut to its first 12000
    characters and marked when its own estimate is above 3000, followed
    by the last five of the seven others in their order.  When the
    system message's estimate is at most 3000 it is kept as it is. *)
Theorem eight_messages_truncated (data : dict) (sys : json) (others : list json) :
  is_chat_request data = true ->
  messages_of data = sys :: others ->
  length others = 7%nat ->
  has_role "system" sys = true ->
  forallb (fun m => negb (has_role "system" m)) others = true ->
  6000 < estimated_tokens (messages_of data) (tools_of data) ->
  exists requested is_streaming payload,
    GithubProxy.prepare data = Ok (requested, is_streaming, payload) /\
    messages_of payload = cut_system_prompt sys :: GithubProxy.last_n 5 others /\
    (len (content_of sys) / 4 <= 3000 ->
     messages_of payload = sys :: GithubProxy.last_n 5 others).
Proof.
  intros Hreq Hmsgs Hlen Hsys Hothers Hover.
  destruct (prepare_result data Hreq) as (g & st & p & Hp & _ & _ & _ & Hcut).
  destruct (Hcut Hover) as (Hm & _).
  exists (dict_get_default data "model" (JStr "gpt-4o")), st, p.
  split; [assumption|].
  assert (Hkept : messages_of p = cut_system_prompt sys :: GithubProxy.last_n 5 others).
  { rewrite Hm, Hmsgs. unfold kept_messages, first_cut. rewrite Hsys.
    simpl length. rewrite Hlen. simpl Nat.ltb. cbv iota.
    rewrite last_n_cons by lia.
    simpl filter. rewrite cut_system_prompt_role, Hsys.
    replace (filter (has_role "system") others) with (@nil json); [reflexivity|].
    symmetry. clear -Hothers. induction others as [|m ms IH]; [reflexivity|].
    simpl in *. apply andb_true_iff in Hothers as [Hm Hms].
    destruct (has_role "system" m); [discriminate | now apply IH]. }
  split; [assumption|].
  intros Hsmall. rewrite Hkept. f_equal.
  destruct sys as [| | | | |l|d]; try reflexivity.
  unfold cut_system_prompt.
  destruct (Z.ltb_spec 3000 (len (content_of (JObj d)) / 4)); [lia | reflexivity].
Qed.

(** C10.  On an over-budget request of more than six messages, a system
    message among the last five occurs twice in the payload: in the
    leading block of system messages and again among the last five
    messages that follow it. *)
Theorem late_system_message_duplicated (data : dict) (m : json) :
  is_chat_request data = true ->
  6000 < estimated_tokens (messages_of data) (tools_of data) ->
  (6 < length (messages_of data))%nat ->
  In m (GithubProxy.last_n 5 (messages_of data)) ->
  has_role "system" m = true ->
  exists requested is_streaming payload system_block recent,
    GithubProxy.prepare data = Ok (requested, is_streaming, payload) /\
    messages_of payload = system_block ++ recent /\
    recent = GithubProxy.last_n 5 (messages_of data) /\
    In m system_block /\ In m recent.
Proof.
  intros Hreq Hover Hlen Hin Hsys.
  destruct (prepare_result data Hreq) as (g & st & p & Hp & _ & _ & _ & Hcut).
  destruct (Hcut Hover) as (Hm & _).
  exists (dict_get_default data "model" (JStr "gpt-4o")), st, p.
  exists (filter (has_role "system") (first_cut (messages_of data))).
  exists (GithubProxy.last_n 5 (messages_of data)).
  split; [assumption|].
  destruct (messages_of data) as [|m0 rest] eqn:Emsgs; [simpl in Hlen; lia|].
  simpl in Hlen.
  assert (Hrecent : GithubProxy.last_n 5 (first_cut (m0 :: rest))
                    = GithubProxy.last_n 5 (m0 :: rest)).
  { unfold first_cut. now rewrite !last_n_cons by lia. }
  assert (Hrest : In m rest).
  { rewrite last_n_cons in Hin by lia. eapply last_n_In, Hin. }
  repeat split; try assumption.
  - rewrite Hm. unfold kept_messages.
    replace (6 <? length (m0 :: rest))%nat with true
      by (symmetry; apply Nat.ltb_lt; simpl; lia).
    now rewrite Hrecent.
  - apply filter_In. split; [|assumption]. unfold first_cut. now right.
Qed.

End Truncation.

(** C5 (witness): a two-message request with an estimate of 25. *)
Lemma under_budget_unchanged_witness :
  is_chat_request Sample.small_request = true /\
  @estimated_tokens (Sample.lib Sample.corpus)
     (messages_of Sample.small_request) (tools_of Sample.small_request) <= 6000 /\
  @GithubProxy.truncate_request (Sample.lib Sample.corpus) Sample.small_request 6000
    = Ok Sample.small_request.
Proof.
  assert (Hreq : is_chat_request Sample.small_request = true) by reflexivity.
  assert (Hle : @estimated_tokens (Sample.lib Sample.corpus)
                  (messages_of Sample.small_request) (tools_of Sample.small_request)
                <= 6000) by (vm_compute; discriminate).
  split; [exact Hreq|]. split; [exact Hle|].
  exact (proj1 (@under_budget_unchanged (Sample.lib Sample.corpus)
                  Sample.small_request Hreq Hle)).
Defined.

Lemma long_prompt_over_budget :
  6000 < @estimated_tokens (Sample.lib Sample.corpus)
           (messages_of Sample.long_prompt_request)
           (tools_of Sample.long_prompt_request).
Proof. vm_compute. reflexivity. Qed.

(** C6 (witness): a system prompt of 24000 characters and seven turns. *)
Lemma eight_messages_truncated_witness :
  exists requested is_streaming payload,
    @GithubProxy.prepare (Sample.lib Sample.corpus) Sample.long_prompt_request
      = Ok (requested, is_streaming, payload) /\
    messages_of payload
      = cut_system_prompt Sample.long_prompt
        :: GithubProxy.last_n 5 Sample.seven_turns /\
    (len (content_of Sample.long_prompt) / 4 <= 3000 ->
     messages_of payload = Sample.long_prompt :: GithubProxy.last_n 5 Sample.seven_turns).
Proof.
  apply (@eight_messages_truncated (Sample.lib Sample.corpus)
           Sample.long_prompt_request Sample.long_prompt Sample.seven_turns).
  - reflexivity.
  - reflexivity.
  - reflexivity.
  - reflexivity.
  - reflexivity.
  - exact long_prompt_over_budget.
Defined.

(** C6 (counterexample).  With a system prompt of 24000 characters and
    seven short turns the request is over budget, and the first message
    of the payload is not the system message of the request: its content
    has 12000 characters and the marker, 12044 in all. *)
Lemma long_system_prompt_is_cut :
  is_chat_request Sample.long_prompt_request = true /\
  messages_of Sample.long_prompt_request = Sample.long_prompt :: Sample.seven_turns /\
  length Sample.seven_turns = 7%nat /\
  has_role "system" Sample.long_prompt = true /\
  forallb (fun m => negb (has_role "system" m)) Sample.seven_turns = true /\
  6000 < @estimated_tokens (Sample.lib Sample.corpus)
           (messages_of Sample.long_prompt_request)
           (tools_of Sample.long_prompt_request) /\
  exists requested is_streaming payload,
    @GithubProxy.prepare (Sample.lib Sample.corpus) Sample.long_prompt_request
      = Ok (requested, is_streaming, payload) /\
    len (content_of Sample.long_prompt) = 24000 /\
    len (content_of (hd JNull (messages_of payload))) = 12044 /\
    messages_of payload
      <> Sample.long_prompt :: GithubProxy.last_n 5 Sample.seven_turns.
Proof.
  do 5 (split; [reflexivity|]).
  split; [exact long_prompt_over_budget|].
  destruct (@prepare_result (Sample.lib Sample.corpus) Sample.long_prompt_request)
    as (g & st & p & Hp & _ & _ & _ & Hcut); [reflexivity|].
  destruct (Hcut long_prompt_over_budget) as (Hm & _).
  exists (dict_get_default Sample.long_prompt_request "model" (JStr "gpt-4o")), st, p.
  split; [exact Hp|].
  assert (Hlen : len (content_of (hd JNull (messages_of p))) = 12044).
  { rewrite Hm. vm_compute. reflexivity. }
  split; [vm_compute; reflexivity|]. split; [exact Hlen|].
  intros Heq. rewrite Heq in Hlen. vm_compute in Hlen. discriminate.
Qed.

Lemma late_system_over_budget :
  6000 < @estimated_tokens (Sample.lib Sample.corpus)
           (messages_of Sample.late_system_request)
           (tools_of Sample.late_system_request).
Proof. vm_compute. reflexivity. Qed.

(** C10 (witness): the system message "Be brief." is the sixth of seven
    messages. *)
Lemma late_system_message_duplicated_witness :
  exists requested is_streaming payload system_block recent,
    @GithubProxy.prepare (Sample.lib Sample.corpus) Sample.late_system_request
      = Ok (requested, is_streaming, payload) /\
    messages_of payload = system_block ++ recent /\
    recent = GithubProxy.last_n 5 (messages_of Sample.late_system_request) /\
    In Sample.late_system system_block /\ In Sample.late_system recent.
Proof.
  apply (@late_system_message_duplicated (Sample.lib Sample.corpus)
           Sample.late_system_request Sample.late_system).
  - reflexivity.
  - exact late_system_over_budget.
  - simpl. lia.
  - simpl. tauto.
  - reflexivity.
Defined.

(* ================================================================== *)
(** * The keys of the upstream payload *)
(* ================================================================== *)

Lemma dict_has_pop (d : dict) k k' :
  dict_has (dict_pop d k) k' = negb (String.eqb k k') && dict_has d k'.
Proof.
  unfold dict_has. destruct (String.eqb k k') eqn:E.
  - apply String.eqb_eq in E. subst. now rewrite dict_get_pop_same.
  - rewrite dict_get_pop_other; [reflexivity|].
    intros ->. now rewrite String.eqb_refl in E.
Qed.

(** A key outside the list, or absent from the request, is left alone. *)
Lemma copy_keys_other (ks : list string) (req acc : dict) k :
  ~ In k ks \/ dict_get req k = None ->
  dict_get (OpenRouter.copy_keys ks req acc) k = dict_get acc k.
Proof.
  revert acc. induction ks as [|key rest IH]; intros acc Hk; simpl; [reflexivity|].
  assert (Hrest : ~ In k rest \/ dict_get req k = None) by (simpl in Hk; tauto).
  destruct (dict_get req key) as [v|] eqn:E; rewrite (IH _ Hrest); [|reflexivity].
  apply dict_get_set_other. intros ->. simpl in Hk. destruct Hk as [Hk | Hk]; [tauto|congruence].
Qed.

(** A key of the list that the request has is copied with its value. *)
Lemma copy_keys_listed (ks : list string) (req acc : dict) k v :
  In k ks -> dict_get req k = Some v ->
  dict_get (OpenRouter.copy_keys ks req acc) k = Some v.
Proof.
  revert acc. induction ks as [|key rest IH]; intros acc Hin Hv; simpl; [contradiction|].
  destruct (in_dec string_dec k rest) as [Hrest | Hrest].
  - destruct (dict_get req key); now apply IH.
  - destruct Hin as [-> | Hin]; [|contradiction].
    rewrite Hv, copy_keys_other by tauto. apply dict_get_set_same.
Qed.

Lemma two_keys_other (k1 k2 k : string) (v1 v2 : json) :
  k <> k1 -> k <> k2 -> dict_get [(k1, v1); (k2, v2)] k = None.
Proof.
  intros H1 H2. cbn [dict_get].
  destruct (String.eqb_spec k1 k); [congruence|].
  destruct (String.eqb_spec k2 k); [congruence|]. reflexivity.
Qed.

(** C8 (as amended).  For every ChatRequest, the payload of
    [transform_request] has [messages] and [model], each allow-listed
    parameter the request has, with its value, and no other key; [store]
    is absent.  The payload of [github_proxy] has [model] and every key
    of the request except [store]: parameters outside the allow-list are
    forwarded, [store] alone is removed. *)
Theorem upstream_payload_keys `{PyLib} (req : dict) (cfg : OpenRouter.Config) :
  is_chat_request req = true ->
  (exists payload,
     OpenRouter.transform_request req cfg = Ok payload /\
     dict_has payload "messages" = true /\
     dict_has payload "model" = true /\
     (forall k, In k OpenRouter.passthrough_keys ->
                dict_get payload k = dict_get req k) /\
     (forall k, k <> "messages" -> k <> "model" ->
                ~ In k OpenRouter.passthrough_keys -> dict_get payload k = None) /\
     dict_get payload "store" = None) /\
  (exists requested is_streaming payload,
     GithubProxy.prepare req = Ok (requested, is_streaming, payload) /\
     (forall k, dict_has payload k
                = negb (String.eqb "store" k)
                  && (String.eqb "model" k || dict_has req k)) /\
     dict_get payload "store" = None).
Proof.
  intros Hreq. split.
  - unfold OpenRouter.transform_request.
    assert (Hmodel : exists s, dict_get_default req "model"
                                 (JStr (OpenRouter.default_model cfg)) = JStr s).
    { unfold is_chat_request in Hreq. unfold dict_get_default.
      destruct (dict_get req "model") as [[]|]; try discriminate; eauto. }
    destruct Hmodel as (s & ->). cbn [bind].
    eexists. split; [reflexivity|].
    assert (Hother : forall k, ~ In k OpenRouter.passthrough_keys ->
              dict_get (OpenRouter.copy_keys OpenRouter.passthrough_keys req
                          [("messages", dict_get_default req "messages" (JArr []));
                           ("model", JStr (OpenRouter.get_github_model s cfg))]) k
              = dict_get [("messages", dict_get_default req "messages" (JArr []));
                          ("model", JStr (OpenRouter.get_github_model s cfg))] k).
    { intros k Hk. apply copy_keys_other. now left. }
    assert (Hnm : ~ In "messages" OpenRouter.passthrough_keys) by (simpl; intuition discriminate).
    assert (Hnn : ~ In "model" OpenRouter.passthrough_keys) by (simpl; intuition discriminate).
    assert (Hns : ~ In "store" OpenRouter.passthrough_keys) by (simpl; intuition discriminate).
    repeat split.
    + unfold dict_has. now rewrite (Hother _ Hnm).
    + unfold dict_has. now rewrite (Hother _ Hnn).
    + intros k Hk. destruct (dict_get req k) as [v|] eqn:E.
      * now apply copy_keys_listed.
      * rewrite copy_keys_other by now right.
        apply two_keys_other; intros ->; contradiction.
    + intros k Hk1 Hk2 Hk. rewrite (Hother _ Hk). now apply two_keys_other.
    + now rewrite (Hother _ Hns).
  - destruct (prepare_result req Hreq) as (g & st & p & Hp & Hkeys & _).
    exists (dict_get_default req "model" (JStr "gpt-4o")), st, p.
    split; [assumption|].
    assert (Hhas : forall k, dict_has p k
                = negb (String.eqb "store" k)
                  && (String.eqb "model" k || dict_has req k)).
    { intros k. rewrite (dict_has_keys _ _ k Hkeys).
      now rewrite dict_has_pop, dict_has_set. }
    split; [assumption|].
    specialize (Hhas "store"). unfold dict_has in Hhas.
    destruct (dict_get p "store"); [discriminate | reflexivity].
Qed.

(** C8 (witness): a request with [temperature], [store] and [user]. *)
Lemma upstream_payload_keys_witness :
  (exists payload,
     OpenRouter.transform_request Sample.tagged_request OpenRouter.default_config
       = Ok payload /\
     dict_has payload "messages" = true /\
     dict_has payload "model" = true /\
     (forall k, In k OpenRouter.passthrough_keys ->
                dict_get payload k = dict_get Sample.tagged_request k) /\
     (forall k, k <> "messages" -> k <> "model" ->
                ~ In k OpenRouter.passthrough_keys -> dict_get payload k = None) /\
     dict_get payload "store" = None) /\
  (exists requested is_streaming payload,
     @GithubProxy.prepare (Sample.lib Sample.corpus) Sample.tagged_request
       = Ok (requested, is_streaming, payload) /\
     (forall k, dict_has payload k
                = negb (String.eqb "store" k)
                  && (String.eqb "model" k || dict_has Sample.tagged_request k)) /\
     dict_get payload "store" = None).
Proof.
  apply (@upstream_payload_keys (Sample.lib Sample.corpus)
           Sample.tagged_request OpenRouter.default_config).
  reflexivity.
Defined.

(** C8 (counterexample).  [github_proxy] forwards the [user] parameter,
    which is not on the allow-list; [transform_request] drops it. *)
Lemma github_proxy_forwards_unlisted_keys :
  @GithubProxy.prepare (Sample.lib Sample.corpus) Sample.tagged_request
    = Ok (JStr "gpt-4", JBool false,
          [("model", JStr "gpt-4o");
           ("messages", JArr [Sample.message "user" "Hello"]);
           ("user", JStr "bob");
           ("temperature", JFloat "0.7")]) /\
  ~ In "user" ("messages" :: "model" :: OpenRouter.passthrough_keys) /\
  OpenRouter.transform_request Sample.tagged_request OpenRouter.default_config
    = Ok [("messages", JArr [Sample.message "user" "Hello"]);
          ("model", JStr "gpt-4o");
          ("temperature", JFloat "0.7")].
Proof.
  split; [vm_compute; reflexivity|].
  split; [simpl; intuition discriminate | vm_compute; reflexivity].
Qed.

(* ================================================================== *)
(** * Response translation *)
(* ================================================================== *)

Section Streaming.
Context `{PyLib}.
Variables (chunk_id : string) (created : Z) (model : json).

Let closed_or_tagged (frame : string) : Prop :=
  frame = GithubProxy.done_frame \/ carries_model model frame.

Lemma error_chunk_carries (content : string) :
  carries_model model
    (GithubProxy.sse (json_dumps (GithubProxy.error_chunk chunk_id created model content))).
Proof.
  unfold carries_model, GithubProxy.error_chunk. eexists. split; reflexivity.
Qed.

Lemma chunk_data_carries (choices : json) (parsed : dict) :
  carries_model model
    (GithubProxy.sse (json_dumps (GithubProxy.chunk_data chunk_id created model choices parsed))).
Proof.
  unfold carries_model, GithubProxy.chunk_data. eexists. split; [reflexivity|].
  destruct (dict_get parsed "usage"); [|reflexivity].
  rewrite dict_get_set_other by discriminate. reflexivity.
Qed.

Lemma on_exception_frames (e : exn) :
  Forall closed_or_tagged (GithubProxy.on_exception chunk_id created model e).
Proof.
  unfold GithubProxy.on_exception.
  constructor; [right; apply error_chunk_carries|].
  constructor; [now left | constructor].
Qed.

(** Every frame the loop emits is the sentinel or carries the model. *)
Lemma forward_frames (ls : list string) :
  Forall closed_or_tagged (fst (GithubProxy.forward chunk_id created model ls)).
Proof.
  induction ls as [|line rest IH]; cbn [GithubProxy.forward]; [constructor|].
  destruct (String.eqb line ""); [assumption|].
  destruct (utf8_decode line) as [t|e]; [|constructor].
  destruct (startswith t "data: "); [|assumption].
  destruct (String.eqb (str_drop 6 t) "[DONE]").
  { constructor; [now left | constructor]. }
  destruct (json_loads (str_drop 6 t)) as [parsed|]; [|assumption].
  destruct (as_dict parsed) as [p|e]; [|constructor].
  destruct (negb (truthy (dict_get_default p "choices" (JArr [])))); [assumption|].
  destruct (GithubProxy.forward chunk_id created model rest) as [frames stop].
  cbn [fst] in *. constructor; [|assumption]. right. apply chunk_data_carries.
Qed.

Lemma generate_frames (outcome : post_outcome) :
  Forall closed_or_tagged (GithubProxy.generate chunk_id created model outcome).
Proof.
  destruct outcome as [e|resp]; simpl.
  - apply on_exception_frames.
  - destruct (negb (status_code resp =? 200)).
    + constructor; [right; apply error_chunk_carries|].
      constructor; [now left | constructor].
    + pose proof (forward_frames (lines resp)) as Hf.
      destruct (GithubProxy.forward chunk_id created model (lines resp)) as [frames stop].
      simpl in Hf.
      destruct stop as [| |e]; [destruct (broken resp)| |];
        try assumption; apply Forall_app; split; try assumption;
        apply on_exception_frames.
Qed.

(** A loop left by [break] has just emitted the sentinel. *)
Lemma forward_broke (ls : list string) :
  snd (GithubProxy.forward chunk_id created model ls) = GithubProxy.Broke ->
  exists frames,
    fst (GithubProxy.forward chunk_id created model ls)
    = frames ++ [GithubProxy.done_frame].
Proof.
  induction ls as [|line rest IH]; cbn [GithubProxy.forward]; [discriminate|].
  destruct (String.eqb line ""); [assumption|].
  destruct (utf8_decode line) as [t|e]; [|discriminate].
  destruct (startswith t "data: "); [|assumption].
  destruct (String.eqb (str_drop 6 t) "[DONE]").
  { intros _. now exists []. }
  destruct (json_loads (str_drop 6 t)) as [parsed|]; [|assumption].
  destruct (as_dict parsed) as [p|e]; [|discriminate].
  destruct (negb (truthy (dict_get_default p "choices" (JArr [])))); [assumption|].
  destruct (GithubProxy.forward chunk_id created model rest) as [frames stop].
  cbn [fst snd] in *. intros Hstop. destruct (IH Hstop) as (fs & ->).
  now exists (GithubProxy.sse
                (json_dumps (GithubProxy.chunk_data chunk_id created model
                               (dict_get_default p "choices" (JArr [])) p)) :: fs).
Qed.

(** With the sentinel among its lines, the loop is not left by
    exhaustion. *)
Lemma forward_sentinel (ls : list string) :
  has_sentinel ls ->
  snd (GithubProxy.forward chunk_id created model ls) <> GithubProxy.Exhausted.
Proof.
  intros (l & Hin & Hne & Hdec).
  induction ls as [|line rest IH]; cbn [GithubProxy.forward]; [contradiction|].
  destruct Hin as [-> | Hin].
  - destruct (String.eqb_spec l ""); [contradiction|].
    rewrite Hdec. cbn. discriminate.
  - specialize (IH Hin).
    destruct (String.eqb line ""); [assumption|].
    destruct (utf8_decode line) as [t|e]; [|discriminate].
    destruct (startswith t "data: "); [|assumption].
    destruct (String.eqb (str_drop 6 t) "[DONE]"); [discriminate|].
    destruct (json_loads (str_drop 6 t)) as [parsed|]; [|assumption].
    destruct (as_dict parsed) as [p|e]; [|discriminate].
    destruct (negb (truthy (dict_get_default p "choices" (JArr [])))); [assumption|].
    destruct (GithubProxy.forward chunk_id created model rest) as [frames stop].
    assumption.
Qed.

Lemma startswith_data (payload : string) :
  startswith ("data: " ++ payload) "data: " = true.
Proof. apply prefix_app. now exists payload. Qed.

Lemma str_drop_data (payload : string) : str_drop 6 ("data: " ++ payload) = payload.
Proof. reflexivity. Qed.

(** A blank line is skipped. *)
Lemma forward_blank (rest : list string) :
  GithubProxy.forward chunk_id created model ("" :: rest)
  = GithubProxy.forward chunk_id created model rest.
Proof. reflexivity. Qed.

(** A data line whose payload parses to an object without choices, or
    with an empty [choices], is skipped. *)
Lemma forward_no_choices (line payload : string) (parsed : dict) (rest : list string) :
  line <> "" ->
  utf8_decode line = Ok ("data: " ++ payload)%string ->
  payload <> "[DONE]" ->
  json_loads payload = Some (JObj parsed) ->
  dict_get_default parsed "choices" (JArr []) = JArr [] ->
  GithubProxy.forward chunk_id created model (line :: rest)
  = GithubProxy.forward chunk_id created model rest.
Proof.
  intros Hne Hdec Hnot Hload Hchoices. cbn [GithubProxy.forward].
  destruct (String.eqb_spec line ""); [contradiction|].
  rewrite Hdec, startswith_data, str_drop_data.
  destruct (String.eqb_spec payload "[DONE]"); [contradiction|].
  rewrite Hload. cbn [as_dict]. rewrite Hchoices. reflexivity.
Qed.

(** A data line whose payload parses to an object with choices is
    forwarded as one frame. *)
Lemma forward_choices (line payload : string) (parsed : dict) (rest : list string) :
  line <> "" ->
  utf8_decode line = Ok ("data: " ++ payload)%string ->
  payload <> "[DONE]" ->
  json_loads payload = Some (JObj parsed) ->
  truthy (dict_get_default parsed "choices" (JArr [])) = true ->
  GithubProxy.forward chunk_id created model (line :: rest)
  = (GithubProxy.sse
       (json_dumps (GithubProxy.chunk_data chunk_id created model
                      (dict_get_default parsed "choices" (JArr [])) parsed))
       :: fst (GithubProxy.forward chunk_id created model rest),
     snd (GithubProxy.forward chunk_id created model rest)).
Proof.
  intros Hne Hdec Hnot Hload Hchoices. cbn [GithubProxy.forward].
  destruct (String.eqb_spec line ""); [contradiction|].
  rewrite Hdec, startswith_data, str_drop_data.
  destruct (String.eqb_spec payload "[DONE]"); [contradiction|].
  rewrite Hload. cbn [as_dict]. rewrite Hchoices. cbn [negb].
  now destruct (GithubProxy.forward chunk_id created model rest).
Qed.

(** The sentinel line ends the loop. *)
Lemma forward_done (line : string) (rest : list string) :
  line <> "" ->
  utf8_decode line = Ok "data: [DONE]" ->
  GithubProxy.forward chunk_id created model (line :: rest)
  = ([GithubProxy.done_frame], GithubProxy.Broke).
Proof.
  intros Hne Hdec. cbn [GithubProxy.forward].
  destruct (String.eqb_spec line ""); [contradiction|].
  rewrite Hdec. reflexivity.
Qed.

End Streaming.

Section Translation.
Context `{PyLib}.

Lemma prepare_requested (data : dict) requested is_streaming payload :
  GithubProxy.prepare data = Ok (requested, is_streaming, payload) ->
  requested = dict_get_default data "model" (JStr "gpt-4o").
Proof.
  unfold GithubProxy.prepare.
  destruct (GithubProxy.map_model _) as [gm|e]; [|discriminate]. cbn [bind].
  destruct (GithubProxy.truncate_request _ _) as [out|e]; [|discriminate]. cbn [bind].
  now intros [= <- _ _].
Qed.

(** A body returned by [non_streaming_response] as JSON has the
    requested model wherever it has a model. *)
Lemma non_streaming_model (data : dict) (net : dict -> post_outcome) (model : json)
    (body : json) (status : Z) :
  GithubProxy.non_streaming_response data net model = Ok (Jsonify body status) ->
  forall d, body = JObj d -> dict_has d "model" = true -> dict_get d "model" = Some model.
Proof.
  unfold GithubProxy.non_streaming_response.
  destruct (net data) as [e|resp]; [discriminate|].
  destruct (negb (status_code resp =? 200)); [discriminate|].
  destruct (response_json resp) as [result|e]; [|discriminate]. cbn [bind].
  destruct (GithubProxy.contains_model result) as [present|e] eqn:Ec; [|discriminate].
  cbn [bind]. destruct present.
  - destruct result; try discriminate. cbn [GithubProxy.set_model bind].
    intros [= <- _] d [= <-] _. apply dict_get_set_same.
  - intros [= <- _] d -> Hd. simpl in Ec. congruence.
Qed.

Lemma relay_frames (ls : list string) :
  Forall (relayed ls) (fst (OpenRouter.relay ls)).
Proof.
  induction ls as [|line rest IH]; cbn [OpenRouter.relay]; [constructor|].
  assert (IH' : Forall (relayed (line :: rest)) (fst (OpenRouter.relay rest))).
  { eapply Forall_impl; [|exact IH].
    intros f (l & t & Hin & Hdec & ->). exists l, t. simpl. tauto. }
  destruct (String.eqb line ""); [assumption|].
  destruct (utf8_decode line) as [t|e] eqn:Hdec; [|constructor].
  destruct (startswith t "data: "); [|assumption].
  destruct (OpenRouter.relay rest) as [frames stop]. cbn [fst] in *.
  constructor; [|assumption]. exists line, t. simpl. tauto.
Qed.

(** C1 (as amended).  In [github_proxy], whatever [chat_completions]
    returns shows the caller the model id of the request ([gpt-4o] when
    the request names none): every frame of a stream is the [DONE]
    sentinel or carries that id, and a JSON body that has a model field
    has that id in it; an upstream 200 body that is an object with a
    model field is returned with the field rewritten.  In
    [openrouter_to_github] nothing is rewritten: a 200 body is returned
    as the upstream sent it, and every frame of a stream is a decoded
    upstream line. *)
Theorem caller_sees_requested_model :
  (forall chunk_id created data net out,
     GithubProxy.chat_completions chunk_id created data net = Ok out ->
     let requested := dict_get_default data "model" (JStr "gpt-4o") in
     match out with
     | EventStream frames aborted =>
         aborted = None /\
         Forall (fun f => f = GithubProxy.done_frame \/ carries_model requested f) frames
     | Jsonify body _ =>
         forall d, body = JObj d -> dict_has d "model" = true ->
                   dict_get d "model" = Some requested
     | Response _ status => status <> 200
     end) /\
  (forall data net model resp d,
     net data = PostReturns resp ->
     status_code resp = 200 ->
     json_loads (text resp) = Some (JObj d) ->
     dict_has d "model" = true ->
     GithubProxy.non_streaming_response data net model
     = Ok (Jsonify (JObj (dict_set d "model" model)) 200)) /\
  (forall resp body,
     status_code resp = 200 ->
     json_loads (text resp) = Some body ->
     OpenRouter.reply resp false = Ok (Jsonify body 200)) /\
  (forall resp,
     status_code resp = 200 ->
     exists frames aborted,
       OpenRouter.reply resp true = Ok (EventStream frames aborted) /\
       Forall (relayed (lines resp)) frames).
Proof.
  repeat split.
  - intros chunk_id created data net out. unfold GithubProxy.chat_completions.
    destruct (GithubProxy.prepare data) as [[[requested st] payload]|e] eqn:Hp;
      [|discriminate].
    apply prepare_requested in Hp. subst requested. cbn [bind].
    destruct (truthy st).
    + intros [= <-]. cbn zeta. split; [reflexivity|]. apply generate_frames.
    + intros Hout. cbn zeta. destruct out as [body status|body status|frames aborted].
      * unfold GithubProxy.non_streaming_response in Hout.
        destruct (net payload) as [e|resp]; [discriminate|].
        destruct (negb (status_code resp =? 200)) eqn:Est.
        { injection Hout as _ <-. apply negb_true_iff, Z.eqb_neq in Est. exact Est. }
        destruct (response_json resp) as [result|e]; [|discriminate]. cbn [bind] in Hout.
        destruct (GithubProxy.contains_model result) as [[]|e]; cbn [bind] in Hout;
          try discriminate.
        destruct (GithubProxy.set_model result _); discriminate.
      * eapply non_streaming_model, Hout.
      * unfold GithubProxy.non_streaming_response in Hout.
        destruct (net payload) as [e|resp]; [discriminate|].
        destruct (negb (status_code resp =? 200)); [discriminate|].
        destruct (response_json resp) as [result|e]; [|discriminate]. cbn [bind] in Hout.
        destruct (GithubProxy.contains_model result) as [[]|e]; cbn [bind] in Hout;
          try discriminate.
        destruct (GithubProxy.set_model result _); discriminate.
  - intros data net model resp d Hnet Hst Hload Hd.
    unfold GithubProxy.non_streaming_response, response_json.
    rewrite Hnet, Hst, Hload. cbn [Z.eqb Pos.eqb negb bind GithubProxy.contains_model].
    rewrite Hd. reflexivity.
  - intros resp body Hst Hload. unfold OpenRouter.reply, response_json.
    rewrite Hst, Hload. reflexivity.
  - intros resp Hst. unfold OpenRouter.reply, OpenRouter.stream_response.
    rewrite Hst. cbn [Z.eqb Pos.eqb negb].
    pose proof (relay_frames (lines resp)) as Hr.
    destruct (OpenRouter.relay (lines resp)) as [frames stop]. cbn [fst] in Hr.
    eexists _, _. split; [reflexivity | exact Hr].
Qed.

(** C2 (as amended).  In [github_proxy], when the call to the upstream
    raises, when its status is not 200, when reading its lines raises, or
    when one of its lines is the [DONE] event, the frames of the stream
    are finitely many and the last one is the [DONE] frame. *)
Theorem closed_stream_ends_with_done (chunk_id : string) (created : Z) (model : json)
    (outcome : post_outcome) :
  closes_stream outcome ->
  exists frames,
    GithubProxy.generate chunk_id created model outcome
    = frames ++ [GithubProxy.done_frame].
Proof.
  destruct outcome as [e|resp]; cbn [closes_stream GithubProxy.generate].
  - intros _. unfold GithubProxy.on_exception. now eexists [_].
  - intros Hclose. destruct (Z.eqb_spec (status_code resp) 200) as [Hst|Hst]; cbn [negb].
    + destruct Hclose as [Hne | Hclose]; [contradiction|].
      destruct (GithubProxy.forward chunk_id created model (lines resp))
        as [frames stop] eqn:Hf.
      destruct stop as [| |e].
      * destruct (broken resp) as [e|] eqn:Hb.
        { exists (frames ++ [GithubProxy.sse
                     (json_dumps (GithubProxy.error_chunk chunk_id created model
                                    ("Proxy error: " ++ str_of_exn e)))]).
          now rewrite <- app_assoc. }
        destruct Hclose as [Hbr | Hs]; [congruence|].
        apply (forward_sentinel chunk_id created model) in Hs.
        rewrite Hf in Hs. now contradiction Hs.
      * pose proof (forward_broke chunk_id created model (lines resp)) as Hb.
        rewrite Hf in Hb. now apply Hb.
      * exists (frames ++ [GithubProxy.sse
                   (json_dumps (GithubProxy.error_chunk chunk_id created model
                                  ("Proxy error: " ++ str_of_exn e)))]).
        now rewrite <- app_assoc.
    + now eexists [_].
Qed.

(** C7 (as amended).  When the upstream status is not 200,
    [github_proxy] answers a non-streaming request with that status and
    the upstream body text as it is; [openrouter_to_github] answers with
    that status and a JSON error object that embeds the upstream text in
    its message. *)
Theorem upstream_error_passthrough (resp : response) :
  status_code resp <> 200 ->
  (forall data net model,
     net data = PostReturns resp ->
     GithubProxy.non_streaming_response data net model
     = Ok (Response (text resp) (status_code resp))) /\
  (forall is_stream,
     OpenRouter.reply resp is_stream
     = Ok (Jsonify (OpenRouter.api_error resp) (status_code resp))).
Proof.
  intros Hst. apply Z.eqb_neq in Hst. split.
  - intros data net model Hnet. unfold GithubProxy.non_streaming_response.
    now rewrite Hnet, Hst.
  - intros is_stream. unfold OpenRouter.reply. now rewrite Hst.
Qed.

(** C9.  When the upstream answers 200 and its lines are a data line
    whose payload is an object with one choice, a data line whose payload
    is an object with an empty [choices], and the [DONE] event, the
    stream is one forwarded frame, with the choices of the first payload,
    followed by the [DONE] frame; and wherever it stands, a data line
    whose [choices] is empty contributes no frame. *)
Theorem one_choice_none_done (chunk_id : string) (created : Z) (model : json)
    (l1 l2 l3 p1 p2 : string) (d1 d2 : dict) (choice : json)
    (rest : list string) (body : string) (tail : option exn) :
  l1 <> "" -> utf8_decode l1 = Ok ("data: " ++ p1)%string -> p1 <> "[DONE]" ->
  json_loads p1 = Some (JObj d1) -> dict_get d1 "choices" = Some (JArr [choice]) ->
  l2 <> "" -> utf8_decode l2 = Ok ("data: " ++ p2)%string -> p2 <> "[DONE]" ->
  json_loads p2 = Some (JObj d2) -> dict_get d2 "choices" = Some (JArr []) ->
  l3 <> "" -> utf8_decode l3 = Ok "data: [DONE]" ->
  GithubProxy.generate chunk_id created model
    (PostReturns {| status_code := 200; text := body;
                    lines := l1 :: l2 :: l3 :: rest; broken := tail |})
  = [GithubProxy.sse (json_dumps (GithubProxy.chunk_data chunk_id created model
                                    (JArr [choice]) d1));
     GithubProxy.done_frame] /\
  forall others,
    GithubProxy.forward chunk_id created model (l2 :: others)
    = GithubProxy.forward chunk_id created model others.
Proof.
  intros Hl1 Hu1 Hp1 Hj1 Hc1 Hl2 Hu2 Hp2 Hj2 Hc2 Hl3 Hu3.
  assert (Hskip : forall others,
            GithubProxy.forward chunk_id created model (l2 :: others)
            = GithubProxy.forward chunk_id created model others).
  { intros others. apply (forward_no_choices _ _ _ l2 p2 d2); auto.
    unfold dict_get_default. now rewrite Hc2. }
  split; [|exact Hskip].
  cbn [GithubProxy.generate status_code lines Z.eqb Pos.eqb negb].
  rewrite (forward_choices _ _ _ l1 p1 d1); auto;
    unfold dict_get_default; rewrite Hc1; [|reflexivity].
  rewrite Hskip, (forward_done _ _ _ l3 rest Hl3 Hu3). reflexivity.
Qed.

End Translation.

(* ================================================================== *)
(** * The translation on concrete exchanges *)
(* ================================================================== *)

(** C1 (witness): a streamed answer to a request for "gpt-4". *)
Lemma caller_sees_requested_model_witness :
  Forall (fun f => f = GithubProxy.done_frame
                   \/ @carries_model (Sample.lib Sample.corpus) (JStr "gpt-4") f)
         [Sample.delta_frame; GithubProxy.done_frame].
Proof.
  assert (Hrun : @GithubProxy.chat_completions (Sample.lib Sample.corpus)
                   "chatcmpl-1" 1700000000 Sample.small_request
                   (Sample.answers (Sample.ok_response "" Sample.sse_lines))
                 = Ok (EventStream [Sample.delta_frame; GithubProxy.done_frame] None))
    by (vm_compute; reflexivity).
  exact (proj2 (proj1 (@caller_sees_requested_model (Sample.lib Sample.corpus))
                  _ _ _ _ _ Hrun)).
Defined.

(** C1 (counterexample).  [openrouter_to_github] answers a request for
    "gpt-4" with the upstream body as it is, model "gpt-4o-2024-08-06"
    included, and streams the upstream events as they are. *)
Lemma openrouter_shows_upstream_model :
  dict_get Sample.tagged_request "model" = Some (JStr "gpt-4") /\
  @OpenRouter.chat_completions (Sample.lib Sample.corpus) Sample.config
     (JObj Sample.tagged_request)
     (Sample.answers (Sample.ok_response (Sample.dumps Sample.completion) []))
  = Ok (Jsonify Sample.completion 200) /\
  (exists d, Sample.completion = JObj d /\
             dict_get d "model" = Some (JStr "gpt-4o-2024-08-06")) /\
  dict_get Sample.small_request "model" = Some (JStr "gpt-4") /\
  @OpenRouter.chat_completions (Sample.lib Sample.corpus) Sample.config
     (JObj Sample.small_request)
     (Sample.answers (Sample.ok_response "" Sample.sse_lines))
  = Ok (EventStream [GithubProxy.sse (Sample.dumps Sample.delta_chunk);
                     GithubProxy.sse (Sample.dumps Sample.usage_chunk);
                     GithubProxy.done_frame] None) /\
  dict_get Sample.delta_fields "model" = Some (JStr "gpt-4o-2024-08-06").
Proof.
  split; [reflexivity|]. split; [vm_compute; reflexivity|].
  split; [eexists; split; reflexivity|]. split; [reflexivity|].
  split; [vm_compute; reflexivity | reflexivity].
Qed.

(** C2 (witness): an upstream that ends with the sentinel. *)
Lemma closed_stream_ends_with_done_witness :
  exists frames,
    @GithubProxy.generate (Sample.lib Sample.corpus) "chatcmpl-1" 1700000000 (JStr "gpt-4")
      (PostReturns (Sample.ok_response "" Sample.sse_lines))
    = frames ++ [GithubProxy.done_frame].
Proof.
  apply (@closed_stream_ends_with_done (Sample.lib Sample.corpus)).
  right. right. exists "data: [DONE]".
  split; [simpl; tauto|]. split; [discriminate | reflexivity].
Defined.

(** C2 (counterexample).  The upstream answers 200, sends one chunk and
    ends without the sentinel: [github_proxy] emits the one frame and
    stops, and so does [openrouter_to_github]; no [DONE] frame ends
    either stream. *)
Lemma cut_stream_has_no_done :
  @GithubProxy.generate (Sample.lib Sample.corpus) "chatcmpl-1" 1700000000 (JStr "gpt-4")
    (PostReturns (Sample.ok_response "" Sample.cut_lines))
  = [Sample.delta_frame] /\
  ~ (exists frames,
       @GithubProxy.generate (Sample.lib Sample.corpus) "chatcmpl-1" 1700000000
         (JStr "gpt-4") (PostReturns (Sample.ok_response "" Sample.cut_lines))
       = frames ++ [GithubProxy.done_frame]) /\
  @OpenRouter.stream_response (Sample.lib Sample.corpus)
    (Sample.ok_response "" Sample.cut_lines)
  = ([GithubProxy.sse (Sample.dumps Sample.delta_chunk)], None).
Proof.
  assert (Hrun : @GithubProxy.generate (Sample.lib Sample.corpus) "chatcmpl-1"
                   1700000000 (JStr "gpt-4")
                   (PostReturns (Sample.ok_response "" Sample.cut_lines))
                 = [Sample.delta_frame]) by (vm_compute; reflexivity).
  split; [exact Hrun|]. split; [|vm_compute; reflexivity].
  rewrite Hrun. intros (frames & Heq).
  destruct frames as [|f [|g frames]]; simpl in Heq.
  - injection Heq as Heq. vm_compute in Heq. discriminate.
  - discriminate.
  - discriminate.
Qed.

(** C7 (witness): an upstream 429. *)
Lemma upstream_error_passthrough_witness :
  (forall data net model,
     net data = PostReturns (Sample.error_response 429 "rate limited") ->
     @GithubProxy.non_streaming_response (Sample.lib Sample.corpus) data net model
     = Ok (Response "rate limited" 429)) /\
  (forall is_stream,
     @OpenRouter.reply (Sample.lib Sample.corpus)
       (Sample.error_response 429 "rate limited") is_stream
     = Ok (Jsonify (OpenRouter.api_error (Sample.error_response 429 "rate limited")) 429)).
Proof.
  apply (@upstream_error_passthrough (Sample.lib Sample.corpus)
           (Sample.error_response 429 "rate limited")).
  simpl. discriminate.
Defined.

(** C7 (counterexample).  On an upstream 429 with body "rate limited",
    [openrouter_to_github] answers 429 with a JSON error object around
    the upstream text, not with the upstream body. *)
Lemma openrouter_wraps_upstream_error :
  @OpenRouter.chat_completions (Sample.lib Sample.corpus) Sample.config
     (JObj Sample.tagged_request)
     (Sample.answers (Sample.error_response 429 "rate limited"))
  = Ok (Jsonify
          (JObj [("error",
                  JObj [("message", JStr "GitHub Models API error: rate limited");
                        ("type", JStr "api_error");
                        ("code", JInt 429)])])
          429) /\
  Sample.dumps
    (JObj [("error",
            JObj [("message", JStr "GitHub Models API error: rate limited");
                  ("type", JStr "api_error");
                  ("code", JInt 429)])])
  <> "rate limited".
Proof.
  split; [vm_compute; reflexivity | vm_compute; discriminate].
Qed.

(** C9 (witness): the three events of [Sample.three_lines]. *)
Lemma one_choice_none_done_witness :
  @GithubProxy.generate (Sample.lib Sample.corpus) "chatcmpl-1" 1700000000 (JStr "gpt-4")
    (PostReturns (Sample.ok_response "" Sample.three_lines))
  = [Sample.delta_frame; GithubProxy.done_frame] /\
  forall others,
    @GithubProxy.forward (Sample.lib Sample.corpus) "chatcmpl-1" 1700000000 (JStr "gpt-4")
      (Sample.data_line Sample.usage_chunk :: others)
    = @GithubProxy.forward (Sample.lib Sample.corpus) "chatcmpl-1" 1700000000
        (JStr "gpt-4") others.
Proof.
  apply (@one_choice_none_done (Sample.lib Sample.corpus) "chatcmpl-1" 1700000000
           (JStr "gpt-4")
           (Sample.data_line Sample.delta_chunk) (Sample.data_line Sample.usage_chunk)
           "data: [DONE]"
           (Sample.dumps Sample.delta_chunk) (Sample.dumps Sample.usage_chunk)
           Sample.delta_fields Sample.usage_fields Sample.delta_choice [] "" None).
  - vm_compute. discriminate.
  - vm_compute. reflexivity.
  - vm_compute. discriminate.
  - vm_compute. reflexivity.
  - reflexivity.
  - vm_compute. discriminate.
  - vm_compute. reflexivity.
  - vm_compute. discriminate.
  - vm_compute. reflexivity.
  - reflexivity.
  - discriminate.
  - reflexivity.
Defined.

(* ================================================================== *)
(** * More on truncation *)
(* ================================================================== *)

Lemma last_skipn {A} (k : nat) (l : list A) (d : A) :
  (k < length l)%nat -> last (skipn k l) d = last l d.
Proof.
  revert l. induction k as [|k IH]; intros l Hk; [reflexivity|].
  destruct l as [|x l]; [simpl in Hk; lia|].
  simpl skipn. rewrite IH by (simpl in Hk; lia).
  destruct l; [simpl in Hk; lia | reflexivity].
Qed.

Lemma last_app_nonempty {A} (a b : list A) (d : A) :
  b <> [] -> last (a ++ b) d = last b d.
Proof.
  intros Hb. induction a as [|x a IH]; [reflexivity|].
  simpl. rewrite IH. destruct (a ++ b) eqn:E; [|reflexivity].
  apply app_eq_nil in E. tauto.
Qed.

Lemma last_first_cut (msgs : list json) (d : json) :
  (2 <= length msgs)%nat -> last (first_cut msgs) d = last msgs d.
Proof.
  destruct msgs as [|m0 [|m1 rest]]; simpl; intros Hl; try lia. reflexivity.
Qed.

Lemma last_n_first_cut (msgs : list json) :
  (5 < length msgs)%nat ->
  GithubProxy.last_n 5 (first_cut msgs) = GithubProxy.last_n 5 msgs.
Proof.
  destruct msgs as [|m0 rest]; [reflexivity|]. simpl length. intros Hl.
  unfold first_cut. now rewrite !last_n_cons by lia.
Qed.

Lemma sum_Z_app (a b : list Z) : sum_Z (a ++ b) = sum_Z a + sum_Z b.
Proof. unfold sum_Z. induction a as [|x a IH]; simpl; [reflexivity | lia]. Qed.

Lemma len_nonneg (s : string) : 0 <= len s / 4.
Proof. apply Z.div_pos; unfold len; lia. Qed.

Lemma sum_Z_nonneg {A} (f : A -> Z) (l : list A) :
  (forall x, 0 <= f x) -> 0 <= sum_Z (map f l).
Proof.
  intros Hf. unfold sum_Z. induction l as [|x l IH]; simpl; [lia|].
  specialize (Hf x). lia.
Qed.

Section TruncationEdges.
Context `{PyLib}.

Lemma estimated_tokens_app (a b tools : list json) :
  estimated_tokens (a ++ b) tools
  = estimated_tokens a [] + estimated_tokens b tools.
Proof.
  unfold estimated_tokens. rewrite map_app, sum_Z_app. cbn [map].
  change (sum_Z []) with 0. lia.
Qed.

Lemma estimated_tokens_tools (msgs tools : list json) :
  estimated_tokens msgs [] <= estimated_tokens msgs tools.
Proof.
  unfold estimated_tokens. cbn [map]. change (sum_Z []) with 0.
  pose proof (sum_Z_nonneg (fun t => len (json_dumps t) / 4) tools
                (fun t => len_nonneg (json_dumps t))). lia.
Qed.

Lemma estimated_tokens_nonneg (msgs tools : list json) :
  0 <= estimated_tokens msgs tools.
Proof.
  unfold estimated_tokens.
  pose proof (sum_Z_nonneg (fun m => len (content_of m) / 4 + 10) msgs) as Hm.
  pose proof (sum_Z_nonneg (fun t => len (json_dumps t) / 4) tools) as Ht.
  assert (0 <= sum_Z (map (fun m => len (content_of m) / 4 + 10) msgs)).
  { apply Hm. intros m. pose proof (len_nonneg (content_of m)). lia. }
  assert (0 <= sum_Z (map (fun t => len (json_dumps t) / 4) tools)).
  { apply Ht. intros t. apply len_nonneg. }
  lia.
Qed.

(** X1.  On an over-budget ChatRequest the payload has the first ten
    tools of the request, in their order, and no others; ten tools or
    fewer are all kept. *)
Theorem over_budget_tools_capped (data : dict) :
  is_chat_request data = true ->
  6000 < estimated_tokens (messages_of data) (tools_of data) ->
  exists requested is_streaming payload,
    GithubProxy.prepare data = Ok (requested, is_streaming, payload) /\
    tools_of payload = firstn 10 (tools_of data) /\
    (length (tools_of payload) <= 10)%nat /\
    ((length (tools_of data) <= 10)%nat -> tools_of payload = tools_of data).
Proof.
  intros Hreq Hover.
  destruct (prepare_result data Hreq) as (g & st & p & Hp & _ & _ & _ & Hcut).
  destruct (Hcut Hover) as (_ & Ht).
  exists (dict_get_default data "model" (JStr "gpt-4o")), st, p.
  split; [assumption|].
  assert (Hfirst : tools_of p = firstn 10 (tools_of data)).
  { rewrite Ht. unfold kept_tools.
    destruct (Nat.ltb_spec 10 (length (tools_of data))); [reflexivity|].
    symmetry. now apply firstn_all2. }
  split; [assumption|]. split.
  - rewrite Hfirst. apply firstn_le_length.
  - intros Hl. rewrite Hfirst. now apply firstn_all2.
Qed.

(** X2.  On an over-budget ChatRequest of at most six messages no
    message is dropped: the payload has as many messages, all but the
    first are those of the request, and the first is the request's,
    cut as a system prompt when its role is "system". *)
Theorem short_conversation_keeps_messages (data : dict) :
  is_chat_request data = true ->
  6000 < estimated_tokens (messages_of data) (tools_of data) ->
  (length (messages_of data) <= 6)%nat ->
  exists requested is_streaming payload,
    GithubProxy.prepare data = Ok (requested, is_streaming, payload) /\
    length (messages_of payload) = length (messages_of data) /\
    tl (messages_of payload) = tl (messages_of data) /\
    forall m0, hd_error (messages_of data) = Some m0 ->
      hd_error (messages_of payload)
      = Some (if has_role "system" m0 then cut_system_prompt m0 else m0).
Proof.
  intros Hreq Hover Hlen.
  destruct (prepare_result data Hreq) as (g & st & p & Hp & _ & _ & _ & Hcut).
  destruct (Hcut Hover) as (Hm & _).
  exists (dict_get_default data "model" (JStr "gpt-4o")), st, p.
  split; [assumption|].
  assert (Hkept : messages_of p = first_cut (messages_of data)).
  { rewrite Hm. unfold kept_messages.
    destruct (Nat.ltb_spec 6 (length (messages_of data))); [lia | reflexivity]. }
  rewrite Hkept. destruct (messages_of data) as [|m0 rest]; simpl.
  - repeat split. discriminate.
  - repeat split. now intros m [= <-].
Qed.

(** X3.  Whatever the estimate, the last message of a ChatRequest of
    two messages or more is the last message of the payload, unchanged. *)
Theorem latest_message_survives (data : dict) (earlier : list json) (m : json) :
  is_chat_request data = true ->
  messages_of data = earlier ++ [m] ->
  earlier <> [] ->
  exists requested is_streaming payload,
    GithubProxy.prepare data = Ok (requested, is_streaming, payload) /\
    last (messages_of payload) JNull = m.
Proof.
  intros Hreq Hmsgs Hearlier.
  assert (Hlen : (2 <= length (messages_of data))%nat).
  { rewrite Hmsgs, length_app. simpl. destruct earlier; [congruence | simpl; lia]. }
  assert (Hlast : last (messages_of data) JNull = m).
  { rewrite Hmsgs. apply last_last. }
  destruct (prepare_result data Hreq) as (g & st & p & Hp & _ & _ & Hunder & Hcut).
  exists (dict_get_default data "model" (JStr "gpt-4o")), st, p.
  split; [assumption|].
  destruct (Z.leb_spec (estimated_tokens (messages_of data) (tools_of data)) 6000)
    as [Hle | Hgt].
  - destruct (Hunder Hle) as (_ & -> & _). exact Hlast.
  - destruct (Hcut Hgt) as (-> & _). unfold kept_messages.
    destruct (Nat.ltb_spec 6 (length (messages_of data))) as [H6 | H6].
    + rewrite last_app_nonempty.
      * unfold GithubProxy.last_n. rewrite last_skipn, last_first_cut; auto.
        rewrite first_cut_length. lia.
      * intros E. apply (f_equal (@length json)) in E.
        unfold GithubProxy.last_n in E.
        rewrite length_skipn, first_cut_length in E. simpl in E. lia.
    + now rewrite last_first_cut.
Qed.

(** X4.  Truncation is applied once and is not checked against the
    budget: when the last five of more than six messages are by
    themselves estimated above the budget, the payload is still
    estimated above it. *)
Theorem truncation_may_not_fit (data : dict) :
  is_chat_request data = true ->
  (6 < length (messages_of data))%nat ->
  6000 < estimated_tokens (GithubProxy.last_n 5 (messages_of data)) [] ->
  exists requested is_streaming payload,
    GithubProxy.prepare data = Ok (requested, is_streaming, payload) /\
    6000 < estimated_tokens (messages_of payload) (tools_of payload).
Proof.
  intros Hreq Hlen Htail.
  assert (Hover : 6000 < estimated_tokens (messages_of data) (tools_of data)).
  { rewrite <- (firstn_skipn (length (messages_of data) - 5) (messages_of data)) at 1.
    rewrite estimated_tokens_app.
    pose proof (estimated_tokens_nonneg
                  (firstn (length (messages_of data) - 5) (messages_of data)) []).
    fold (GithubProxy.last_n 5 (messages_of data)).
    pose proof (estimated_tokens_tools (GithubProxy.last_n 5 (messages_of data))
                  (tools_of data)).
    lia. }
  destruct (prepare_result data Hreq) as (g & st & p & Hp & _ & _ & _ & Hcut).
  destruct (Hcut Hover) as (Hm & _).
  exists (dict_get_default data "model" (JStr "gpt-4o")), st, p.
  split; [assumption|].
  rewrite Hm. unfold kept_messages.
  destruct (Nat.ltb_spec 6 (length (messages_of data))); [|lia].
  rewrite last_n_first_cut by lia. rewrite estimated_tokens_app.
  pose proof (estimated_tokens_nonneg
                (filter (has_role "system") (first_cut (messages_of data))) []).
  pose proof (estimated_tokens_tools (GithubProxy.last_n 5 (messages_of data))
                (tools_of p)).
  lia.
Qed.



End TruncationEdges.

Lemma many_tools_over_budget :
  6000 < @estimated_tokens (Sample.lib Sample.corpus)
           (messages_of Sample.many_tools_request)
           (tools_of Sample.many_tools_request).
Proof. vm_compute. reflexivity. Qed.

(** X1 (witness): twelve tools behind one long message. *)
Lemma over_budget_tools_capped_witness :
  exists requested is_streaming payload,
    @GithubProxy.prepare (Sample.lib Sample.corpus) Sample.many_tools_request
      = Ok (requested, is_streaming, payload) /\
    tools_of payload = firstn 10 (tools_of Sample.many_tools_request) /\
    (length (tools_of payload) <= 10)%nat /\
    ((length (tools_of Sample.many_tools_request) <= 10)%nat ->
     tools_of payload = tools_of Sample.many_tools_request).
Proof.
  apply (@over_budget_tools_capped (Sample.lib Sample.corpus) Sample.many_tools_request).
  - reflexivity.
  - exact many_tools_over_budget.
Defined.

(** X2 (witness): the same request has a single message. *)
Lemma short_conversation_keeps_messages_witness :
  exists requested is_streaming payload,
    @GithubProxy.prepare (Sample.lib Sample.corpus) Sample.many_tools_request
      = Ok (requested, is_streaming, payload) /\
    length (messages_of payload) = length (messages_of Sample.many_tools_request) /\
    tl (messages_of payload) = tl (messages_of Sample.many_tools_request) /\
    forall m0, hd_error (messages_of Sample.many_tools_request) = Some m0 ->
      hd_error (messages_of payload)
      = Some (if has_role "system" m0 then cut_system_prompt m0 else m0).
Proof.
  apply (@short_conversation_keeps_messages (Sample.lib Sample.corpus)
           Sample.many_tools_request).
  - reflexivity.
  - exact many_tools_over_budget.
  - simpl. lia.
Defined.

(** X3 (witness): a system message and a greeting. *)
Lemma latest_message_survives_witness :
  exists requested is_streaming payload,
    @GithubProxy.prepare (Sample.lib Sample.corpus) Sample.small_request
      = Ok (requested, is_streaming, payload) /\
    last (messages_of payload) JNull = Sample.message "user" "Hello".
Proof.
  apply (@latest_message_survives (Sample.lib Sample.corpus) Sample.small_request
           [Sample.message "system" "You are helpful."] (Sample.message "user" "Hello")).
  - reflexivity.
  - reflexivity.
  - discriminate.
Defined.

(** X4 (witness): seven messages, the last of 28000 characters. *)
Lemma truncation_may_not_fit_witness :
  exists requested is_streaming payload,
    @GithubProxy.prepare (Sample.lib Sample.corpus) Sample.long_tail_request
      = Ok (requested, is_streaming, payload) /\
    6000 < @estimated_tokens (Sample.lib Sample.corpus)
             (messages_of payload) (tools_of payload).
Proof.
  apply (@truncation_may_not_fit (Sample.lib Sample.corpus) Sample.long_tail_request).
  - reflexivity.
  - simpl. lia.
  - vm_compute. reflexivity.
Defined.


(* ================================================================== *)
(** * More on the streaming translation *)
(* ================================================================== *)

Section StreamingEdges.
Context `{PyLib}.
Variables (chunk_id : string) (created : Z) (model : json).

Local Abbreviation forward := (GithubProxy.forward chunk_id created model).
Local Abbreviation generate := (GithubProxy.generate chunk_id created model).

(** What the loop makes of one line is combined with what it makes of
    the rest: each line either leaves the rest to the loop, or puts one
    frame in front of it, or ends the loop. *)
Lemma forward_cons_congr (line : string) (a b : list string) :
  forward a = forward b -> forward (line :: a) = forward (line :: b).
Proof. intros E. cbn [GithubProxy.forward]. now rewrite E. Qed.

Lemma forward_noise (line : string) (rest : list string) :
  is_noise line -> forward (line :: rest) = forward rest.
Proof.
  intros [-> | (t & Hdec & Hkind)]; [reflexivity|].
  cbn [GithubProxy.forward]. destruct (String.eqb line ""); [reflexivity|].
  rewrite Hdec. destruct Hkind as [Hs | (Hs & Hnd & Hj)]; rewrite Hs; [reflexivity|].
  destruct (String.eqb_spec (str_drop 6 t) "[DONE]"); [contradiction|].
  destruct Hj as [-> | (p & -> & Hc)]; [reflexivity|].
  cbn [as_dict]. now rewrite Hc.
Qed.

Lemma forward_chunk_line (line : string) (rest : list string) :
  is_chunk_line line ->
  exists frame,
    forward (line :: rest) = (frame :: fst (forward rest), snd (forward rest)).
Proof.
  intros (Hne & t & p & Hdec & Hs & Hnd & Hj & Hc).
  cbn [GithubProxy.forward]. destruct (String.eqb_spec line ""); [contradiction|].
  rewrite Hdec, Hs. destruct (String.eqb_spec (str_drop 6 t) "[DONE]"); [contradiction|].
  rewrite Hj. cbn [as_dict]. rewrite Hc. cbn [negb].
  destruct (forward rest). eexists. reflexivity.
Qed.

Lemma forward_faulty (line : string) (e : exn) (rest : list string) :
  is_faulty line e -> forward (line :: rest) = ([], GithubProxy.Raised e).
Proof.
  intros (Hne & Hkind). cbn [GithubProxy.forward].
  destruct (String.eqb_spec line ""); [contradiction|].
  destruct Hkind as [-> | (t & j & -> & Hs & Hnd & Hj & Hobj & ->)]; [reflexivity|].
  rewrite Hs. destruct (String.eqb_spec (str_drop 6 t) "[DONE]"); [contradiction|].
  rewrite Hj. destruct j; try reflexivity. discriminate.
Qed.

(** The loop on a concatenation: the frames of the first part come
    first; the second part is read only if the first was exhausted. *)
Lemma forward_app (pre rest : list string) :
  forward (pre ++ rest)
  = match snd (forward pre) with
    | GithubProxy.Exhausted =>
        (fst (forward pre) ++ fst (forward rest), snd (forward rest))
    | _ => forward pre
    end.
Proof.
  induction pre as [|line pre IH].
  - cbn. now destruct (forward rest).
  - cbn [app GithubProxy.forward].
    destruct (String.eqb line ""); [exact IH|].
    destruct (utf8_decode line) as [t|e]; [|reflexivity].
    destruct (startswith t "data: "); [|exact IH].
    destruct (String.eqb (str_drop 6 t) "[DONE]"); [reflexivity|].
    destruct (json_loads (str_drop 6 t)) as [parsed|]; [|exact IH].
    destruct (as_dict parsed) as [p|e]; [|reflexivity].
    destruct (negb (truthy (dict_get_default p "choices" (JArr [])))); [exact IH|].
    rewrite IH. destruct (forward pre) as [frames stop]. cbn [fst snd].
    destruct stop; reflexivity.
Qed.

Lemma forward_ordinary (pre : list string) :
  Forall (fun l => is_noise l \/ is_chunk_line l) pre ->
  snd (forward pre) = GithubProxy.Exhausted.
Proof.
  induction 1 as [|line pre [Hn | Hc] _ IH]; [reflexivity | |].
  - now rewrite forward_noise.
  - destruct (forward_chunk_line line pre Hc) as (frame & ->). exact IH.
Qed.

(** X6.  Output is incremental: the frames made of the lines received
    so far stay the first frames of the stream, whatever lines or
    failure come next. *)
Theorem frames_are_incremental (body : string) (pre rest : list string)
    (tail : option exn) :
  exists suffix,
    generate (PostReturns (ok_stream body (pre ++ rest) tail))
    = fst (forward pre) ++ suffix.
Proof.
  cbn [GithubProxy.generate ok_stream status_code lines broken Z.eqb Pos.eqb negb].
  rewrite forward_app. destruct (forward pre) as [frames stop]. cbn [fst snd].
  destruct stop as [| |e].
  - destruct (forward rest) as [frames' stop']. cbn [fst snd].
    destruct stop' as [| |e']; [destruct tail| |];
      rewrite <- ?app_assoc; eexists; reflexivity.
  - exists []. now rewrite app_nil_r.
  - eexists. reflexivity.
Qed.

(** X7.  Nothing after the sentinel matters: the lines that follow the
    [DONE] event, and a failure of the transport after it, leave the
    stream as it is. *)
Theorem nothing_after_sentinel (body body' : string) (pre post : list string)
    (l : string) (tail : option exn) :
  l <> "" ->
  utf8_decode l = Ok "data: [DONE]" ->
  generate (PostReturns (ok_stream body (pre ++ l :: post) tail))
  = generate (PostReturns (ok_stream body' (pre ++ [l]) None)).
Proof.
  intros Hne Hdec.
  assert (Hsame : forward (pre ++ l :: post) = forward (pre ++ [l])).
  { rewrite !forward_app. destruct (snd (forward pre)); try reflexivity.
    now rewrite !(forward_done _ _ _ l _ Hne Hdec). }
  assert (Hend : snd (forward (pre ++ [l])) <> GithubProxy.Exhausted).
  { apply forward_sentinel. exists l. split; [apply in_or_app; simpl; tauto|]. tauto. }
  cbn [GithubProxy.generate ok_stream status_code lines broken Z.eqb Pos.eqb negb].
  rewrite Hsame. destruct (forward (pre ++ [l])) as [frames stop]. cbn [snd] in Hend.
  destruct stop; [contradiction | reflexivity | reflexivity].
Qed.

(** X8.  Noise is dropped silently: a blank line, a line that is not a
    data event, a data event whose payload is not JSON, and a chunk
    without choices can be removed from the upstream, wherever they
    stand, without changing the stream. *)
Theorem noise_is_dropped (body : string) (pre post : list string) (l : string)
    (tail : option exn) :
  is_noise l ->
  generate (PostReturns (ok_stream body (pre ++ l :: post) tail))
  = generate (PostReturns (ok_stream body (pre ++ post) tail)).
Proof.
  intros Hn.
  cbn [GithubProxy.generate ok_stream status_code lines broken Z.eqb Pos.eqb negb].
  rewrite !forward_app, (forward_noise l post Hn). reflexivity.
Qed.

(** X9.  A line that cannot be decoded, or whose payload is JSON but
    not an object, ends the stream: after the frames of the ordinary
    lines before it come one synthetic chunk with the description of
    the exception and the [DONE] frame; the lines after it are not
    read. *)
Theorem faulty_line_ends_stream (body : string) (pre post : list string) (l : string)
    (e : exn) (tail : option exn) :
  Forall (fun l => is_noise l \/ is_chunk_line l) pre ->
  is_faulty l e ->
  generate (PostReturns (ok_stream body (pre ++ l :: post) tail))
  = fst (forward pre)
    ++ [GithubProxy.sse (json_dumps (GithubProxy.error_chunk chunk_id created model
                                       ("Proxy error: " ++ str_of_exn e)));
        GithubProxy.done_frame].
Proof.
  intros Hpre Hf.
  cbn [GithubProxy.generate ok_stream status_code lines broken Z.eqb Pos.eqb negb].
  rewrite forward_app, (forward_ordinary pre Hpre), (forward_faulty l e post Hf).
  cbn [fst snd]. now rewrite app_nil_r.
Qed.

Lemma error_chunk_proxy (content : string) :
  proxy_chunk chunk_id created
    (GithubProxy.sse (json_dumps (GithubProxy.error_chunk chunk_id created model content))).
Proof.
  unfold proxy_chunk, GithubProxy.error_chunk. eexists.
  split; [reflexivity|]. repeat (split; [reflexivity|]). now left.
Qed.

Lemma chunk_data_proxy (choices : json) (parsed : dict) :
  proxy_chunk chunk_id created
    (GithubProxy.sse (json_dumps (GithubProxy.chunk_data chunk_id created model
                                    choices parsed))).
Proof.
  unfold proxy_chunk, GithubProxy.chunk_data. eexists. split; [reflexivity|].
  destruct (dict_get parsed "usage").
  - rewrite !dict_get_set_other by discriminate.
    repeat (split; [reflexivity|]). now right.
  - repeat (split; [reflexivity|]). now left.
Qed.

Lemma forward_proxy_chunks (ls : list string) :
  Forall (fun f => f = GithubProxy.done_frame \/ proxy_chunk chunk_id created f)
         (fst (forward ls)).
Proof.
  induction ls as [|line rest IH]; cbn [GithubProxy.forward]; [constructor|].
  destruct (String.eqb line ""); [assumption|].
  destruct (utf8_decode line) as [t|e]; [|constructor].
  destruct (startswith t "data: "); [|assumption].
  destruct (String.eqb (str_drop 6 t) "[DONE]").
  { constructor; [now left | constructor]. }
  destruct (json_loads (str_drop 6 t)) as [parsed|]; [|assumption].
  destruct (as_dict parsed) as [p|e]; [|constructor].
  destruct (negb (truthy (dict_get_default p "choices" (JArr [])))); [assumption|].
  destruct (forward rest) as [frames stop].
  cbn [fst] in *. constructor; [|assumption]. right. apply chunk_data_proxy.
Qed.

(** X10.  Every frame of a stream but the [DONE] frame is an object
    made by the proxy: it has the one identifier and the one timestamp
    of the stream and the object name [chat.completion.chunk], and its
    keys are [id], [object], [created], [model], [choices] and, at
    most, [usage]; no other field of an upstream chunk is passed on. *)
Theorem frames_share_identity (outcome : post_outcome) :
  Forall (fun f => f = GithubProxy.done_frame \/ proxy_chunk chunk_id created f)
         (generate outcome).
Proof.
  assert (Hexc : forall e,
            Forall (fun f => f = GithubProxy.done_frame \/ proxy_chunk chunk_id created f)
                   (GithubProxy.on_exception chunk_id created model e)).
  { intros e. unfold GithubProxy.on_exception.
    constructor; [right; apply error_chunk_proxy|].
    constructor; [now left | constructor]. }
  destruct outcome as [e|resp]; cbn [GithubProxy.generate]; [apply Hexc|].
  destruct (negb (status_code resp =? 200)).
  - constructor; [right; apply error_chunk_proxy|].
    constructor; [now left | constructor].
  - pose proof (forward_proxy_chunks (lines resp)) as Hf.
    destruct (forward (lines resp)) as [frames stop]. cbn [fst] in Hf.
    destruct stop as [| |e]; [destruct (broken resp)| |];
      try assumption; apply Forall_app; split; try assumption; apply Hexc.
Qed.

Lemma forward_length (ls : list string) :
  (length (fst (forward ls)) <= length ls)%nat.
Proof.
  induction ls as [|line rest IH]; cbn [GithubProxy.forward]; [simpl; lia|].
  cbn [length].
  destruct (String.eqb line ""); [lia|].
  destruct (utf8_decode line) as [t|e]; [|cbn [fst length]; lia].
  destruct (startswith t "data: "); [|lia].
  destruct (String.eqb (str_drop 6 t) "[DONE]"); [cbn [fst length]; lia|].
  destruct (json_loads (str_drop 6 t)) as [parsed|]; [|lia].
  destruct (as_dict parsed) as [p|e]; [|cbn [fst length]; lia].
  destruct (negb (truthy (dict_get_default p "choices" (JArr [])))); [lia|].
  destruct (forward rest) as [frames stop]. cbn [fst length] in *. lia.
Qed.

(** X11.  The stream is never longer than the upstream by more than
    two frames: at most one frame per upstream line, and at most one
    synthetic chunk and one [DONE] frame at the end. *)
Theorem stream_length_bounded (resp : response) :
  (length (generate (PostReturns resp)) <= length (lines resp) + 2)%nat.
Proof.
  cbn [GithubProxy.generate]. destruct (negb (status_code resp =? 200)).
  - simpl. lia.
  - pose proof (forward_length (lines resp)) as Hl.
    destruct (forward (lines resp)) as [frames stop]. cbn [fst] in Hl.
    destruct stop as [| |e]; [destruct (broken resp)| |];
      rewrite ?length_app; simpl; lia.
Qed.

End StreamingEdges.

(** X7 (witness): a chunk and a failure after the sentinel. *)
Lemma nothing_after_sentinel_witness :
  @GithubProxy.generate (Sample.lib Sample.corpus) "chatcmpl-1" 1700000000 (JStr "gpt-4")
    (PostReturns (ok_stream ""
       ([Sample.data_line Sample.delta_chunk; ""]
        ++ "data: [DONE]" :: [Sample.data_line Sample.delta_chunk])
       (Some (Exn "ConnectionError" "reset"))))
  = @GithubProxy.generate (Sample.lib Sample.corpus) "chatcmpl-1" 1700000000 (JStr "gpt-4")
      (PostReturns (ok_stream ""
         ([Sample.data_line Sample.delta_chunk; ""] ++ ["data: [DONE]"]) None)).
Proof.
  apply (@nothing_after_sentinel (Sample.lib Sample.corpus)).
  - discriminate.
  - reflexivity.
Defined.

Lemma keep_alive_is_noise : @is_noise (Sample.lib Sample.corpus) Sample.keep_alive.
Proof. right. exists Sample.keep_alive. split; [reflexivity|]. now left. Qed.

(** X8 (witness): a comment line between a chunk and the sentinel. *)
Lemma noise_is_dropped_witness :
  @GithubProxy.generate (Sample.lib Sample.corpus) "chatcmpl-1" 1700000000 (JStr "gpt-4")
    (PostReturns (ok_stream ""
       ([Sample.data_line Sample.delta_chunk] ++ Sample.keep_alive :: ["data: [DONE]"])
       None))
  = @GithubProxy.generate (Sample.lib Sample.corpus) "chatcmpl-1" 1700000000 (JStr "gpt-4")
      (PostReturns (ok_stream ""
         ([Sample.data_line Sample.delta_chunk] ++ ["data: [DONE]"]) None)).
Proof.
  apply (@noise_is_dropped (Sample.lib Sample.corpus)). exact keep_alive_is_noise.
Defined.

Lemma delta_line_is_chunk :
  @is_chunk_line (Sample.lib Sample.corpus) (Sample.data_line Sample.delta_chunk).
Proof.
  split; [vm_compute; discriminate|].
  exists (Sample.data_line Sample.delta_chunk), Sample.delta_fields.
  split; [vm_compute; reflexivity|]. split; [vm_compute; reflexivity|].
  split; [vm_compute; discriminate|]. split; vm_compute; reflexivity.
Qed.

(** X9 (witness): octets that are not UTF-8 after a chunk. *)
Lemma faulty_line_ends_stream_witness :
  @GithubProxy.generate (Sample.lib Sample.corpus) "chatcmpl-1" 1700000000 (JStr "gpt-4")
    (PostReturns (ok_stream ""
       ([Sample.data_line Sample.delta_chunk; ""]
        ++ Sample.bad_octets :: ["data: [DONE]"]) None))
  = fst (@GithubProxy.forward (Sample.lib Sample.corpus) "chatcmpl-1" 1700000000
           (JStr "gpt-4") [Sample.data_line Sample.delta_chunk; ""])
    ++ [GithubProxy.sse
          (Sample.dumps
             (GithubProxy.error_chunk "chatcmpl-1" 1700000000 (JStr "gpt-4")
                ("Proxy error: "
                 ++ str_of_exn (Exn "UnicodeDecodeError"
                                  "'utf-8' codec can't decode byte"))));
        GithubProxy.done_frame].
Proof.
  apply (@faulty_line_ends_stream (Sample.lib Sample.corpus)).
  - constructor; [right; exact delta_line_is_chunk|].
    constructor; [left; now left | constructor].
  - split; [discriminate|]. left. reflexivity.
Defined.

(* ================================================================== *)
(** * More on the non-streaming translation *)
(* ================================================================== *)

(** Assigning to a key leaves the keys in place, a new key going last. *)
Lemma keys_set_absent (d : dict) k v :
  dict_has d k = false -> keys (dict_set d k v) = keys d ++ [k].
Proof.
  unfold dict_has, keys. induction d as [|[k' v'] d IH]; simpl; [reflexivity|].
  destruct (String.eqb k' k) eqn:E; simpl; [discriminate|].
  intros Hk. now rewrite IH.
Qed.



(* ================================================================== *)
(** * More on openrouter_to_github *)
(* ================================================================== *)

Lemma first_loose_match_none table requested :
  (forall k v, In (k, v) table -> ~ loose_match k requested) ->
  OpenRouter.first_loose_match (lower requested) table = None.
Proof.
  induction table as [|[k v] table IH]; intros Hno; simpl; [reflexivity|].
  destruct (str_in (lower k) (lower requested)
            || str_in (lower requested) (lower k)) eqn:E.
  - exfalso. apply (Hno k v); [now left | now apply loose_match_bool].
  - apply IH. intros k' v' Hin. apply (Hno k' v'). now right.
Qed.

Lemma first_loose_match_value table requested_lower v :
  OpenRouter.first_loose_match requested_lower table = Some v ->
  In v (map snd table).
Proof.
  induction table as [|[k v'] table IH]; simpl; [discriminate|].
  destruct (str_in (lower k) requested_lower || str_in requested_lower (lower k)).
  - intros [= ->]. now left.
  - intros Hf. right. now apply IH.
Qed.

Lemma dict_get_value {V} (d : list (string * V)) k v :
  dict_get d k = Some v -> In v (map snd d).
Proof.
  induction d as [|[k' v'] d IH]; simpl; [discriminate|].
  destruct (String.eqb k' k); [intros [= ->]; now left | intros Hg; right; now apply IH].
Qed.

Lemma empty_matches_every_key (k : string) : loose_match k "".
Proof. right. apply str_in_spec. apply str_in_empty. Qed.

(** X13.  An id that is no key of the mapping and matches no key
    loosely is resolved to itself, whatever the configuration. *)
Theorem unknown_model_unchanged (requested : string) (cfg : OpenRouter.Config) :
  ~ In requested (keys OpenRouter.MODEL_MAPPING) ->
  (forall k v, In (k, v) OpenRouter.MODEL_MAPPING -> ~ loose_match k requested) ->
  OpenRouter.get_github_model requested cfg = requested.
Proof.
  intros Hkey Hno. unfold OpenRouter.get_github_model.
  rewrite (dict_has_false _ _ Hkey), (first_loose_match_none _ _ Hno).
  destruct (String.eqb_spec requested ""); [|reflexivity].
  subst. exfalso. apply (Hno "gpt-4" "gpt-4o"); [now left|].
  apply empty_matches_every_key.
Qed.

(** X13 (witness): "mixtral-8x7b" resolves to itself. *)
Lemma unknown_model_unchanged_witness :
  OpenRouter.get_github_model "mixtral-8x7b" OpenRouter.default_config = "mixtral-8x7b".
Proof.
  apply unknown_model_unchanged; [not_a_key|].
  intros k v Hin. rewrite loose_match_bool.
  apply not_true_iff_false.
  assert (Hall : forallb (fun kv => negb (str_in (lower (fst kv)) (lower "mixtral-8x7b")
                                          || str_in (lower "mixtral-8x7b") (lower (fst kv))))
                         OpenRouter.MODEL_MAPPING = true) by (vm_compute; reflexivity).
  rewrite forallb_forall in Hall. specialize (Hall (k, v) Hin).
  now apply negb_true_iff in Hall.
Defined.

(** X14.  The configuration has no part in the resolution:
    [get_github_model] gives the same answer under any two
    configurations, and the answer is a value of the mapping or the
    requested id itself, which is then not empty. *)
Theorem resolution_ignores_config (requested : string) (cfg cfg' : OpenRouter.Config) :
  OpenRouter.get_github_model requested cfg = OpenRouter.get_github_model requested cfg' /\
  (In (OpenRouter.get_github_model requested cfg) (map snd OpenRouter.MODEL_MAPPING) \/
   (OpenRouter.get_github_model requested cfg = requested /\ requested <> "")).
Proof.
  unfold OpenRouter.get_github_model.
  destruct (dict_get OpenRouter.MODEL_MAPPING requested) as [v|] eqn:Eg.
  { split; [reflexivity|]. left. eapply dict_get_value, Eg. }
  destruct (OpenRouter.first_loose_match (lower requested) OpenRouter.MODEL_MAPPING)
    as [v|] eqn:Ef.
  { split; [reflexivity|]. left. eapply first_loose_match_value, Ef. }
  destruct (String.eqb_spec requested "") as [-> | Hne].
  - discriminate Ef.
  - split; [reflexivity|]. right. now split.
Qed.

(** X15.  The first entry shadows the later ones: every id that is no
    key of the mapping and contains "gpt-4", in any letter case, is
    resolved to "gpt-4o", ids that name "gpt-4o-mini" in another
    spelling among them. *)
Theorem first_entry_shadows (requested : string) (cfg : OpenRouter.Config) :
  ~ In requested (keys OpenRouter.MODEL_MAPPING) ->
  substring_of "gpt-4" (lower requested) ->
  OpenRouter.get_github_model requested cfg = "gpt-4o".
Proof.
  intros Hkey Hsub. unfold OpenRouter.get_github_model.
  rewrite (dict_has_false _ _ Hkey).
  rewrite (first_loose_match_finds OpenRouter.MODEL_MAPPING requested "gpt-4o");
    [reflexivity|].
  exists [], "gpt-4", (tl OpenRouter.MODEL_MAPPING).
  split; [reflexivity|]. split; [now left | intros ? ? []].
Qed.

(** X15 (witness): "GPT-4o-Mini" is resolved to "gpt-4o". *)
Lemma first_entry_shadows_witness :
  OpenRouter.get_github_model "GPT-4o-Mini" OpenRouter.default_config = "gpt-4o".
Proof.
  apply first_entry_shadows; [not_a_key|].
  apply str_in_spec. vm_compute. reflexivity.
Defined.

Lemma copy_keys_keys (ks : list string) (req acc : dict) :
  NoDup ks ->
  (forall k, In k ks -> dict_has acc k = false) ->
  keys (OpenRouter.copy_keys ks req acc)
  = keys acc ++ filter (dict_has req) ks.
Proof.
  revert acc. induction ks as [|key rest IH]; intros acc Hnd Hfresh; simpl.
  - now rewrite app_nil_r.
  - inversion Hnd as [|? ? Hnotin Hnd']; subst.
    destruct (dict_get req key) as [v|] eqn:E.
    + replace (dict_has req key) with true by (unfold dict_has; now rewrite E).
      rewrite IH; [|assumption|].
      * rewrite keys_set_absent by (apply Hfresh; now left).
        now rewrite <- app_assoc.
      * intros k Hk. rewrite dict_has_set, (Hfresh k) by now right.
        destruct (String.eqb_spec key k); [subst; contradiction | reflexivity].
    + replace (dict_has req key) with false by (unfold dict_has; now rewrite E).
      apply IH; [assumption|]. intros k Hk. apply Hfresh. now right.
Qed.

(** X16.  The layout of the payload of [transform_request]: its keys
    are [messages], [model] and then the allow-listed parameters the
    request has, in the order of the allow-list and not of the request;
    [messages] is the request's, or the empty list when the request has
    none, and [model] is the resolution of the request's model, or of
    the configured default when the request names none. *)
Theorem transform_request_layout (req : dict) (cfg : OpenRouter.Config) :
  model_is_text req = true ->
  exists payload,
    OpenRouter.transform_request req cfg = Ok payload /\
    keys payload
    = "messages" :: "model" :: filter (dict_has req) OpenRouter.passthrough_keys /\
    dict_get payload "messages" = Some (dict_get_default req "messages" (JArr [])) /\
    dict_get payload "model"
    = Some (JStr (OpenRouter.get_github_model
                    match dict_get req "model" with
                    | Some (JStr s) => s
                    | _ => OpenRouter.default_model cfg
                    end cfg)).
Proof.
  intros Hmodel. unfold OpenRouter.transform_request.
  assert (Hreq : dict_get_default req "model" (JStr (OpenRouter.default_model cfg))
                 = JStr match dict_get req "model" with
                        | Some (JStr s) => s
                        | _ => OpenRouter.default_model cfg
                        end).
  { unfold model_is_text in Hmodel. unfold dict_get_default.
    destruct (dict_get req "model") as [[]|]; try discriminate; reflexivity. }
  rewrite Hreq. cbn [bind]. eexists. split; [reflexivity|]. split; [|split].
  - rewrite copy_keys_keys; [reflexivity | |].
    + apply nodup_by_computation. vm_compute. reflexivity.
    + intros k Hk. unfold dict_has. rewrite two_keys_other; [reflexivity | |];
        intros ->; simpl in Hk; intuition discriminate.
  - rewrite copy_keys_other; [reflexivity|]. left. simpl. intuition discriminate.
  - rewrite copy_keys_other; [reflexivity|]. left. simpl. intuition discriminate.
Qed.

(** X16 (witness): a request with [temperature] after [store]. *)
Lemma transform_request_layout_witness :
  exists payload,
    OpenRouter.transform_request Sample.tagged_request Sample.config = Ok payload /\
    keys payload
    = "messages" :: "model"
      :: filter (dict_has Sample.tagged_request) OpenRouter.passthrough_keys /\
    dict_get payload "messages"
    = Some (dict_get_default Sample.tagged_request "messages" (JArr [])) /\
    dict_get payload "model"
    = Some (JStr (OpenRouter.get_github_model
                    match dict_get Sample.tagged_request "model" with
                    | Some (JStr s) => s
                    | _ => OpenRouter.default_model Sample.config
                    end Sample.config)).
Proof.
  apply (transform_request_layout Sample.tagged_request Sample.config). reflexivity.
Defined.

Section OpenRouterEdges.
Context `{PyLib}.

(** X17.  The upstream is contacted only for a request that passed
    every check: if the answer of [chat_completions] depends on what the
    upstream does, then the token is set, the body is a JSON object that
    is not empty, and its model is absent or a string. *)
Theorem upstream_only_after_checks (cfg : OpenRouter.Config) (req : json)
    (net net' : dict -> post_outcome) :
  OpenRouter.chat_completions cfg req net <> OpenRouter.chat_completions cfg req net' ->
  OpenRouter.github_token cfg <> "" /\
  exists d, req = JObj d /\ d <> [] /\ model_is_text d = true.
Proof.
  unfold OpenRouter.chat_completions.
  destruct (String.eqb_spec (OpenRouter.github_token cfg) ""); [congruence|].
  destruct (truthy req) eqn:Ht; cbn [negb]; [|congruence].
  destruct req as [| | | | | |d]; cbn [as_dict bind]; try congruence.
  intros Hdiff. split; [assumption|]. exists d. split; [reflexivity|].
  split; [intros ->; discriminate|].
  unfold OpenRouter.transform_request in Hdiff. unfold model_is_text.
  unfold dict_get_default in Hdiff.
  destruct (dict_get d "model") as [[]|]; cbn [bind] in Hdiff; congruence.
Qed.

Lemma relay_decodable (ls : list string) :
  all_decodable ls ->
  OpenRouter.relay ls = (flat_map relayed_frames ls, None).
Proof.
  induction ls as [|line rest IH]; intros Hall; [reflexivity|].
  assert (Hrest : all_decodable rest).
  { intros l Hin. apply Hall. now right. }
  cbn [OpenRouter.relay flat_map]. unfold relayed_frames at 1.
  destruct (String.eqb_spec line "") as [-> | Hne]; [now apply IH|].
  destruct (Hall line (or_introl eq_refl) Hne) as (t & ->).
  rewrite (IH Hrest). now destruct (startswith t "data: ").
Qed.

(** X18.  When every upstream line can be decoded, the relay of
    [openrouter_to_github] is exact: its frames are the data events of
    the upstream, each followed by a blank line, in their order and
    with nothing dropped or added, the events after [DONE] included; it
    ends as the upstream ends. *)
Theorem relay_is_exact (resp : response) :
  all_decodable (lines resp) ->
  OpenRouter.stream_response resp
  = (flat_map relayed_frames (lines resp), broken resp).
Proof.
  intros Hall. unfold OpenRouter.stream_response.
  now rewrite (relay_decodable _ Hall).
Qed.

(** X19.  A line that cannot be decoded cuts the relay: the data events
    before it have been relayed, the exception ends the stream, and no
    frame is emitted for it or for the lines after it. *)
Theorem relay_stops_at_bad_line (resp : response) (pre post : list string)
    (l : string) (e : exn) :
  lines resp = pre ++ l :: post ->
  all_decodable pre ->
  l <> "" ->
  utf8_decode l = Raise e ->
  OpenRouter.stream_response resp = (flat_map relayed_frames pre, Some e).
Proof.
  intros Hlines Hall Hne Hdec. unfold OpenRouter.stream_response. rewrite Hlines.
  assert (Hrelay : OpenRouter.relay (pre ++ l :: post)
                   = (flat_map relayed_frames pre, Some e)).
  { clear Hlines. induction pre as [|line rest IH].
    - cbn [app OpenRouter.relay flat_map].
      destruct (String.eqb_spec l ""); [contradiction|]. now rewrite Hdec.
    - assert (Hrest : all_decodable rest).
      { intros x Hin. apply Hall. now right. }
      cbn [app OpenRouter.relay flat_map]. unfold relayed_frames at 1.
      destruct (String.eqb_spec line "") as [-> | Hl]; [now apply IH|].
      destruct (Hall line (or_introl eq_refl) Hl) as (t & ->).
      rewrite (IH Hrest). now destruct (startswith t "data: "). }
  now rewrite Hrelay.
Qed.

End OpenRouterEdges.

Lemma sample_lines_decodable (ls : list string) :
  forallb Sample.is_ascii ls = true ->
  @all_decodable (Sample.lib Sample.corpus) ls.
Proof.
  intros Hall l Hin _. rewrite forallb_forall in Hall.
  exists l. cbn. unfold Sample.decode. now rewrite (Hall l Hin).
Qed.

(** X17 (witness): the answer to a well-formed request differs with the
    upstream. *)
Lemma upstream_only_after_checks_witness :
  OpenRouter.github_token Sample.config <> "" /\
  exists d, JObj Sample.tagged_request = JObj d /\ d <> [] /\ model_is_text d = true.
Proof.
  apply (@upstream_only_after_checks (Sample.lib Sample.corpus) Sample.config
           (JObj Sample.tagged_request)
           (Sample.answers (Sample.ok_response (Sample.dumps Sample.completion) []))
           (Sample.answers (Sample.error_response 429 "rate limited"))).
  vm_compute. discriminate.
Defined.

(** X18 (witness): the six lines of [Sample.sse_lines]. *)
Lemma relay_is_exact_witness :
  @OpenRouter.stream_response (Sample.lib Sample.corpus)
    (Sample.ok_response "" Sample.sse_lines)
  = (flat_map (@relayed_frames (Sample.lib Sample.corpus)) Sample.sse_lines, None).
Proof.
  apply (@relay_is_exact (Sample.lib Sample.corpus)
           (Sample.ok_response "" Sample.sse_lines)).
  apply sample_lines_decodable. vm_compute. reflexivity.
Defined.

(** X19 (witness): octets that are not UTF-8 after the first event. *)
Lemma relay_stops_at_bad_line_witness :
  @OpenRouter.stream_response (Sample.lib Sample.corpus)
    (Sample.ok_response ""
       ([Sample.data_line Sample.delta_chunk; ""]
        ++ Sample.bad_octets :: ["data: [DONE]"]))
  = (flat_map (@relayed_frames (Sample.lib Sample.corpus))
       [Sample.data_line Sample.delta_chunk; ""],
     Some (Exn "UnicodeDecodeError" "'utf-8' codec can't decode byte")).
Proof.
  apply (@relay_stops_at_bad_line (Sample.lib Sample.corpus) _
           [Sample.data_line Sample.delta_chunk; ""] ["data: [DONE]"]
           Sample.bad_octets).
  - reflexivity.
  - apply sample_lines_decodable. vm_compute. reflexivity.
  - discriminate.
  - reflexivity.
Defined.

(* ================================================================== *)
(** * configure_github_proxy: running the helper again *)
(* ================================================================== *)

Lemma dict_set_same (d : dict) k v :
  dict_get d k = Some v -> dict_set d k v = d.
Proof.
  induction d as [|[k' v'] d IH]; simpl; [discriminate|].
  destruct (String.eqb_spec k' k) as [-> | Hne].
  - now intros [= ->].
  - intros Hg. now rewrite IH.
Qed.

Lemma keyed_settled (k : string) (u : json -> result json) :
  keyed k u -> settled u.
Proof.
  intros Hk x x' Hu. destruct (Hk x x' Hu) as (fields & v & -> & -> & Hfix).
  apply Hfix. apply dict_get_set_same.
Qed.

Lemma with_setdefault_keyed (k : string) (default : json) (body : json -> result json) :
  settled body -> keyed k (fun d => Configure.with_setdefault d k default body).
Proof.
  intros Hbody d out. unfold Configure.with_setdefault.
  destruct d as [| | | | | |fields]; try discriminate.
  destruct (body (dict_get_default fields k default)) as [x|e] eqn:Eb; [|discriminate].
  cbn [bind]. intros [= <-]. exists fields, x. split; [reflexivity|].
  split; [reflexivity|]. intros fields' Hget.
  unfold dict_get_default. rewrite Hget, (Hbody _ _ Eb). cbn [bind].
  now rewrite (dict_set_same _ _ _ Hget).
Qed.

Lemma set_item_keyed (k : string) (v : json) :
  keyed k (fun d => Configure.set_item d k v).
Proof.
  intros d out. destruct d as [| | | | | |fields]; try discriminate.
  cbn [Configure.set_item]. intros [= <-]. exists fields, v.
  split; [reflexivity|]. split; [reflexivity|].
  intros fields' Hget. now rewrite (dict_set_same _ _ _ Hget).
Qed.

(** Two updates of different entries, one after the other, are settled. *)
Lemma keyed_then_keyed (k1 k2 : string) (u1 u2 : json -> result json) :
  k1 <> k2 -> keyed k1 u1 -> keyed k2 u2 ->
  settled (fun d => bind (u1 d) u2).
Proof.
  intros Hne H1 H2 d out. unfold bind at 1.
  destruct (u1 d) as [d1|e] eqn:E1; [|discriminate]. intros E2.
  destruct (H1 d d1 E1) as (f1 & x1 & -> & -> & Hfix1).
  destruct (H2 _ out E2) as (f2 & x2 & Hf2 & -> & Hfix2).
  injection Hf2 as <-.
  rewrite Hfix1.
  - cbn [bind]. apply Hfix2. apply dict_get_set_same.
  - rewrite dict_get_set_other by congruence. apply dict_get_set_same.
Qed.

Lemma ok_settled : settled Ok.
Proof. intros x x' [= ->]. reflexivity. Qed.

Lemma existsb_app_last (f : json -> bool) (l : list json) (x : json) :
  f x = true -> existsb f (l ++ [x]) = true.
Proof. intros Hx. rewrite existsb_app. simpl. rewrite Hx. apply orb_true_r. Qed.

Lemma add_fallback_settled : settled Configure.add_fallback.
Proof.
  intros x x'. unfold Configure.add_fallback.
  destruct (Configure.contains x Configure.MODEL_FALLBACK) as [[]|e] eqn:Ec;
    cbn [bind]; try discriminate.
  - intros [= <-]. now rewrite Ec.
  - destruct x; try discriminate. cbn [Configure.append]. intros [= <-].
    cbn [Configure.contains]. rewrite existsb_app_last; [reflexivity|].
    apply String.eqb_refl.
Qed.

Lemma set_model_cfg_settled : settled Configure.set_model_cfg.
Proof.
  apply (keyed_then_keyed "primary" "fallbacks"
           (fun d => Configure.set_item d "primary" (JStr Configure.primary_model))
           (fun d => Configure.with_setdefault d "fallbacks" (JArr [])
                       Configure.add_fallback)).
  - discriminate.
  - apply set_item_keyed.
  - apply with_setdefault_keyed, add_fallback_settled.
Qed.

Lemma set_allowed_settled : settled Configure.set_allowed.
Proof.
  apply (keyed_then_keyed Configure.MODEL_FALLBACK Configure.primary_model
           (fun d => Configure.with_setdefault d Configure.MODEL_FALLBACK
                       (JObj [("alias", JStr "opus")]) Ok)
           (fun d => Configure.set_item d Configure.primary_model
                       (JObj [("alias", JStr "gh-opus")]))).
  - discriminate.
  - apply with_setdefault_keyed, ok_settled.
  - apply set_item_keyed.
Qed.

Lemma set_agents_settled : settled Configure.set_agents.
Proof.
  apply (keyed_then_keyed "model" "models"
           (fun d => Configure.with_setdefault d "model" (JObj []) Configure.set_model_cfg)
           (fun d => Configure.with_setdefault d "models" (JObj []) Configure.set_allowed)).
  - discriminate.
  - apply with_setdefault_keyed, set_model_cfg_settled.
  - apply with_setdefault_keyed, set_allowed_settled.
Qed.

Lemma set_models_block_settled : settled Configure.set_models_block.
Proof.
  apply (keyed_then_keyed "mode" "providers"
           (fun d => Configure.with_setdefault d "mode" (JStr "merge") Ok)
           (fun d => Configure.with_setdefault d "providers" (JObj [])
                       (fun providers =>
                          Configure.set_item providers Configure.PROVIDER_NAME
                            Configure.provider))).
  - discriminate.
  - apply with_setdefault_keyed, ok_settled.
  - apply with_setdefault_keyed. eapply keyed_settled, set_item_keyed.
Qed.

Lemma ensure_agent_defaults_keyed : keyed "agents" Configure.ensure_agent_defaults.
Proof.
  apply (with_setdefault_keyed "agents" (JObj [])
           (fun a => Configure.with_setdefault a "defaults" (JObj [])
                       Configure.set_agents)).
  eapply keyed_settled.
  apply (with_setdefault_keyed "defaults" (JObj []) Configure.set_agents).
  apply set_agents_settled.
Qed.

Lemma ensure_provider_keyed : keyed "models" Configure.ensure_provider.
Proof.
  apply (with_setdefault_keyed "models" (JObj []) Configure.set_models_block).
  apply set_models_block_settled.
Qed.

(** X20.  Running the helper on a configuration it has written changes
    nothing: whenever [configure] turns a document into another, it
    turns that other document into itself. *)
Theorem configure_twice (cfg out : json) :
  Configure.configure cfg = Ok out -> Configure.configure out = Ok out.
Proof.
  apply (keyed_then_keyed "agents" "models"
           Configure.ensure_agent_defaults Configure.ensure_provider).
  - discriminate.
  - apply ensure_agent_defaults_keyed.
  - apply ensure_provider_keyed.
Qed.

Lemma stored_config_configured :
  exists out, Configure.configure Sample.stored_config = Ok out.
Proof. eexists. vm_compute. reflexivity. Qed.

(** X20 (witness): the helper run on [Sample.stored_config], and again
    on what it wrote. *)
Lemma configure_twice_witness :
  match Configure.configure Sample.stored_config with
  | Ok out => Configure.configure out = Ok out
  | Raise _ => False
  end.
Proof.
  destruct (Configure.configure Sample.stored_config) as [out|e] eqn:E.
  - exact (configure_twice Sample.stored_config out E).
  - vm_compute in E. discriminate.
Defined.

(* ================================================================== *)
(** * configure_github_proxy: what is written and what is kept *)
(* ================================================================== *)

Lemma with_setdefault_inv (d : json) (k : string) (default : json)
    (body : json -> result json) (out : json) :
  Configure.with_setdefault d k default body = Ok out ->
  exists fields x,
    d = JObj fields /\
    body (dict_get_default fields k default) = Ok x /\
    out = JObj (dict_set fields k x).
Proof.
  unfold Configure.with_setdefault.
  destruct d as [| | | | | |fields]; try discriminate.
  destruct (body (dict_get_default fields k default)) as [x|e] eqn:Eb; [|discriminate].
  cbn [bind]. intros [= <-]. now exists fields, x.
Qed.

Lemma set_item_inv (d : json) (k : string) (v out : json) :
  Configure.set_item d k v = Ok out ->
  exists fields, d = JObj fields /\ out = JObj (dict_set fields k v).
Proof.
  destruct d as [| | | | | |fields]; try discriminate.
  cbn [Configure.set_item]. intros [= <-]. now exists fields.
Qed.

Lemma dict_get_default_set_other (d : dict) k k' v default :
  k <> k' -> dict_get_default (dict_set d k v) k' default = dict_get_default d k' default.
Proof. intros Hne. unfold dict_get_default. now rewrite dict_get_set_other. Qed.

Lemma set_model_cfg_spec (m m' : json) :
  Configure.set_model_cfg m = Ok m' ->
  exists f fb',
    m = JObj f /\
    Configure.add_fallback (dict_get_default f "fallbacks" (JArr [])) = Ok fb' /\
    m' = JObj (dict_set (dict_set f "primary" (JStr Configure.primary_model))
                 "fallbacks" fb').
Proof.
  unfold Configure.set_model_cfg.
  destruct (Configure.set_item m "primary" _) as [m1|e] eqn:E1; [|discriminate].
  cbn [bind]. intros E2.
  apply set_item_inv in E1 as (f & -> & ->).
  apply with_setdefault_inv in E2 as (f' & fb' & [= <-] & Hfb & ->).
  rewrite dict_get_default_set_other in Hfb by discriminate.
  now exists f, fb'.
Qed.

Lemma set_allowed_spec (a a' : json) :
  Configure.set_allowed a = Ok a' ->
  exists f,
    a = JObj f /\
    a' = JObj (dict_set
                 (dict_set f Configure.MODEL_FALLBACK
                    (dict_get_default f Configure.MODEL_FALLBACK
                       (JObj [("alias", JStr "opus")])))
                 Configure.primary_model (JObj [("alias", JStr "gh-opus")])).
Proof.
  unfold Configure.set_allowed.
  destruct (Configure.with_setdefault a _ _ Ok) as [a1|e] eqn:E1; [|discriminate].
  cbn [bind]. intros E2.
  apply with_setdefault_inv in E1 as (f & x & -> & [= <-] & ->).
  apply set_item_inv in E2 as (f' & [= <-] & ->).
  now exists f.
Qed.

Lemma set_agents_spec (d d' : json) :
  Configure.set_agents d = Ok d' ->
  exists f m' a',
    d = JObj f /\
    Configure.set_model_cfg (dict_get_default f "model" (JObj [])) = Ok m' /\
    Configure.set_allowed (dict_get_default f "models" (JObj [])) = Ok a' /\
    d' = JObj (dict_set (dict_set f "model" m') "models" a').
Proof.
  unfold Configure.set_agents.
  destruct (Configure.with_setdefault d "model" _ _) as [d1|e] eqn:E1; [|discriminate].
  cbn [bind]. intros E2.
  apply with_setdefault_inv in E1 as (f & m' & -> & Hm & ->).
  apply with_setdefault_inv in E2 as (f' & a' & [= <-] & Ha & ->).
  rewrite dict_get_default_set_other in Ha by discriminate.
  now exists f, m', a'.
Qed.

Lemma ensure_agent_defaults_spec (cfg out : json) :
  Configure.ensure_agent_defaults cfg = Ok out ->
  exists f fa d',
    cfg = JObj f /\
    dict_get_default f "agents" (JObj []) = JObj fa /\
    Configure.set_agents (dict_get_default fa "defaults" (JObj [])) = Ok d' /\
    out = JObj (dict_set f "agents" (JObj (dict_set fa "defaults" d'))).
Proof.
  intros E. apply with_setdefault_inv in E as (f & a' & -> & Ha & ->).
  apply with_setdefault_inv in Ha as (fa & d' & Hfa & Hd & ->).
  now exists f, fa, d'.
Qed.

Lemma ensure_provider_spec (cfg out : json) :
  Configure.ensure_provider cfg = Ok out ->
  exists f fm fp,
    cfg = JObj f /\
    dict_get_default f "models" (JObj []) = JObj fm /\
    dict_get_default fm "providers" (JObj []) = JObj fp /\
    out = JObj (dict_set f "models"
                  (JObj (dict_set
                           (dict_set fm "mode" (dict_get_default fm "mode" (JStr "merge")))
                           "providers"
                           (JObj (dict_set fp Configure.PROVIDER_NAME
                                    Configure.provider))))).
Proof.
  intros E. apply with_setdefault_inv in E as (f & mb & -> & Hmb & ->).
  unfold Configure.set_models_block in Hmb.
  destruct (Configure.with_setdefault _ "mode" _ Ok) as [m1|e] eqn:E1; [|discriminate].
  cbn [bind] in Hmb.
  apply with_setdefault_inv in E1 as (fm & x & Hfm & [= <-] & ->).
  apply with_setdefault_inv in Hmb as (fm' & p' & [= <-] & Hp & ->).
  rewrite dict_get_default_set_other in Hp by discriminate.
  apply set_item_inv in Hp as (fp & Hfp & ->).
  now exists f, fm, fp.
Qed.

(** A present entry is what [get] with a default returns. *)
Lemma dict_get_default_some (d : dict) k v default :
  dict_get d k = Some v -> dict_get_default d k default = v.
Proof. unfold dict_get_default. now intros ->. Qed.

Lemma add_fallback_contains (fb fb' : json) :
  Configure.add_fallback fb = Ok fb' ->
  Configure.contains fb' Configure.MODEL_FALLBACK = Ok true.
Proof.
  unfold Configure.add_fallback.
  destruct (Configure.contains fb Configure.MODEL_FALLBACK) as [[]|e] eqn:Ec;
    cbn [bind]; try discriminate.
  - now intros [= <-].
  - destruct fb; try discriminate. cbn [Configure.append]. intros [= <-].
    cbn [Configure.contains]. rewrite existsb_app_last; [reflexivity|].
    apply String.eqb_refl.
Qed.

Lemma add_fallback_list (l : list json) (fb' : json) :
  Configure.add_fallback (JArr l) = Ok fb' ->
  exists suffix,
    fb' = JArr (l ++ suffix) /\
    (suffix = [] \/ suffix = [JStr Configure.MODEL_FALLBACK]).
Proof.
  unfold Configure.add_fallback. cbn [Configure.contains bind].
  destruct (existsb _ l).
  - intros [= <-]. exists []. rewrite app_nil_r. tauto.
  - cbn [Configure.append]. intros [= <-]. eexists. split; [reflexivity | tauto].
Qed.

(** X21.  What the helper writes: in every document it returns, the
    primary model of the agent defaults is "github-proxy/claude-4.5-opus",
    the fallbacks contain "anthropic/claude-opus-4-5", both models are
    among the allowed ones, the second with the alias "gh-opus", the
    models block has a mode, and the provider "github-proxy" is the
    provider block of the script. *)
Theorem configure_writes (cfg out : json) :
  Configure.configure cfg = Ok out ->
  path_get out ["agents"; "defaults"; "model"; "primary"]
    = Some (JStr "github-proxy/claude-4.5-opus") /\
  (exists fb, path_get out ["agents"; "defaults"; "model"; "fallbacks"] = Some fb /\
              Configure.contains fb "anthropic/claude-opus-4-5" = Ok true) /\
  (exists alias,
     path_get out ["agents"; "defaults"; "models"; "anthropic/claude-opus-4-5"]
     = Some alias) /\
  path_get out ["agents"; "defaults"; "models"; "github-proxy/claude-4.5-opus"]
    = Some (JObj [("alias", JStr "gh-opus")]) /\
  (exists mode, path_get out ["models"; "mode"] = Some mode) /\
  path_get out ["models"; "providers"; "github-proxy"] = Some Configure.provider.
Proof.
  unfold Configure.configure.
  destruct (Configure.ensure_agent_defaults cfg) as [c1|e] eqn:E1; [|discriminate].
  cbn [bind]. intros E2.
  apply ensure_agent_defaults_spec in E1 as (f & fa & d' & -> & Hfa & Hd & ->).
  apply ensure_provider_spec in E2 as (f' & fm & fp & [= <-] & Hfm & Hfp & ->).
  apply set_agents_spec in Hd as (fd & m' & a' & Hfd & Hm & Ha & ->).
  apply set_model_cfg_spec in Hm as (fmc & fb' & Hfmc & Hfb & ->).
  apply set_allowed_spec in Ha as (fal & Hfal & ->).
  pose proof (add_fallback_contains _ _ Hfb) as Hin.
  cbn [path_get].
  rewrite !(dict_get_set_other _ "models" "agents") by discriminate.
  rewrite !dict_get_set_same.
  rewrite !(dict_get_set_other _ "models" "model") by discriminate.
  rewrite !dict_get_set_same.
  rewrite !(dict_get_set_other _ "fallbacks" "primary") by discriminate.
  rewrite !dict_get_set_same.
  rewrite !(dict_get_set_other _ Configure.primary_model Configure.MODEL_FALLBACK)
    by discriminate.
  change "github-proxy/claude-4.5-opus" with Configure.primary_model.
  change "anthropic/claude-opus-4-5" with Configure.MODEL_FALLBACK.
  change "github-proxy" with Configure.PROVIDER_NAME.
  rewrite !dict_get_set_same.
  rewrite !(dict_get_set_other _ "providers" "mode") by discriminate.
  rewrite !dict_get_set_same.
  repeat split; eauto.
Qed.

(** X21 (witness): the helper run on [Sample.stored_config]. *)
Lemma configure_writes_witness :
  match Configure.configure Sample.stored_config with
  | Ok out =>
      path_get out ["models"; "providers"; "github-proxy"] = Some Configure.provider /\
      path_get out ["agents"; "defaults"; "model"; "primary"]
      = Some (JStr "github-proxy/claude-4.5-opus")
  | Raise _ => False
  end.
Proof.
  destruct (Configure.configure Sample.stored_config) as [out|e] eqn:E.
  - destruct (configure_writes Sample.stored_config out E) as (Hp & _ & _ & _ & _ & Hprov).
    split; assumption.
  - vm_compute in E. discriminate.
Defined.

(** X22.  What the helper keeps: every top-level entry other than
    [agents] and [models], every provider other than "github-proxy", a
    mode that is already set, the fallbacks already listed, in their
    order and before the one that may be added, and an alias already
    given to "anthropic/claude-opus-4-5". *)
Theorem configure_keeps (cfg out : json) :
  Configure.configure cfg = Ok out ->
  (forall k rest, k <> "agents" -> k <> "models" ->
     path_get out (k :: rest) = path_get cfg (k :: rest)) /\
  (forall p rest, p <> "github-proxy" ->
     path_get out ("models" :: "providers" :: p :: rest)
     = path_get cfg ("models" :: "providers" :: p :: rest)) /\
  (forall mode, path_get cfg ["models"; "mode"] = Some mode ->
     path_get out ["models"; "mode"] = Some mode) /\
  (forall l, path_get cfg ["agents"; "defaults"; "model"; "fallbacks"] = Some (JArr l) ->
     exists suffix,
       path_get out ["agents"; "defaults"; "model"; "fallbacks"]
       = Some (JArr (l ++ suffix)) /\
       (suffix = [] \/ suffix = [JStr "anthropic/claude-opus-4-5"])) /\
  (forall alias,
     path_get cfg ["agents"; "defaults"; "models"; "anthropic/claude-opus-4-5"]
     = Some alias ->
     path_get out ["agents"; "defaults"; "models"; "anthropic/claude-opus-4-5"]
     = Some alias).
Proof.
  unfold Configure.configure.
  destruct (Configure.ensure_agent_defaults cfg) as [c1|e] eqn:E1; [|discriminate].
  cbn [bind]. intros E2.
  apply ensure_agent_defaults_spec in E1 as (f & fa & d' & -> & Hfa & Hd & ->).
  apply ensure_provider_spec in E2 as (f' & fm & fp & [= <-] & Hfm & Hfp & ->).
  apply set_agents_spec in Hd as (fd & m' & a' & Hfd & Hm & Ha & ->).
  apply set_model_cfg_spec in Hm as (fmc & fb' & Hfmc & Hfb & ->).
  apply set_allowed_spec in Ha as (fal & Hfal & ->).
  rewrite dict_get_default_set_other in Hfm by discriminate.
  split; [|split; [|split; [|split]]].
  - intros k rest Hk1 Hk2. cbn [path_get].
    now rewrite !dict_get_set_other by congruence.
  - intros p rest Hp. cbn [path_get]. rewrite dict_get_set_same.
    rewrite dict_get_set_same.
    change "github-proxy" with Configure.PROVIDER_NAME in Hp.
    rewrite (dict_get_set_other fp Configure.PROVIDER_NAME p) by congruence.
    unfold dict_get_default in Hfm, Hfp.
    destruct (dict_get f "models") as [mv|]; [subst mv|].
    + destruct (dict_get fm "providers") as [pv|]; [subst pv; reflexivity|].
      injection Hfp as <-. reflexivity.
    + injection Hfm as <-. cbn in Hfp. injection Hfp as <-. reflexivity.
  - intros mode. cbn [path_get]. rewrite dict_get_set_same.
    rewrite (dict_get_set_other _ "providers" "mode") by discriminate.
    rewrite dict_get_set_same.
    unfold dict_get_default in Hfm.
    destruct (dict_get f "models") as [mv|]; [subst mv|discriminate].
    unfold dict_get_default. destruct (dict_get fm "mode"); [|discriminate].
    now intros [= ->].
  - intros l. cbn [path_get].
    rewrite (dict_get_set_other _ "models" "agents") by discriminate.
    rewrite !dict_get_set_same.
    rewrite (dict_get_set_other _ "models" "model") by discriminate.
    rewrite !dict_get_set_same.
    unfold dict_get_default in Hfa, Hfd, Hfmc.
    destruct (dict_get f "agents") as [av|]; [subst av|discriminate].
    destruct (dict_get fa "defaults") as [dv|]; [subst dv|discriminate].
    destruct (dict_get fd "model") as [mv|]; [subst mv|discriminate].
    intros Hl.
    destruct (dict_get fmc "fallbacks") as [fb|] eqn:Efb; [|discriminate].
    injection Hl as ->.
    rewrite (dict_get_default_some _ _ _ _ Efb) in Hfb.
    destruct (add_fallback_list _ _ Hfb) as (suffix & -> & Hs).
    exists suffix. split; [reflexivity | exact Hs].
  - intros alias. cbn [path_get].
    rewrite (dict_get_set_other _ "models" "agents") by discriminate.
    rewrite !dict_get_set_same.
    change "anthropic/claude-opus-4-5" with Configure.MODEL_FALLBACK.
    rewrite (dict_get_set_other _ Configure.primary_model Configure.MODEL_FALLBACK)
      by discriminate.
    rewrite dict_get_set_same.
    unfold dict_get_default in Hfa, Hfd, Hfal.
    destruct (dict_get f "agents") as [av|]; [subst av|discriminate].
    destruct (dict_get fa "defaults") as [dv|]; [subst dv|discriminate].
    destruct (dict_get fd "models") as [mv|]; [subst mv|discriminate].
    unfold dict_get_default.
    destruct (dict_get fal Configure.MODEL_FALLBACK); [|discriminate].
    now intros [= ->].
Qed.

(** X22 (witness): the theme, the local provider, the mode and the
    fallback of [Sample.stored_config] are kept. *)
Lemma configure_keeps_witness :
  match Configure.configure Sample.stored_config with
  | Ok out =>
      path_get out ["theme"] = Some (JStr "dark") /\
      path_get out ["models"; "providers"; "local"; "baseUrl"]
      = Some (JStr "http://127.0.0.1:1234") /\
      path_get out ["models"; "mode"] = Some (JStr "replace")
  | Raise _ => False
  end.
Proof.
  destruct (Configure.configure Sample.stored_config) as [out|e] eqn:E.
  - destruct (configure_keeps Sample.stored_config out E) as (Htop & Hprov & Hmode & _).
    split; [|split].
    + rewrite Htop by discriminate. reflexivity.
    + rewrite Hprov by discriminate. reflexivity.
    + apply Hmode. reflexivity.
  - vm_compute in E. discriminate.
Defined.

(* ================================================================== *)
(** * configure_github_proxy: when the helper succeeds *)
(* ================================================================== *)

Lemma entry_default (shape : json -> bool) (f : dict) (k : string) (default : json) :
  entry shape f k = true -> shape default = true ->
  shape (dict_get_default f k default) = true.
Proof.
  unfold entry, dict_get_default. now destruct (dict_get f k).
Qed.

Lemma with_setdefault_ok (f : dict) (k : string) (default x : json)
    (body : json -> result json) :
  body (dict_get_default f k default) = Ok x ->
  Configure.with_setdefault (JObj f) k default body = Ok (JObj (dict_set f k x)).
Proof. intros Hb. cbn [Configure.with_setdefault]. now rewrite Hb. Qed.

Lemma add_fallback_ok (fb : json) :
  is_list fb = true -> exists fb', Configure.add_fallback fb = Ok fb'.
Proof.
  destruct fb as [| | | | |l|]; try discriminate. intros _.
  unfold Configure.add_fallback. cbn [Configure.contains bind].
  destruct (existsb _ l); eexists; reflexivity.
Qed.

Lemma set_model_cfg_ok (m : json) :
  shaped_model_cfg m = true -> exists m', Configure.set_model_cfg m = Ok m'.
Proof.
  destruct m as [| | | | | |f]; try discriminate. cbn [shaped_model_cfg with_fields].
  intros Hf. unfold Configure.set_model_cfg. cbn [Configure.set_item bind].
  destruct (add_fallback_ok (dict_get_default f "fallbacks" (JArr []))) as (fb' & Hfb).
  { now apply entry_default. }
  eexists. apply with_setdefault_ok.
  rewrite dict_get_default_set_other by discriminate. exact Hfb.
Qed.

Lemma set_allowed_ok (a : json) :
  is_object a = true -> exists a', Configure.set_allowed a = Ok a'.
Proof.
  destruct a as [| | | | | |f]; try discriminate. intros _.
  unfold Configure.set_allowed. cbn [Configure.with_setdefault bind Configure.set_item].
  eexists. reflexivity.
Qed.

Lemma set_agents_ok (d : json) :
  shaped_defaults d = true -> exists d', Configure.set_agents d = Ok d'.
Proof.
  destruct d as [| | | | | |f]; try discriminate. cbn [shaped_defaults with_fields].
  intros Hf. apply andb_true_iff in Hf as [Hmodel Hmodels].
  destruct (set_model_cfg_ok (dict_get_default f "model" (JObj []))) as (m' & Hm).
  { now apply entry_default. }
  destruct (set_allowed_ok (dict_get_default f "models" (JObj []))) as (a' & Ha).
  { now apply entry_default. }
  unfold Configure.set_agents. rewrite (with_setdefault_ok _ _ _ _ _ Hm). cbn [bind].
  eexists. apply with_setdefault_ok.
  rewrite dict_get_default_set_other by discriminate. exact Ha.
Qed.

Lemma ensure_agent_defaults_ok (f : dict) :
  entry shaped_agents f "agents" = true ->
  exists a', Configure.ensure_agent_defaults (JObj f)
             = Ok (JObj (dict_set f "agents" a')).
Proof.
  intros Hf.
  assert (Ha : shaped_agents (dict_get_default f "agents" (JObj [])) = true)
    by now apply entry_default.
  destruct (dict_get_default f "agents" (JObj [])) as [| | | | | |fa] eqn:Efa;
    try discriminate.
  cbn [shaped_agents with_fields] in Ha.
  destruct (set_agents_ok (dict_get_default fa "defaults" (JObj []))) as (d' & Hd).
  { now apply entry_default. }
  eexists. unfold Configure.ensure_agent_defaults. apply with_setdefault_ok.
  rewrite Efa. apply with_setdefault_ok. exact Hd.
Qed.

Lemma ensure_provider_ok (f : dict) :
  entry shaped_models_block f "models" = true ->
  exists out, Configure.ensure_provider (JObj f) = Ok out.
Proof.
  intros Hf.
  assert (Hb : shaped_models_block (dict_get_default f "models" (JObj [])) = true)
    by now apply entry_default.
  destruct (dict_get_default f "models" (JObj [])) as [| | | | | |fm] eqn:Efm;
    try discriminate.
  cbn [shaped_models_block with_fields] in Hb.
  assert (Hp : is_object (dict_get_default fm "providers" (JObj [])) = true)
    by now apply entry_default.
  destruct (dict_get_default fm "providers" (JObj [])) as [| | | | | |fp] eqn:Efp;
    try discriminate.
  eexists. unfold Configure.ensure_provider. apply with_setdefault_ok.
  rewrite Efm. unfold Configure.set_models_block.
  cbn [Configure.with_setdefault bind].
  rewrite dict_get_default_set_other by discriminate. rewrite Efp.
  cbn [Configure.set_item bind]. reflexivity.
Qed.

(** X23.  The helper succeeds on every configuration of the expected
    shape: when the objects it descends into are objects, and the
    fallbacks a list, wherever they are present, [configure] returns a
    document. *)
Theorem configure_succeeds (cfg : json) :
  well_shaped cfg = true -> exists out, Configure.configure cfg = Ok out.
Proof.
  destruct cfg as [| | | | | |f]; try discriminate. cbn [well_shaped with_fields].
  intros Hf. apply andb_true_iff in Hf as [Hagents Hmodels].
  destruct (ensure_agent_defaults_ok f Hagents) as (a' & Ha).
  destruct (ensure_provider_ok (dict_set f "agents" a')) as (out & Hout).
  { unfold entry. now rewrite dict_get_set_other by discriminate. }
  exists out. unfold Configure.configure. now rewrite Ha.
Qed.

(** X23 (witness): [Sample.stored_config] has the expected shape. *)
Lemma configure_succeeds_witness :
  exists out, Configure.configure Sample.stored_config = Ok out.
Proof. apply configure_succeeds. reflexivity. Defined.

(* ================================================================== *)
(** * Long conversations *)
(* ================================================================== *)

Section LongConversations.
Context `{PyLib}.

(** X24.  On an over-budget ChatRequest of more than six messages the
    payload holds every system message of the request, in order, a
    leading one cut as a system prompt, followed by the last five
    messages of the request as they are: five more messages than the
    request has system messages. *)
Theorem long_conversation_truncated (data : dict) :
  is_chat_request data = true ->
  6000 < estimated_tokens (messages_of data) (tools_of data) ->
  (6 < length (messages_of data))%nat ->
  exists requested is_streaming payload,
    GithubProxy.prepare data = Ok (requested, is_streaming, payload) /\
    messages_of payload
    = filter (has_role "system") (first_cut (messages_of data))
      ++ GithubProxy.last_n 5 (messages_of data) /\
    length (messages_of payload)
    = (length (filter (has_role "system") (messages_of data)) + 5)%nat.
Proof.
  intros Hreq Hover Hlen.
  destruct (prepare_result data Hreq) as (g & st & p & Hp & _ & _ & _ & Hcut).
  destruct (Hcut Hover) as (Hm & _).
  exists (dict_get_default data "model" (JStr "gpt-4o")), st, p.
  split; [assumption|].
  assert (Hkept : messages_of p
                  = filter (has_role "system") (first_cut (messages_of data))
                    ++ GithubProxy.last_n 5 (messages_of data)).
  { rewrite Hm. unfold kept_messages.
    destruct (Nat.ltb_spec 6 (length (messages_of data))); [|lia].
    now rewrite last_n_first_cut by lia. }
  split; [assumption|].
  rewrite Hkept, length_app. unfold GithubProxy.last_n. rewrite length_skipn.
  assert (Hsys : length (filter (has_role "system") (first_cut (messages_of data)))
                 = length (filter (has_role "system") (messages_of data))).
  { destruct (messages_of data) as [|m0 rest]; [reflexivity|].
    unfold first_cut. cbn [filter].
    destruct (has_role "system" m0) eqn:E.
    - now rewrite cut_system_prompt_role, E.
    - now rewrite E. }
  rewrite Hsys. lia.
Qed.

Lemma estimate_at_least (msgs tools : list json) :
  10 * Z.of_nat (length msgs) <= estimated_tokens msgs tools.
Proof.
  pose proof (estimated_tokens_tools msgs tools) as Ht.
  assert (10 * Z.of_nat (length msgs) <= estimated_tokens msgs []); [|lia].
  clear Ht. unfold estimated_tokens. cbn [map]. change (sum_Z []) with 0.
  induction msgs as [|m msgs IH]; [cbn; lia|].
  cbn [map length]. unfold sum_Z in *. cbn [fold_right].
  pose proof (len_nonneg (content_of m)). lia.
Qed.

(** X25.  Every message counts for at least ten units, so a
    conversation of more than 600 messages is over budget whatever it
    says: its payload holds the system messages and the last five
    messages only. *)
Theorem long_history_always_truncated (data : dict) :
  is_chat_request data = true ->
  (600 < length (messages_of data))%nat ->
  exists requested is_streaming payload,
    GithubProxy.prepare data = Ok (requested, is_streaming, payload) /\
    messages_of payload
    = filter (has_role "system") (first_cut (messages_of data))
      ++ GithubProxy.last_n 5 (messages_of data).
Proof.
  intros Hreq Hlen.
  pose proof (estimate_at_least (messages_of data) (tools_of data)) as Hest.
  destruct (prepare_result data Hreq) as (g & st & p & Hp & _ & _ & _ & Hcut).
  destruct Hcut as (Hm & _); [lia|].
  exists (dict_get_default data "model" (JStr "gpt-4o")), st, p.
  split; [assumption|].
  rewrite Hm. unfold kept_messages.
  destruct (Nat.ltb_spec 6 (length (messages_of data))); [|lia].
  now rewrite last_n_first_cut by lia.
Qed.

End LongConversations.

(** X24 (witness): the seven messages of [Sample.late_system_request]. *)
Lemma long_conversation_truncated_witness :
  exists requested is_streaming payload,
    @GithubProxy.prepare (Sample.lib Sample.corpus) Sample.late_system_request
      = Ok (requested, is_streaming, payload) /\
    messages_of payload
    = filter (has_role "system") (first_cut (messages_of Sample.late_system_request))
      ++ GithubProxy.last_n 5 (messages_of Sample.late_system_request) /\
    length (messages_of payload)
    = (length (filter (has_role "system") (messages_of Sample.late_system_request))
       + 5)%nat.
Proof.
  apply (@long_conversation_truncated (Sample.lib Sample.corpus)
           Sample.late_system_request).
  - reflexivity.
  - exact late_system_over_budget.
  - simpl. lia.
Defined.

(** X25 (witness): 601 messages of one letter each. *)
Lemma long_history_always_truncated_witness :
  exists requested is_streaming payload,
    @GithubProxy.prepare (Sample.lib Sample.corpus) Sample.long_history_request
      = Ok (requested, is_streaming, payload) /\
    messages_of payload
    = filter (has_role "system") (first_cut (messages_of Sample.long_history_request))
      ++ GithubProxy.last_n 5 (messages_of Sample.long_history_request).
Proof.
  apply (@long_history_always_truncated (Sample.lib Sample.corpus)
           Sample.long_history_request).
  - vm_compute. reflexivity.
  - apply Nat.ltb_lt. vm_compute. reflexivity.
Defined.
